(** * Fastapi-ecom: authorization, tenant scoping and order placement

    A shallow embedding of the request-handling core of the multi-tenant
    e-commerce backend ([app/models.py], [app/crud.py], [app/dependencies.py],
    [app/keycloak.py] and the routers), followed by the properties of the
    specification that were checked against it.

    Conventions of the embedding:
    - a table with an integer primary key is a [gmap Z row]; the two tables
      that are only appended to and filtered ([order_items] and the
      [user_favourites] association table) are lists in insertion order;
    - a SQLAlchemy session is a pair of stores, the committed one and the
      one the session works on; [db.commit()] publishes the working store and
      [db.close()] discards it;
    - Python exceptions are the [Raise] outcome of a state-and-error monad;
      the state is kept when an exception propagates, as in Python;
    - [Float] columns and Python floats are IEEE binary64 numbers
      ([PrimFloat.float]); Python integers are unbounded ([Z]), an [Integer]
      column holds the 64-bit ones;
    - a [string] is a Python [str] of characters below U+0100, one [ascii]
      per code point;
    - the database is SQLite, the default of [app/config.py];
    - the [created_at] timestamp columns play no role in any operation below
      and are left out of the rows. *)

From Stdlib Require Import ZArith String Ascii List Bool Lia.
From Stdlib Require Import PrimFloat.
From Stdlib Require FloatOps SpecFloat.
From stdpp Require Import gmap strings list fin_maps sorting.

Local Open Scope string_scope.
Local Open Scope Z_scope.

(** ** Strings

    A [string] stands for a Python [str] whose characters are code points
    below U+0100 (Basic Latin and Latin-1 Supplement), one [ascii] per code
    point: the character ["201"%char] is the letter E with acute accent.
    Text with other characters is outside the embedding. *)

(** SQL [lower()], as SQLite has it: the letters A to Z are folded and no
    other character. *)
Definition func_lower_char (c : ascii) : ascii :=
  let n := nat_of_ascii c in
  if ((65 <=? n)%nat && (n <=? 90)%nat)%bool then ascii_of_nat (n + 32) else c.

Fixpoint func_lower (s : string) : string :=
  match s with
  | EmptyString => EmptyString
  | String c s' => String (func_lower_char c) (func_lower s')
  end.

(** [str.lower()]: besides A to Z, the capital letters of Latin-1 (192 to 222
    without the multiplication sign 215) are folded, each to the code point 32
    above. *)
Definition str_lower_char (c : ascii) : ascii :=
  let n := nat_of_ascii c in
  if (((65 <=? n)%nat && (n <=? 90)%nat)
      || (((192 <=? n)%nat && (n <=? 222)%nat) && negb (n =? 215)%nat))%bool
  then ascii_of_nat (n + 32) else c.

Fixpoint str_lower (s : string) : string :=
  match s with
  | EmptyString => EmptyString
  | String c s' => String (str_lower_char c) (str_lower s')
  end.

(** All characters of [s] are ASCII. *)
Fixpoint is_ascii (s : string) : bool :=
  match s with
  | EmptyString => true
  | String c s' => (nat_of_ascii c <? 128)%nat && is_ascii s'
  end.

(** Truthiness of an optional string: [None] and [''] are falsy. *)
Definition truthy (o : option string) : bool :=
  match o with
  | Some s => negb (String.eqb s "")
  | None => false
  end.

(** Python's [a or b] on optional strings. *)
Definition py_or (a b : option string) : option string :=
  if truthy a then a else b.

(** [str.strip()] with no argument removes the white space at both ends: the
    characters [str.isspace()] holds of, which below U+0100 are 9 to 13, the
    separators 28 to 31, the space, the next-line control 133 and the
    no-break space 160. *)
Definition is_space (c : ascii) : bool :=
  let n := nat_of_ascii c in
  ((9 <=? n)%nat && (n <=? 13)%nat) || ((28 <=? n)%nat && (n <=? 32)%nat)
  || (n =? 133)%nat || (n =? 160)%nat.

Fixpoint lstrip (s : string) : string :=
  match s with
  | EmptyString => EmptyString
  | String c s' => if is_space c then lstrip s' else s
  end.

Fixpoint rstrip (s : string) : string :=
  match s with
  | EmptyString => EmptyString
  | String c s' =>
      let r := rstrip s' in
      if is_space c && String.eqb r "" then EmptyString else String c r
  end.

Definition strip (s : string) : string := rstrip (lstrip s).

(** [s.split(' ', 1)[1]]: what follows the first space; there is no such
    element ([IndexError]) when [s] has no space. *)
Fixpoint after_first_space (s : string) : option string :=
  match s with
  | EmptyString => None
  | String c s' => if Ascii.eqb c " " then Some s' else after_first_space s'
  end.

(** Some character of [s] is white space. *)
Fixpoint has_space (s : string) : bool :=
  match s with
  | EmptyString => false
  | String c s' => is_space c || has_space s'
  end.

(** ** Floats *)

(** Conversion of a Python [int] operand of a float multiplication: the nearest
    binary64 number.  (Python raises [OverflowError] where this is infinite,
    beyond any quantity an [Integer] column can hold.) *)
Definition of_int (z : Z) : float :=
  FloatOps.SF2Prim (SpecFloat.binary_normalize FloatOps.prec FloatOps.emax z 0 false).

(** What a [Float] column hands back for a value written to it: SQLite keeps
    no negative zero.  (A NaN it does not store at all, see [flush_product].) *)
Definition sqlite_real (f : float) : float :=
  if (f =? 0)%float then 0%float else f.

(** The integers an [Integer] column, and a bound parameter of a statement,
    can hold. *)
Definition fits_int64 (z : Z) : bool := (- 2 ^ 63 <=? z) && (z <? 2 ^ 63).

(** ** Exceptions ([app/exceptions.py], FastAPI, built-ins) *)

Inductive ValueErrorDetail :=
| InvalidQuantity (quantity : Z)
| InsufficientStock (name : string) (available requested : Z).

Inductive Exn :=
| ResourceNotFoundError (resource : string)
| ResourceAlreadyExistsError (resource : string)
| PermissionDeniedError
| UnauthorizedError
| InvalidTokenError
| InvalidOperationError
| ValueError (detail : ValueErrorDetail)
| HTTPException (status_code : Z)
| RequestValidationError
| KeycloakError
| IntegrityError
| OverflowError.

(** The status the exception handlers of [app/main.py] (and FastAPI's own
    handlers for [HTTPException] and request validation) answer with. *)
Definition response_status (e : Exn) : Z :=
  match e with
  | ResourceNotFoundError _ => 404
  | ResourceAlreadyExistsError _ => 400
  | PermissionDeniedError => 403
  | UnauthorizedError => 401
  | InvalidTokenError => 401
  | InvalidOperationError => 400
  | HTTPException s => s
  | RequestValidationError => 422
  | ValueError _ => 500
  | KeycloakError => 500
  | IntegrityError => 500
  | OverflowError => 500
  end.

Inductive Result (A : Type) :=
| Ok (a : A)
| Raise (e : Exn).
Arguments Ok {A} a.
Arguments Raise {A} e.

(** ** Rows ([app/models.py]) *)

Module Tenant.
Record t := { id : Z; name : string }.
End Tenant.

Module User.
Record t := { id : Z; username : string; role : string; tenant_id : option Z }.
Definition set_role (r : string) (u : t) : t :=
  {| id := id u; username := username u; role := r; tenant_id := tenant_id u |}.
Definition set_tenant_id (o : option Z) (u : t) : t :=
  {| id := id u; username := username u; role := role u; tenant_id := o |}.
End User.

Module Product.
Record t := {
  id : Z;
  name : string;
  description : option string;
  category : option string;
  price : float;
  available_quantity : Z;
  tenant_id : Z
}.
Definition set_available_quantity (q : Z) (p : t) : t :=
  {| id := id p; name := name p; description := description p;
     category := category p; price := price p; available_quantity := q;
     tenant_id := tenant_id p |}.
Definition set_price (f : float) (p : t) : t :=
  {| id := id p; name := name p; description := description p;
     category := category p; price := f; available_quantity := available_quantity p;
     tenant_id := tenant_id p |}.
End Product.

Module Order.
Record t := { id : Z; user_id : Z; total_quantity : Z; total_amount : float }.
Definition set_totals (q : Z) (a : float) (o : t) : t :=
  {| id := id o; user_id := user_id o; total_quantity := q; total_amount := a |}.
End Order.

Module OrderItem.
Record t := { id : Z; order_id : Z; product_id : Z; quantity : Z; unit_price : float }.
End OrderItem.

(** ** The store *)

Record DB := {
  tenants : gmap Z Tenant.t;
  users : gmap Z User.t;
  products : gmap Z Product.t;
  orders : gmap Z Order.t;
  order_items : list OrderItem.t;
  user_favourites : list (Z * Z)
}.

Definition set_tenants (m : gmap Z Tenant.t) (d : DB) : DB :=
  {| tenants := m; users := users d; products := products d; orders := orders d;
     order_items := order_items d; user_favourites := user_favourites d |}.
Definition set_users (m : gmap Z User.t) (d : DB) : DB :=
  {| tenants := tenants d; users := m; products := products d; orders := orders d;
     order_items := order_items d; user_favourites := user_favourites d |}.
Definition set_products (m : gmap Z Product.t) (d : DB) : DB :=
  {| tenants := tenants d; users := users d; products := m; orders := orders d;
     order_items := order_items d; user_favourites := user_favourites d |}.
Definition set_orders (m : gmap Z Order.t) (d : DB) : DB :=
  {| tenants := tenants d; users := users d; products := products d; orders := m;
     order_items := order_items d; user_favourites := user_favourites d |}.
Definition set_order_items (l : list OrderItem.t) (d : DB) : DB :=
  {| tenants := tenants d; users := users d; products := products d; orders := orders d;
     order_items := l; user_favourites := user_favourites d |}.
Definition set_user_favourites (l : list (Z * Z)) (d : DB) : DB :=
  {| tenants := tenants d; users := users d; products := products d; orders := orders d;
     order_items := order_items d; user_favourites := l |}.

Definition empty_db : DB :=
  {| tenants := ∅; users := ∅; products := ∅; orders := ∅;
     order_items := []; user_favourites := [] |}.

(** The key an autoincrementing integer primary key gives the next row: one
    more than the largest key in use. *)
Definition max_key {A} (m : gmap Z A) : Z :=
  map_fold (λ k _ acc, Z.max k acc) 0 m.
Definition fresh_id {A} (m : gmap Z A) : Z := 1 + max_key m.

Definition fresh_item_id (l : list OrderItem.t) : Z :=
  1 + foldr (λ oi acc, Z.max (OrderItem.id oi) acc) 0 l.

(** The rows of a table in the order a scan gives them: by primary key. *)
Definition key_le {A} (x y : Z * A) : Prop := x.1 ≤ y.1.

#[global] Instance key_le_dec {A} (x y : Z * A) : Decision (key_le x y).
Proof. unfold key_le. apply _. Defined.

Definition rows {A} (m : gmap Z A) : list A :=
  (merge_sort key_le (map_to_list m)).*2.

(** [query.filter(P).first()]: the first row of the scan that satisfies [P]. *)
Definition first_where {A} (P : A → bool) (m : gmap Z A) : option A :=
  head (filter (λ x, P x = true) (rows m)).

(** ** Sessions and the monad of handlers *)

Inductive LogLevel := INFO | WARNING | ERROR.

Record World := {
  committed : DB;
  pending : DB;
  log : list (LogLevel * string)
}.

Definition M (A : Type) : Type := World → Result A * World.

Definition ret {A} (a : A) : M A := λ w, (Ok a, w).
Definition raise {A} (e : Exn) : M A := λ w, (Raise e, w).
Definition bind {A B} (c : M A) (k : A → M B) : M B :=
  λ w, match c w with
       | (Ok a, w') => k a w'
       | (Raise e, w') => (Raise e, w')
       end.

Declare Scope py_scope.
Delimit Scope py_scope with py.
Notation "'let*' x ':=' c1 'in' c2" := (bind c1 (λ x, c2))
  (at level 10, x pattern, c1 at level 100, c2 at level 200) : py_scope.
Notation "c1 ;; c2" := (bind c1 (λ _, c2))
  (at level 100, c2 at level 200, right associativity) : py_scope.
Local Open Scope py_scope.

(** Reading through the session sees the session's own uncommitted changes. *)
Definition query {A} (f : DB → A) : M A := λ w, (Ok (f (pending w)), w).

(** [db.add(obj)] after an attribute change, [db.delete(obj)], inserts. *)
Definition modify (f : DB → DB) : M unit :=
  λ w, (Ok tt, {| committed := committed w; pending := f (pending w); log := log w |}).

Definition db_commit : M unit :=
  λ w, (Ok tt, {| committed := pending w; pending := pending w; log := log w |}).

(** [db.close()]: the open transaction is rolled back. *)
Definition db_close (w : World) : World :=
  {| committed := committed w; pending := committed w; log := log w |}.

(** A flush the database refuses: the session rolls the transaction back and
    the exception propagates. *)
Definition rolled_back (w : World) : World :=
  {| committed := committed w; pending := committed w; log := log w |}.
Definition flush_error {A} (e : Exn) : M A := λ w, (Raise e, rolled_back w).

Definition logger (lvl : LogLevel) (msg : string) : M unit :=
  λ w, (Ok tt, {| committed := committed w; pending := pending w;
                  log := log w ++ [(lvl, msg)] |}).

(** [try: c except Exception as e: h e]. *)
Definition try_except {A} (c : M A) (h : Exn → M A) : M A :=
  λ w, match c w with
       | (Ok a, w') => (Ok a, w')
       | (Raise e, w') => h e w'
       end.

(** Modelled from the spec: [app/database.py], which makes the session factory
    [SessionLocal] that [get_db] calls, is not among the sources.  The session
    it opens on store [d] is the transactional one of section 5 of the
    specification: the mutations of a request happen inside one transaction,
    which commits as a whole or is rolled back entirely. *)
Definition open_session (d : DB) : World :=
  {| committed := d; pending := d; log := [] |}.

(** One request: [get_db] yields a fresh session to the handler and closes it
    in its [finally] clause, whatever the outcome. *)
Definition run_request {A} (handler : M A) (d : DB) : Result A * World :=
  let '(r, w) := handler (open_session d) in (r, db_close w).

(** [query.offset(skip).limit(limit).all()], with SQLite's reading of negative
    arguments (a negative offset is no offset, a negative limit no limit). *)
Definition offset_limit {A} (skip limit : Z) (l : list A) : list A :=
  let l' := drop (Z.to_nat skip) l in
  if limit <? 0 then l' else take (Z.to_nat limit) l'.

(** Python's [l[a:b]]. *)
Definition py_index (len i : Z) : Z :=
  if i <? 0 then Z.max (i + len) 0 else Z.min i len.
Definition py_slice {A} (l : list A) (a b : Z) : list A :=
  let len := Z.of_nat (length l) in
  let lo := py_index len a in
  let hi := py_index len b in
  take (Z.to_nat (hi - lo)) (drop (Z.to_nat lo) l).

(** ** Request schemas ([app/schemas.py]) *)

Module schemas.
Record ProductCreate := {
  name : string;
  description : option string;
  category : option string;
  price : float;
  available_quantity : Z
}.

(** [ProductCreate.dict(exclude_unset=True)]: the fields the body sets. *)
Record ProductUpdates := {
  upd_name : option string;
  upd_description : option (option string);
  upd_category : option (option string);
  upd_price : option float;
  upd_available_quantity : option Z
}.

(** [OrderItemCreate.dict()]. *)
Record OrderItemCreate := { product_id : Z; quantity : Z }.

(** The constraints of [OrderItemCreate]: [product_id] and [quantity] are
    both declared [gt=0] (the validator of [quantity] says the same again). *)
Definition OrderItemCreate_valid (it : OrderItemCreate) : bool :=
  (0 <? product_id it) && (0 <? quantity it).

Record UserCreate := {
  username : string;
  role : string;
  password : option string
}.

Record UserSignup := { signup_username : string; signup_password : string }.
End schemas.

(** ** [app/crud.py] *)

Module crud.

(** *** Tenants *)

(** [func.lower(Tenant.name) == name.lower()]: the column is folded by the
    database, the argument by Python. *)
Definition get_tenant_by_name (name : string) : M (option Tenant.t) :=
  query (λ d, first_where
                (λ t, String.eqb (func_lower (Tenant.name t)) (str_lower name))
                (tenants d)).

Definition get_tenant_by_id (tenant_id : Z) : M (option Tenant.t) :=
  query (λ d, tenants d !! tenant_id).

(** The unique index on [tenants.name] compares letter for letter. *)
Definition tenant_name_stored (name : string) (d : DB) : bool :=
  bool_decide (map_Exists (λ _ t, Tenant.name t = name) (tenants d)).

Definition create_tenant (name : string) : M Tenant.t :=
  let* existing := get_tenant_by_name name in
  match existing with
  | Some _ => raise (ResourceAlreadyExistsError "Tenant")
  | None =>
      let* stored := query (tenant_name_stored name) in
      if stored : bool then flush_error IntegrityError
      else
        let* new_id := query (λ d, fresh_id (tenants d)) in
        let tenant := {| Tenant.id := new_id; Tenant.name := name |} in
        modify (λ d, set_tenants (<[new_id := tenant]> (tenants d)) d) ;;
        db_commit ;;
        ret tenant
  end.

(** The rows that go with a product when it is deleted: its order items
    (relationship cascade) and the favourites that point at it. *)
Definition drop_products (gone : Z → bool) (d : DB) : DB :=
  set_user_favourites
    (filter (λ uf, gone uf.2 = false) (user_favourites d))
    (set_order_items
       (filter (λ oi, gone (OrderItem.product_id oi) = false) (order_items d))
       (set_products
          (filter (λ kv, gone kv.1 = false) (products d)) d)).

(** Users of the tenant are detached first (their [tenant_id] is nulled, the
    row is otherwise untouched); then the tenant goes, and its products
    with it. *)
Definition delete_tenant (tenant : Tenant.t) : M unit :=
  modify (λ d,
    set_users
      ((λ u, if bool_decide (User.tenant_id u = Some (Tenant.id tenant))
             then User.set_tenant_id None u else u) <$> users d) d) ;;
  modify (λ d,
    let owned pid :=
      match products d !! pid with
      | Some p => bool_decide (Product.tenant_id p = Tenant.id tenant)
      | None => false
      end in
    set_tenants (delete (Tenant.id tenant) (tenants d)) (drop_products owned d)) ;;
  db_commit.

Definition list_tenants (skip limit : Z) : M (list Tenant.t) :=
  query (λ d, offset_limit skip limit (rows (tenants d))).

(** *** Users *)

Definition get_user_by_username (username : string) : M (option User.t) :=
  query (λ d, first_where (λ u, String.eqb (User.username u) username) (users d)).

Definition get_user_by_id (user_id : Z) : M (option User.t) :=
  query (λ d, users d !! user_id).

Definition create_user (username role : string) (tenant : option Tenant.t)
  : M User.t :=
  let* existing := get_user_by_username username in
  match existing with
  | Some _ => raise (ResourceAlreadyExistsError "User")
  | None =>
      let* new_id := query (λ d, fresh_id (users d)) in
      let user := {| User.id := new_id; User.username := username;
                     User.role := role;
                     User.tenant_id := Tenant.id <$> tenant |} in
      modify (λ d, set_users (<[new_id := user]> (users d)) d) ;;
      db_commit ;;
      ret user
  end.

(** A tenant user becomes a normal user: the favourites among the products
    of its tenant go, the tenant link is cleared and the role is ['user'].
    [if user.tenant_id:] is false for no tenant and for tenant 0. *)
Definition convert_tenant_user_to_normal (user : User.t) : M User.t :=
  match User.tenant_id user with
  | None => ret user
  | Some tenant_id =>
      if tenant_id =? 0 then ret user
      else
        modify (λ d,
          let tenant_product pid :=
            match products d !! pid with
            | Some p => Product.tenant_id p =? tenant_id
            | None => false
            end in
          set_user_favourites
            (filter (λ uf : Z * Z,
                       ((uf.1 =? User.id user) && tenant_product uf.2) = false)
                    (user_favourites d)) d) ;;
        let user := User.set_role "user" (User.set_tenant_id None user) in
        modify (λ d, set_users (<[User.id user := user]> (users d)) d) ;;
        db_commit ;;
        ret user
  end.

(** Saving a loaded user: [db.add(user)] with changed attributes. *)
Definition save_user (user : User.t) : M unit :=
  modify (λ d, set_users (<[User.id user := user]> (users d)) d).

(** *** Products *)

Definition get_product (product_id : Z) : M (option Product.t) :=
  query (λ d, products d !! product_id).

(** The duplicate check of [create_product]:
    [Product.tenant_id == tenant_id, func.lower(Product.name) == name.lower()],
    the column folded by the database, the argument by Python. *)
Definition name_taken (tenant_id : Z) (name : string) (d : DB) : bool :=
  bool_decide
    (map_Exists (λ _ p, Product.tenant_id p = tenant_id
                        ∧ func_lower (Product.name p) = str_lower name)
                (products d)).

(** What the database answers when the row [p] is written under the key
    [pid], by INSERT or UPDATE: binding an integer beyond 64 bits raises
    [OverflowError]; a NaN price arrives as NULL in a column that is NOT NULL,
    and a name that another product of the same tenant has, letter for
    letter, breaks [uq_tenant_product_name]: both are [IntegrityError]. *)
Definition flush_product (pid : Z) (p : Product.t) (d : DB) : option Exn :=
  if negb (fits_int64 (Product.available_quantity p)) then Some OverflowError
  else if PrimFloat.is_nan (Product.price p)
          || bool_decide
               (map_Exists (λ k r, k ≠ pid
                                   ∧ Product.tenant_id r = Product.tenant_id p
                                   ∧ Product.name r = Product.name p)
                           (products d))
  then Some IntegrityError
  else None.

(** [db.add(product); db.commit(); db.refresh(product)]. *)
Definition save_product (pid : Z) (p : Product.t) : M Product.t :=
  let* refused := query (flush_product pid p) in
  match refused with
  | Some e => flush_error e
  | None =>
      let stored := Product.set_price (sqlite_real (Product.price p)) p in
      modify (λ d, set_products (<[pid := stored]> (products d)) d) ;;
      db_commit ;;
      ret stored
  end.

(** The call style of the API, [create_product(db, tenant, data)]. *)
Definition create_product (tenant : Tenant.t) (data : schemas.ProductCreate)
  : M Product.t :=
  let tenant_id := Tenant.id tenant in
  let* existing := query (name_taken tenant_id (schemas.name data)) in
  if existing : bool then raise (ResourceAlreadyExistsError "Product")
  else
    let* new_id := query (λ d, fresh_id (products d)) in
    let product :=
      {| Product.id := new_id;
         Product.name := schemas.name data;
         Product.description := schemas.description data;
         Product.category := schemas.category data;
         Product.price := schemas.price data;
         Product.available_quantity := schemas.available_quantity data;
         Product.tenant_id := tenant_id |} in
    save_product new_id product.

(** [for k, v in updates.items(): setattr(product, k, v)], for the dicts the
    application builds: [updates] comes from a [ProductCreate], so its keys
    are among that schema's five fields and no [setattr] reaches [id] or
    [tenant_id]. *)
Definition apply_updates (updates : schemas.ProductUpdates) (p : Product.t)
  : Product.t :=
  {| Product.id := Product.id p;
     Product.name := default (Product.name p) (schemas.upd_name updates);
     Product.description :=
       default (Product.description p) (schemas.upd_description updates);
     Product.category :=
       default (Product.category p) (schemas.upd_category updates);
     Product.price := default (Product.price p) (schemas.upd_price updates);
     Product.available_quantity :=
       default (Product.available_quantity p)
               (schemas.upd_available_quantity updates);
     Product.tenant_id := Product.tenant_id p |}.

(** The role test shared by [update_product] and [delete_product]:
    [user.role != 'platform_admin'] and then
    [user.role != 'tenant_admin' or user.tenant_id != product.tenant_id]. *)
Definition may_mutate (user : User.t) (product : Product.t) : bool :=
  if negb (String.eqb (User.role user) "platform_admin") then
    if negb (String.eqb (User.role user) "tenant_admin")
       || negb (bool_decide (User.tenant_id user = Some (Product.tenant_id product)))
    then false else true
  else true.

Definition update_product (product_id : Z) (updates : schemas.ProductUpdates)
    (user : User.t) : M Product.t :=
  let* found := get_product product_id in
  match found with
  | None => raise (ResourceNotFoundError "Product")
  | Some product =>
      if may_mutate user product then
        save_product product_id (apply_updates updates product)
      else raise PermissionDeniedError
  end.

Definition delete_product (product_id : Z) (user : User.t) : M unit :=
  let* found := get_product product_id in
  match found with
  | None => raise (ResourceNotFoundError "Product")
  | Some product =>
      if may_mutate user product then
        modify (λ d, set_products (delete product_id (products d))
                       (drop_products (Z.eqb product_id) d)) ;;
        db_commit
      else raise PermissionDeniedError
  end.

(** *** Favourites *)

(** The product ids of the user's rows in the association table. *)
Definition favourite_ids (user : User.t) (d : DB) : list Z :=
  omap (λ uf : Z * Z, if uf.1 =? User.id user then Some uf.2 else None)
       (user_favourites d).

(** [user.favourites]: the products the user's association rows point at.
    The relationship declares no order; the rows of one user are read through
    the index of [uq_user_product_favourite], which gives them by product
    id, whatever the order they were added in. *)
Definition favourites_of (user : User.t) (d : DB) : list Product.t :=
  omap (λ pid, products d !! pid) (merge_sort Z.le (favourite_ids user d)).

Definition is_favourite (user : User.t) (product : Product.t) (d : DB) : bool :=
  bool_decide ((User.id user, Product.id product) ∈ user_favourites d).

Definition add_favourite (user : User.t) (product : Product.t) : M User.t :=
  let* present := query (is_favourite user product) in
  if present : bool then raise (ResourceAlreadyExistsError "Favourite")
  else
    modify (λ d, set_user_favourites
                   (user_favourites d ++ [(User.id user, Product.id product)]) d) ;;
    db_commit ;;
    ret user.

Definition remove_favourite (user : User.t) (product : Product.t) : M User.t :=
  let* present := query (is_favourite user product) in
  if present : bool then
    modify (λ d, set_user_favourites
                   (filter (λ uf, uf ≠ (User.id user, Product.id product))
                           (user_favourites d)) d) ;;
    db_commit ;;
    ret user
  else raise (ResourceNotFoundError "Favourite").

Definition list_favourites (user : User.t) (skip limit : Z) : M (list Product.t) :=
  query (λ d, py_slice (favourites_of user d) skip (skip + limit)).

(** *** Listings *)

(** The suffixes of a list of characters, the list itself first. *)
Fixpoint tails (s : list ascii) : list (list ascii) :=
  match s with
  | [] => [[]]
  | _ :: s' => s :: tails s'
  end.

(** SQLite's [LIKE]: in the pattern ['%'] stands for any run of characters
    and ['_'] for any one character; any other character stands for itself,
    the letters A to Z in either case.  There is no escape character. *)
Fixpoint like (pattern s : list ascii) : bool :=
  match pattern with
  | [] => match s with [] => true | _ :: _ => false end
  | c :: pattern' =>
      if Ascii.eqb c "%" then existsb (like pattern') (tails s)
      else
        match s with
        | [] => false
        | x :: s' =>
            (Ascii.eqb c "_" || Ascii.eqb (func_lower_char c) (func_lower_char x))
            && like pattern' s'
        end
  end.

(** [Product.name.ilike(f"%{q}%")], which on SQLite is
    [lower(products.name) LIKE lower(pattern)]. *)
Definition ilike_contains (q name : string) : bool :=
  like (list_ascii_of_string (func_lower (String "%" (String.append q "%"))))
       (list_ascii_of_string (func_lower name)).

Definition product_filters (category q : option string) (p : Product.t) : bool :=
  (if truthy category then bool_decide (Product.category p = category) else true)
  && (if truthy q then ilike_contains (default "" q) (Product.name p) else true).

Definition list_all_products (skip limit : Z) (category q : option string)
  : M (list Product.t) :=
  query (λ d, offset_limit skip limit
                (filter (λ p, product_filters category q p = true)
                        (rows (products d)))).

(** The order of the index of [uq_tenant_product_name] within one tenant: by
    name, code point by code point, then by primary key. *)
Definition by_name (p1 p2 : Product.t) : Prop :=
  String.ltb (Product.name p1) (Product.name p2)
  || (String.eqb (Product.name p1) (Product.name p2)
      && (Product.id p1 <=? Product.id p2)) = true.

#[global] Instance by_name_dec (p1 p2 : Product.t) : Decision (by_name p1 p2).
Proof. unfold by_name. apply _. Defined.

(** The products of a tenant.  With a category the rows are read through the
    index on [category], by primary key; without one through the index of
    [uq_tenant_product_name], by name. *)
Definition list_products (tenant : Tenant.t) (skip limit : Z)
    (category q : option string) : M (list Product.t) :=
  query (λ d,
    let owned := filter (λ p, Product.tenant_id p = Tenant.id tenant)
                        (rows (products d)) in
    offset_limit skip limit
      (filter (λ p, product_filters category q p = true)
              (if truthy category then owned else merge_sort by_name owned))).

Definition list_orders_for_user (user : User.t) (skip limit : Z)
  : M (list Order.t) :=
  query (λ d, offset_limit skip limit
                (filter (λ o, Order.user_id o = User.id user) (rows (orders d)))).

Definition get_order (order_id : Z) : M (option Order.t) :=
  query (λ d, orders d !! order_id).


(** *** Orders *)

(** The body of [for it in items_data], with the two running totals.  The
    product found under [it['product_id']] is the row with that primary key,
    which is the key its order item and its stock update go by. *)
Fixpoint create_order_items (order_id : Z) (items_data : list schemas.OrderItemCreate)
    (total_q : Z) (total_amount : float) : M (Z * float) :=
  match items_data with
  | [] => ret (total_q, total_amount)
  | it :: rest =>
      let quantity := schemas.quantity it in
      if quantity <=? 0 then raise (ValueError (InvalidQuantity quantity))
      else
        let* found := get_product (schemas.product_id it) in
        match found with
        | None => raise (ResourceNotFoundError "Product")
        | Some prod =>
            if Product.available_quantity prod <? quantity then
              raise (ValueError (InsufficientStock (Product.name prod)
                                   (Product.available_quantity prod) quantity))
            else
              let unit_price := Product.price prod in
              modify (λ d,
                set_order_items
                  (order_items d ++
                     [{| OrderItem.id := fresh_item_id (order_items d);
                         OrderItem.order_id := order_id;
                         OrderItem.product_id := schemas.product_id it;
                         OrderItem.quantity := quantity;
                         OrderItem.unit_price := unit_price |}]) d) ;;
              modify (λ d,
                set_products
                  (<[schemas.product_id it :=
                       Product.set_available_quantity
                         (Product.available_quantity prod - quantity) prod]>
                     (products d)) d) ;;
              create_order_items order_id rest
                (total_q + quantity)
                (total_amount + unit_price * of_int quantity)%float
        end
  end.

Definition create_order (user : User.t) (items_data : list schemas.OrderItemCreate)
  : M Order.t :=
  match items_data with
  | [] => raise InvalidOperationError
  | _ :: _ =>
      let* new_id := query (λ d, fresh_id (orders d)) in
      let order := {| Order.id := new_id; Order.user_id := User.id user;
                      Order.total_quantity := 0; Order.total_amount := 0%float |} in
      modify (λ d, set_orders (<[new_id := order]> (orders d)) d) ;;
      let* totals := create_order_items new_id items_data 0 0%float in
      let order' := Order.set_totals totals.1 totals.2 order in
      modify (λ d, set_orders (<[new_id := order']> (orders d)) d) ;;
      db_commit ;;
      ret order'
  end.

End crud.

(** An exchange with the identity provider inside a handler. *)
Definition call {A} (r : Result A) : M A := λ w, (r, w).

(** [fastapi.Query(default, ge=..., le=...)] on an integer parameter; [raw] is
    the value the request carries, if it carries one.  A parameter declared
    with a plain default is [Query default None None]. *)
Definition Query (default : Z) (ge le : option Z) (raw : option Z) : M Z :=
  match raw with
  | None => ret default
  | Some v =>
      if from_option (λ b, b <=? v) true ge && from_option (λ b, v <=? b) true le
      then ret v
      else raise RequestValidationError
  end.

(** ** [app/config.py] *)

Module settings.
Definition DEFAULT_SKIP : Z := 0.
Definition DEFAULT_LIMIT : Z := 10.
Definition MAX_LIMIT : Z := 100.
End settings.

(** ** [app/auth.py]: what the bearer token yields *)

Module auth.
(** The value under ['realm_access']: a dict, with or without a ['roles']
    list, or something that is not a dict. *)
Inductive RealmAccess :=
| RolesDict (roles : option (list string))
| NotADict.

(** The verified claims, restricted to the keys the application reads; a key
    that is absent is [None]. *)
Record Claims := {
  preferred_username : option string;
  sub : option string;
  realm_access : option RealmAccess;
  role : option string;
  tenant : option string;
  tenant_name : option string
}.

(** [parse_authorization_header] followed by [verify_jwt_token]: no bearer
    token in the header, a token that does not verify, or verified claims. *)
Inductive Credentials :=
| NoToken
| Rejected
| Verified (claims : Claims).

(** The bearer token of an [Authorization] header, if there is one. *)
Definition parse_authorization_header (authorization : option string)
  : option string :=
  if negb (truthy authorization) then None
  else
    let authorization := default "" authorization in
    if String.prefix "bearer " (str_lower authorization)
    then strip <$> after_first_space authorization
    else None.
End auth.

(** ** [app/dependencies.py] *)

Module dependencies.

(** [ProductFilterParams]: plain fields with defaults. *)
Record ProductFilterParams := {
  skip : Z;
  limit : Z;
  category : option string;
  search : option string
}.

(** [filters: ProductFilterParams = Depends()]: the fields are read from the
    query string, each with its default and no bound. *)
Definition product_filter_params (raw_skip raw_limit : option Z)
    (category search : option string) : M ProductFilterParams :=
  let* skip := Query 0 None None raw_skip in
  let* limit := Query 10 None None raw_limit in
  ret {| skip := skip; limit := limit; category := category; search := search |}.

Definition get_tenant_by_path (tenant_name : string) : M Tenant.t :=
  let* tenant := crud.get_tenant_by_name tenant_name in
  match tenant with
  | None => raise (HTTPException 404)
  | Some tenant => ret tenant
  end.

(** The role a token stands for: the roles list first, then an explicit
    ['role'] claim on top. *)
Definition token_role (claims : auth.Claims) : string :=
  let role := "user" in
  let role :=
    match auth.realm_access claims with
    | Some (auth.RolesDict roles) =>
        let roles := default [] roles in
        if bool_decide ("platform_admin" ∈ roles) then "platform_admin"
        else if bool_decide ("tenant_admin" ∈ roles) then "tenant_admin"
        else role
    | _ => role
    end in
  match auth.role claims with
  | Some r => r
  | None => role
  end.

(** The tenant the token names, if it names one that exists. *)
Definition token_tenant (claims : auth.Claims) : M (option Tenant.t) :=
  let tenant_name := py_or (auth.tenant claims) (auth.tenant_name claims) in
  if truthy tenant_name then crud.get_tenant_by_name (default "" tenant_name)
  else ret None.

(** The [user.tenant] relationship: the tenant row [user.tenant_id] points at. *)
Definition user_tenant (user : User.t) (d : DB) : option Tenant.t :=
  k ← User.tenant_id user; tenants d !! k.

Definition get_current_user (credentials : auth.Credentials) : M User.t :=
  match credentials with
  | auth.NoToken => raise UnauthorizedError
  | auth.Rejected => raise InvalidTokenError
  | auth.Verified claims =>
      let username := py_or (auth.preferred_username claims) (auth.sub claims) in
      if negb (truthy username) then raise InvalidTokenError
      else
        let username := default "" username in
        let role := token_role claims in
        let* tenant := token_tenant claims in
        let* found := crud.get_user_by_username username in
        match found with
        | None => crud.create_user username role tenant
        | Some user =>
            let role_differs := negb (String.eqb (User.role user) role) in
            let user1 := if role_differs then User.set_role role user else user in
            let* stored := query (user_tenant user) in
            let tenant_differs :=
              match tenant with
              | Some t =>
                  match stored with
                  | None => true
                  | Some st => negb (Tenant.id st =? Tenant.id t)
                  end
              | None => false
              end in
            let user2 :=
              if tenant_differs
              then User.set_tenant_id (Tenant.id <$> tenant) user1 else user1 in
            if role_differs || tenant_differs then
              crud.save_user user2 ;;
              db_commit ;;
              ret user2
            else ret user2
        end
  end.

(** The first lines of [get_current_user]: the header is parsed, a missing or
    empty token is no token, and the token is handed to [verify_jwt_token],
    here [verify], whose answer is the claims or nothing. *)
Definition credentials_of (verify : string → option auth.Claims)
    (authorization : option string) : auth.Credentials :=
  let token := auth.parse_authorization_header authorization in
  if negb (truthy token) then auth.NoToken
  else
    match verify (default "" token) with
    | None => auth.Rejected
    | Some claims => auth.Verified claims
    end.

Definition require_platform_admin (user : User.t) : M User.t :=
  if negb (String.eqb (User.role user) "platform_admin")
  then raise PermissionDeniedError
  else ret user.

Definition require_tenant_admin (tenant : Tenant.t) (user : User.t) : M User.t :=
  if String.eqb (User.role user) "platform_admin" then ret user
  else if negb (String.eqb (User.role user) "tenant_admin")
  then raise PermissionDeniedError
  else
    let* stored := query (user_tenant user) in
    match stored with
    | None => raise PermissionDeniedError
    | Some st =>
        if negb (Tenant.id st =? Tenant.id tenant) then raise PermissionDeniedError
        else ret user
    end.

Definition require_tenant_user (tenant : Tenant.t) (user : User.t) : M User.t :=
  if String.eqb (User.role user) "platform_admin" then ret user
  else
    let* stored := query (user_tenant user) in
    match stored with
    | None => raise PermissionDeniedError
    | Some st =>
        if negb (Tenant.id st =? Tenant.id tenant) then raise PermissionDeniedError
        else if negb (String.eqb (User.role user) "tenant_admin"
                      || String.eqb (User.role user) "user")
        then raise PermissionDeniedError
        else ret user
    end.

End dependencies.

(** ** [app/keycloak.py]: the identity provider's admin client *)

Module keycloak.

(** The identity provider is outside the program; a value of [Admin] fixes
    how each exchange of the client with it ends: a result, or the exception
    the client lets through. *)
Record Admin := {
  _get_user_id : string → Result (option string);
  _remove_role_from_user : string → string → Result unit;
  _assign_role_to_user : string → string → Result unit;
  create_user : string → string → string → Result bool;
  delete_user : string → Result bool
}.

Definition app_role (r : string) : bool :=
  bool_decide (r ∈ ["platform_admin"; "tenant_admin"; "user"]).

(** Removing the old role is tried and its failure passed over; assigning
    the new one is not guarded. *)
Definition update_user_role (kc : Admin) (user_id old_role new_role : string)
  : Result unit :=
  let _ := if app_role old_role
           then match _remove_role_from_user kc user_id old_role with
                | Ok _ => tt
                | Raise _ => tt
                end
           else tt in
  if app_role new_role then _assign_role_to_user kc user_id new_role
  else Ok tt.

End keycloak.

(** ** [app/routers/tenant.py] *)

Module tenant.

(** The endpoint declares no pagination parameter; a [skip] or [limit] in
    the query string is not read. *)
Definition list_tenants_endpoint (raw_skip raw_limit : option Z)
  : M (list Tenant.t) :=
  crud.list_tenants 0 10.

Definition create_tenant_endpoint (name : string) : M Tenant.t :=
  let* existing := crud.get_tenant_by_name name in
  match existing with
  | Some _ => raise (ResourceAlreadyExistsError "Tenant")
  | None => crud.create_tenant name
  end.

Definition delete_tenant_endpoint (tenant_name : string) : M unit :=
  let* found := crud.get_tenant_by_name tenant_name in
  match found with
  | None => raise (ResourceNotFoundError "Tenant")
  | Some t => crud.delete_tenant t
  end.

End tenant.

(** ** [app/routers/products.py] *)

Module products.

Definition create_product (data : schemas.ProductCreate) (user : User.t)
    (tenant : Tenant.t) : M Product.t :=
  crud.create_product tenant data.

Definition list_products (filters : dependencies.ProductFilterParams)
    (tenant : Tenant.t) : M (list Product.t) :=
  crud.list_products tenant
    (dependencies.skip filters) (dependencies.limit filters)
    (dependencies.category filters) (dependencies.search filters).

(** [if not p or p.tenant_id != tenant.id: raise ResourceNotFoundError]. *)
Definition in_tenant (tenant : Tenant.t) (p : option Product.t) : option Product.t :=
  match p with
  | Some p => if negb (Product.tenant_id p =? Tenant.id tenant) then None else Some p
  | None => None
  end.

Definition get_product (product_id : Z) (tenant : Tenant.t) : M Product.t :=
  let* p := crud.get_product product_id in
  match in_tenant tenant p with
  | None => raise (ResourceNotFoundError "Product")
  | Some p => ret p
  end.

Definition update_product (product_id : Z) (updates : schemas.ProductUpdates)
    (user : User.t) (tenant : Tenant.t) : M Product.t :=
  let* p := crud.get_product product_id in
  match in_tenant tenant p with
  | None => raise (ResourceNotFoundError "Product")
  | Some _ => crud.update_product product_id updates user
  end.

Definition delete_product (product_id : Z) (user : User.t) (tenant : Tenant.t)
  : M unit :=
  let* p := crud.get_product product_id in
  match in_tenant tenant p with
  | None => raise (ResourceNotFoundError "Product")
  | Some _ => crud.delete_product product_id user
  end.

Definition list_all_products (filters : dependencies.ProductFilterParams)
  : M (list Product.t) :=
  crud.list_all_products
    (dependencies.skip filters) (dependencies.limit filters)
    (dependencies.category filters) (dependencies.search filters).

Definition get_product_global (product_id : Z) : M Product.t :=
  let* p := crud.get_product product_id in
  match p with
  | None => raise (ResourceNotFoundError "Product")
  | Some p => ret p
  end.

End products.

(** ** [app/routers/orders.py] *)

Module orders.

(** A [ValueError] of [crud.create_order] is answered with status 400. *)
Definition create_order (items : list schemas.OrderItemCreate) (user : User.t)
  : M Order.t :=
  try_except (crud.create_order user items)
    (λ e, match e with
          | ValueError _ => raise (HTTPException 400)
          | _ => raise e
          end).

Definition list_orders (raw_skip raw_limit : option Z) (user : User.t)
  : M (list Order.t) :=
  let* skip := Query settings.DEFAULT_SKIP (Some 0) None raw_skip in
  let* limit := Query settings.DEFAULT_LIMIT (Some 1) (Some settings.MAX_LIMIT)
                      raw_limit in
  crud.list_orders_for_user user skip limit.

End orders.

(** ** [app/routers/users.py] *)

Module users.

(** What [requests.post] to the identity provider's token endpoint gives: a
    status and the outcome of reading the body as JSON. *)
Record Response := { status_code : Z; json : Result string }.

(** The credential exchange.  The whole body is inside [try ... except
    Exception], the [HTTPException(401)] it raises included. *)
Definition login (post : Result Response) : M string :=
  try_except
    (let* resp := call post in
     if negb (status_code resp =? 200) then
       call (json resp) ;;
       raise (HTTPException 401)
     else call (json resp))
    (λ e, raise (HTTPException 500)).

(** Public signup: the role is always ['user'] and no tenant is attached. *)
Definition signup (kc : keycloak.Admin) (data : schemas.UserSignup) : M User.t :=
  let* user := crud.get_user_by_username (schemas.signup_username data) in
  match user with
  | Some _ => raise (ResourceAlreadyExistsError "User")
  | None =>
      let role := "user" in
      try_except
        (call (keycloak.create_user kc (schemas.signup_username data)
                 (schemas.signup_password data) role) ;; ret tt)
        (λ e, raise (HTTPException 500)) ;;
      crud.create_user (schemas.signup_username data) role None
  end.

Definition mark_favourite (product_id : Z) (user : User.t) : M unit :=
  let* prod := crud.get_product product_id in
  match prod with
  | None => raise (ResourceNotFoundError "Product")
  | Some prod => crud.add_favourite user prod ;; ret tt
  end.

Definition unmark_favourite (product_id : Z) (user : User.t) : M unit :=
  let* prod := crud.get_product product_id in
  match prod with
  | None => raise (ResourceNotFoundError "Product")
  | Some prod => crud.remove_favourite user prod ;; ret tt
  end.

(** [skip: int = 0, limit: int = 10]. *)
Definition list_favourites (raw_skip raw_limit : option Z) (user : User.t)
  : M (list Product.t) :=
  let* skip := Query 0 None None raw_skip in
  let* limit := Query 10 None None raw_limit in
  crud.list_favourites user skip limit.

End users.

(** ** [app/routers/admin.py] *)

Module admin.


Definition create_tenant_user (kc : keycloak.Admin) (data : schemas.UserCreate)
    (tenant : Tenant.t) : M User.t :=
  let* existing := crud.get_user_by_username (schemas.username data) in
  match existing with
  | Some _ => raise (ResourceAlreadyExistsError "User")
  | None =>
      if negb (truthy (schemas.password data)) then raise (HTTPException 400)
      else
        try_except
          (let* keycloak_created :=
             call (keycloak.create_user kc (schemas.username data)
                     (default "" (schemas.password data)) (schemas.role data)) in
           if keycloak_created : bool then ret tt
           else logger INFO "User already exists in Keycloak, syncing to database")
          (λ e, logger ERROR "Failed to create user in Keycloak" ;;
                raise (HTTPException 500)) ;;
        crud.create_user (schemas.username data) (schemas.role data) (Some tenant)
  end.

(** The block [update_tenant_user] and [assign_user_to_tenant] both start
    with: when the role changes, the change is first sent to the identity
    provider, inside [try ... except Exception]. *)
Definition mirror_role (kc : keycloak.Admin) (user : User.t) (new_role : string)
  : M unit :=
  if negb (String.eqb (User.role user) new_role) then
    try_except
      (let* kc_user_id := call (keycloak._get_user_id kc (User.username user)) in
       if truthy kc_user_id then
         call (keycloak.update_user_role kc (default "" kc_user_id)
                 (User.role user) new_role) ;;
         logger INFO "Updated role in Keycloak"
       else ret tt)
      (λ e, logger ERROR "Failed to update role in Keycloak" ;;
            raise (HTTPException 500))
  else ret tt.

Definition update_tenant_user (kc : keycloak.Admin) (user_id : Z)
    (data : schemas.UserCreate) (tenant : Tenant.t) : M User.t :=
  let* found :=
    query (λ d, match users d !! user_id with
                | Some u => if bool_decide (User.tenant_id u = Some (Tenant.id tenant))
                            then Some u else None
                | None => None
                end) in
  match found with
  | None => raise (ResourceNotFoundError "User")
  | Some user =>
      mirror_role kc user (schemas.role data) ;;
      let user := User.set_role (schemas.role data) user in
      let* user :=
        if bool_decide (schemas.role data ∈ ["platform_admin"; "user"]) then
          logger INFO "Removed tenant association" ;;
          ret (User.set_tenant_id None user)
        else if String.eqb (schemas.role data) "tenant_admin" then
          logger INFO "Set tenant association" ;;
          ret (User.set_tenant_id (Some (Tenant.id tenant)) user)
        else ret user in
      modify (λ d, set_users (<[user_id := user]> (users d)) d) ;;
      db_commit ;;
      ret user
  end.

Definition assign_user_to_tenant (kc : keycloak.Admin) (data : schemas.UserCreate)
    (tenant : Tenant.t) : M User.t :=
  let* found := crud.get_user_by_username (schemas.username data) in
  match found with
  | None => raise (ResourceNotFoundError "User")
  | Some user =>
      mirror_role kc user (schemas.role data) ;;
      let user := User.set_role (schemas.role data) user in
      let* user :=
        if String.eqb (schemas.role data) "tenant_admin" then
          logger INFO "Assigned as tenant_admin" ;;
          ret (User.set_tenant_id (Some (Tenant.id tenant)) user)
        else
          logger INFO "Removed tenant association" ;;
          ret (User.set_tenant_id None user) in
      crud.save_user user ;;
      db_commit ;;
      ret user
  end.

(** What [db.delete(user)] removes when it is flushed: the user's row, the
    user's orders and their items (the relationships [User.orders] and
    [Order.items] cascade [all, delete-orphan]) and the user's rows of the
    association table [user_favourites]. *)
Definition drop_user (user_id : Z) (d : DB) : DB :=
  let of_user oid :=
    match orders d !! oid with
    | Some o => Order.user_id o =? user_id
    | None => false
    end in
  set_users (delete user_id (users d))
    (set_user_favourites
       (filter (λ uf : Z * Z, (uf.1 =? user_id) = false) (user_favourites d))
       (set_order_items
          (filter (λ oi, of_user (OrderItem.order_id oi) = false) (order_items d))
          (set_orders
             (filter (λ kv : Z * Order.t, (Order.user_id kv.2 =? user_id) = false)
                     (orders d)) d))).

Definition delete_tenant_user (kc : keycloak.Admin) (user_id : Z)
    (tenant : Tenant.t) : M unit :=
  let* found :=
    query (λ d, match users d !! user_id with
                | Some u => if bool_decide (User.tenant_id u = Some (Tenant.id tenant))
                            then Some u else None
                | None => None
                end) in
  match found with
  | None => raise (ResourceNotFoundError "User")
  | Some user =>
      try_except
        (call (keycloak.delete_user kc (User.username user)) ;;
         logger INFO "Deleted user from Keycloak")
        (λ e, logger WARNING "Failed to delete user from Keycloak") ;;
      modify (drop_user user_id) ;;
      db_commit
  end.

End admin.

(** ** Endpoints: dependencies resolved, then the handler

    FastAPI resolves the [Depends] parameters of a handler before its body
    runs; a dependency that raises ends the request. *)

Module endpoint.

(** [user = Depends(require_tenant_admin)], [tenant = Depends(get_tenant_by_path)]. *)
Definition tenant_admin_scoped {A} (tenant_name : string)
    (credentials : auth.Credentials) (handler : User.t → Tenant.t → M A) : M A :=
  let* tenant := dependencies.get_tenant_by_path tenant_name in
  let* user := dependencies.get_current_user credentials in
  let* user := dependencies.require_tenant_admin tenant user in
  handler user tenant.

(** [POST /{tenant_name}/products/] *)
Definition post_product (tenant_name : string) (credentials : auth.Credentials)
    (data : schemas.ProductCreate) : M Product.t :=
  tenant_admin_scoped tenant_name credentials (products.create_product data).

(** [GET /{tenant_name}/products/{product_id}]: public. *)
Definition get_product (tenant_name : string) (product_id : Z) : M Product.t :=
  let* tenant := dependencies.get_tenant_by_path tenant_name in
  products.get_product product_id tenant.

(** [PUT /{tenant_name}/products/{product_id}] *)
Definition put_product (tenant_name : string) (product_id : Z)
    (credentials : auth.Credentials) (updates : schemas.ProductUpdates)
  : M Product.t :=
  tenant_admin_scoped tenant_name credentials
    (products.update_product product_id updates).

(** [DELETE /{tenant_name}/products/{product_id}] *)
Definition delete_product (tenant_name : string) (product_id : Z)
    (credentials : auth.Credentials) : M unit :=
  tenant_admin_scoped tenant_name credentials (products.delete_product product_id).

(** [POST /orders/], once [get_current_user] has given the user: the body
    [data: schemas.OrderCreate] is validated, a list of valid items (which
    may be empty), and then the handler runs. *)
Definition post_order_as (user : User.t) (items : list schemas.OrderItemCreate)
  : M Order.t :=
  if forallb schemas.OrderItemCreate_valid items then orders.create_order items user
  else raise RequestValidationError.

(** [POST /orders/] *)
Definition post_order (credentials : auth.Credentials)
    (items : list schemas.OrderItemCreate) : M Order.t :=
  let* user := dependencies.get_current_user credentials in
  post_order_as user items.

End endpoint.

(** * Vocabulary of the statements and sample data *)

(** ** Vocabulary of the statements *)

(** What an order asks of product [pid] in all, and of all products. *)
Definition ordered_quantity (pid : Z) (items : list schemas.OrderItemCreate) : Z :=
  foldr (λ it acc, (if schemas.product_id it =? pid then schemas.quantity it else 0) + acc)
        0 items.

Definition sum_quantities (items : list schemas.OrderItemCreate) : Z :=
  foldr (λ it acc, schemas.quantity it + acc) 0 items.

(** The amount of an order against a price list: the float sum, taken in the
    order of the items, of price times quantity. *)
Definition order_amount (prices : gmap Z Product.t)
    (items : list schemas.OrderItemCreate) (start : float) : float :=
  fold_left
    (λ acc it,
       match prices !! schemas.product_id it with
       | Some p => (acc + Product.price p * of_int (schemas.quantity it))%float
       | None => acc
       end)
    items start.

(** Order item [oi] is the line of order [oid] for the request item [it], with
    the price product [it] has in [prices]. *)
Definition line_of (oid : Z) (prices : gmap Z Product.t)
    (it : schemas.OrderItemCreate) (oi : OrderItem.t) : Prop :=
  OrderItem.order_id oi = oid
  ∧ OrderItem.product_id oi = schemas.product_id it
  ∧ OrderItem.quantity oi = schemas.quantity it
  ∧ Product.price <$> prices !! schemas.product_id it = Some (OrderItem.unit_price oi).

(** An item that [create_order] cannot serve from store [d] once the items
    [earlier] in the same order have been served: its quantity is not
    positive, its product does not exist, or what the earlier items leave of
    the stock is short of it. *)
Definition unservable (d : DB) (earlier : list schemas.OrderItemCreate)
    (it : schemas.OrderItemCreate) : Prop :=
  schemas.quantity it ≤ 0
  ∨ products d !! schemas.product_id it = None
  ∨ ∃ p, products d !! schemas.product_id it = Some p
         ∧ Product.available_quantity p
           - ordered_quantity (schemas.product_id it) earlier
           < schemas.quantity it.

(** The role-tenant invariant of a user row. *)
Definition role_tenant_ok (u : User.t) : Prop :=
  (User.role u = "tenant_admin" → is_Some (User.tenant_id u))
  ∧ (User.role u = "user" ∨ User.role u = "platform_admin" → User.tenant_id u = None).

(** The product mutation rule of the specification. *)
Definition mutation_allowed (user : User.t) (owner : Z) : Prop :=
  User.role user = "platform_admin"
  ∨ (User.role user = "tenant_admin" ∧ User.tenant_id user = Some owner).

(** *** The loop of [create_order] *)

(** The world after one item has been served. *)
Definition served (oid : Z) (it : schemas.OrderItemCreate) (prod : Product.t)
    (w : World) : World :=
  {| committed := committed w;
     pending :=
       set_products
         (<[schemas.product_id it :=
              Product.set_available_quantity
                (Product.available_quantity prod - schemas.quantity it) prod]>
            (products (pending w)))
         (set_order_items
            (order_items (pending w) ++
               [{| OrderItem.id := fresh_item_id (order_items (pending w));
                   OrderItem.order_id := oid;
                   OrderItem.product_id := schemas.product_id it;
                   OrderItem.quantity := schemas.quantity it;
                   OrderItem.unit_price := Product.price prod |}])
            (pending w));
     log := log w |}.

(** The order row [create_order] adds before it looks at the items. *)
Definition order_opened (user : User.t) (w : World) : World :=
  {| committed := committed w;
     pending :=
       set_orders
         (<[fresh_id (orders (pending w)) :=
              {| Order.id := fresh_id (orders (pending w));
                 Order.user_id := User.id user;
                 Order.total_quantity := 0;
                 Order.total_amount := 0%float |}]> (orders (pending w)))
         (pending w);
     log := log w |}.

(** ** A sample store *)

Definition nike : Tenant.t := {| Tenant.id := 1; Tenant.name := "Nike" |}.
Definition adidas : Tenant.t := {| Tenant.id := 2; Tenant.name := "Adidas" |}.

Definition john_doe : User.t :=
  {| User.id := 1; User.username := "john_doe"; User.role := "user";
     User.tenant_id := None |}.
Definition nike_admin : User.t :=
  {| User.id := 2; User.username := "nike_admin"; User.role := "tenant_admin";
     User.tenant_id := Some 1 |}.
Definition adidas_admin : User.t :=
  {| User.id := 3; User.username := "adidas_admin"; User.role := "tenant_admin";
     User.tenant_id := Some 2 |}.
Definition platform_admin : User.t :=
  {| User.id := 4; User.username := "platform_admin"; User.role := "platform_admin";
     User.tenant_id := None |}.

Definition air_max : Product.t :=
  {| Product.id := 1; Product.name := "Air Max"; Product.description := None;
     Product.category := Some "shoes"; Product.price := 120.0%float;
     Product.available_quantity := 50; Product.tenant_id := 1 |}.
Definition superstar : Product.t :=
  {| Product.id := 2; Product.name := "Superstar"; Product.description := None;
     Product.category := Some "shoes"; Product.price := 80.5%float;
     Product.available_quantity := 5; Product.tenant_id := 2 |}.

Definition shop : DB :=
  {| tenants := <[1 := nike]> (<[2 := adidas]> ∅);
     users := <[1 := john_doe]> (<[2 := nike_admin]>
                (<[3 := adidas_admin]> (<[4 := platform_admin]> ∅)));
     products := <[1 := air_max]> (<[2 := superstar]> ∅);
     orders := ∅;
     order_items := [];
     user_favourites := [] |}.

Definition item (pid q : Z) : schemas.OrderItemCreate :=
  {| schemas.product_id := pid; schemas.quantity := q |}.

(** ** Order placement *)

(** The scenario of the specification: two Air Max at 120.0 out of 50. *)
Definition nike_order : Order.t :=
  {| Order.id := 1; Order.user_id := 1; Order.total_quantity := 2;
     Order.total_amount := 240.0%float |}.

Definition shop_after_nike_order : DB :=
  {| tenants := tenants shop;
     users := users shop;
     products :=
       <[1 := Product.set_available_quantity 48 air_max]> (products shop);
     orders := <[1 := nike_order]> ∅;
     order_items :=
       [{| OrderItem.id := 1; OrderItem.order_id := 1; OrderItem.product_id := 1;
           OrderItem.quantity := 2; OrderItem.unit_price := 120.0%float |}];
     user_favourites := [] |}.

(** ** Product mutation *)

(** The rule [require_tenant_admin] applies for tenant [tenant]: the same
    rule, read through the [user.tenant] relationship. *)
Definition guard_allowed (user : User.t) (tenant : Tenant.t) (d : DB) : Prop :=
  User.role user = "platform_admin"
  ∨ (User.role user = "tenant_admin"
     ∧ Tenant.id <$> dependencies.user_tenant user d = Some (Tenant.id tenant)).

(** The row of product [p] as the database gives it back. *)
Definition as_stored (p : Product.t) : Product.t :=
  Product.set_price (sqlite_real (Product.price p)) p.

(** The session after [db.add(product); db.commit()] of the row [p] under the
    key [pid]. *)
Definition product_saved (pid : Z) (p : Product.t) (w : World) : World :=
  {| committed := set_products (<[pid := as_stored p]> (products (pending w)))
                    (pending w);
     pending := set_products (<[pid := as_stored p]> (products (pending w)))
                  (pending w);
     log := log w |}.

(** ** Identity resolution *)

(** The roles list of a token, empty when it carries none. *)
Definition token_roles (claims : auth.Claims) : list string :=
  match auth.realm_access claims with
  | Some (auth.RolesDict (Some roles)) => roles
  | _ => []
  end.

(** The username of a token, if it has one. *)
Definition token_username (claims : auth.Claims) : option string :=
  let username := py_or (auth.preferred_username claims) (auth.sub claims) in
  if truthy username then username else None.

(** The tenant a token resolves to in store [d]: none when the token names no
    tenant, and none when no tenant of the store goes by the name. *)
Definition resolved_tenant (claims : auth.Claims) (d : DB) : option Tenant.t :=
  let tenant_name := py_or (auth.tenant claims) (auth.tenant_name claims) in
  if truthy tenant_name
  then first_where (λ t, String.eqb (func_lower (Tenant.name t))
                           (str_lower (default "" tenant_name))) (tenants d)
  else None.

(** Each tenant row sits under its own [id]. *)
Definition tenant_keys_ok (d : DB) : Prop :=
  map_Forall (λ k t, Tenant.id t = k) (tenants d).

(** The test [tenant is not None and (user.tenant is None or
    user.tenant.id != tenant.id)] of the reconciliation. *)
Definition tenant_differs_b (claims : auth.Claims) (user : User.t) (d : DB) : bool :=
  match resolved_tenant claims d with
  | Some t =>
      match dependencies.user_tenant user d with
      | Some st => negb (Tenant.id st =? Tenant.id t)
      | None => true
      end
  | None => false
  end.

(** The state of a known user after the reconciliation with the token. *)
Definition reconciled (claims : auth.Claims) (user : User.t) (d : DB) : User.t :=
  let user1 :=
    if negb (String.eqb (User.role user) (dependencies.token_role claims))
    then User.set_role (dependencies.token_role claims) user else user in
  if tenant_differs_b claims user d
  then User.set_tenant_id (Tenant.id <$> resolved_tenant claims d) user1
  else user1.

(** The two ways a known user can disagree with a token. *)
Definition role_differs (claims : auth.Claims) (user : User.t) : Prop :=
  User.role user ≠ dependencies.token_role claims.

Definition tenant_differs (claims : auth.Claims) (user : User.t) (d : DB) : Prop :=
  ∃ t, resolved_tenant claims d = Some t
       ∧ Tenant.id <$> dependencies.user_tenant user d ≠ Some (Tenant.id t).

(** The session after [db.add(user); db.commit()]. *)
Definition user_saved (u' : User.t) (w : World) : World :=
  {| committed := set_users (<[User.id u' := u']> (users (pending w))) (pending w);
     pending := set_users (<[User.id u' := u']> (users (pending w))) (pending w);
     log := log w |}.

(** A known user who presents the token of the sample store's Nike admin
    without a tenant claim. *)
Definition nike_admin_token : auth.Claims :=
  {| auth.preferred_username := Some "nike_admin"; auth.sub := None;
     auth.realm_access := Some (auth.RolesDict (Some ["tenant_admin"]));
     auth.role := None; auth.tenant := None; auth.tenant_name := None |}.

(** ** Tenant-user administration *)

Definition with_log (l : list (LogLevel * string)) (w : World) : World :=
  {| committed := committed w; pending := pending w; log := l |}.

(** The mirror call to the identity provider fails: the role changes and
    either the provider's user lookup raises, or it finds the user and the
    role update raises. *)
Definition mirror_fails (kc : keycloak.Admin) (user : User.t) (new_role : string)
  : bool :=
  negb (String.eqb (User.role user) new_role)
  && match keycloak._get_user_id kc (User.username user) with
     | Raise _ => true
     | Ok kc_user_id =>
         truthy kc_user_id
         && match keycloak.update_user_role kc (default "" kc_user_id)
                    (User.role user) new_role with
            | Raise _ => true
            | Ok _ => false
            end
     end.

(** The mirror call reaches the provider and goes through. *)
Definition mirror_done (kc : keycloak.Admin) (user : User.t) (new_role : string)
  : bool :=
  negb (String.eqb (User.role user) new_role)
  && match keycloak._get_user_id kc (User.username user) with
     | Raise _ => false
     | Ok kc_user_id => truthy kc_user_id
     end.

(** The tenant link [update_tenant_user] gives for a role. *)
Definition updated_tenant_id (role : string) (tenant : Tenant.t) (user : User.t)
  : option Z :=
  if bool_decide (role ∈ ["platform_admin"; "user"]) then None
  else if String.eqb role "tenant_admin" then Some (Tenant.id tenant)
  else User.tenant_id user.

(** The tenant link [assign_user_to_tenant] gives for a role. *)
Definition assigned_tenant_id (role : string) (tenant : Tenant.t) : option Z :=
  if String.eqb role "tenant_admin" then Some (Tenant.id tenant) else None.

(** An identity provider that answers every exchange, and one that is down. *)
Definition kc_up : keycloak.Admin :=
  {| keycloak._get_user_id := λ _, Ok (Some "kc-user-1");
     keycloak._remove_role_from_user := λ _ _, Ok tt;
     keycloak._assign_role_to_user := λ _ _, Ok tt;
     keycloak.create_user := λ _ _ _, Ok true;
     keycloak.delete_user := λ _, Ok true |}.

Definition kc_down : keycloak.Admin :=
  {| keycloak._get_user_id := λ _, Raise KeycloakError;
     keycloak._remove_role_from_user := λ _ _, Raise KeycloakError;
     keycloak._assign_role_to_user := λ _ _, Raise KeycloakError;
     keycloak.create_user := λ _ _ _, Raise KeycloakError;
     keycloak.delete_user := λ _, Raise KeycloakError |}.

Definition demote_nike_admin : schemas.UserCreate :=
  {| schemas.username := "nike_admin"; schemas.role := "user";
     schemas.password := Some "password" |}.

Definition promote_john_doe : schemas.UserCreate :=
  {| schemas.username := "john_doe"; schemas.role := "tenant_admin";
     schemas.password := Some "password" |}.

(** ** The role-tenant invariant *)

#[global] Instance role_tenant_ok_dec (u : User.t) : Decision (role_tenant_ok u).
Proof. unfold role_tenant_ok. apply _. Defined.

Definition new_customer : schemas.UserCreate :=
  {| schemas.username := "customer1"; schemas.role := "user";
     schemas.password := Some "pass123" |}.

(** The token of the sample store's Nike admin after a demotion at the
    identity provider: the roles list no longer has [tenant_admin], and there
    is no tenant claim. *)
Definition demoted_token : auth.Claims :=
  {| auth.preferred_username := Some "nike_admin"; auth.sub := None;
     auth.realm_access := Some (auth.RolesDict (Some ["user"]));
     auth.role := None; auth.tenant := None; auth.tenant_name := None |}.

(** ** Product creation *)

(** Python and the database fold [s] alike: [s] has no capital letter
    outside ASCII. *)
Definition folds_agree (s : string) : Prop := func_lower s = str_lower s.

(** Tenant [tenant_id] already owns a product called [name], letter case
    aside. *)
Definition owns_named (tenant_id : Z) (name : string) (d : DB) : Prop :=
  ∃ k p, products d !! k = Some p
         ∧ Product.tenant_id p = tenant_id
         ∧ str_lower (Product.name p) = str_lower name.

(** The duplicate check of [create_product] finds a product: one of the
    tenant whose name, folded by the database, is [name] folded by Python. *)
Definition check_finds (tenant_id : Z) (name : string) (d : DB) : Prop :=
  ∃ k p, products d !! k = Some p
         ∧ Product.tenant_id p = tenant_id
         ∧ func_lower (Product.name p) = str_lower name.

(** The names of the products are all folded alike by Python and the
    database. *)
Definition product_names_plain (d : DB) : Prop :=
  map_Forall (λ _ p, folds_agree (Product.name p)) (products d).

(** The row [create_product] makes of a request, before it is written. *)
Definition new_product (tenant : Tenant.t) (data : schemas.ProductCreate) (d : DB)
  : Product.t :=
  {| Product.id := fresh_id (products d);
     Product.name := schemas.name data;
     Product.description := schemas.description data;
     Product.category := schemas.category data;
     Product.price := schemas.price data;
     Product.available_quantity := schemas.available_quantity data;
     Product.tenant_id := Tenant.id tenant |}.

Definition product_named (name : string) : schemas.ProductCreate :=
  {| schemas.name := name; schemas.description := None;
     schemas.category := None; schemas.price := 99.0%float;
     schemas.available_quantity := 3 |}.

Definition air_max_again : schemas.ProductCreate := product_named "AIR MAX".

(** A name that begins with a capital E with acute accent, code point 201, and
    the sample store with a product of Nike called by that letter and [A]. *)
Definition accented (s : string) : string := String "201"%char s.

Definition accent_shop : DB :=
  set_products
    (<[3 := {| Product.id := 3; Product.name := accented "A";
               Product.description := None; Product.category := None;
               Product.price := 10.0%float; Product.available_quantity := 1;
               Product.tenant_id := 1 |}]> (products shop)) shop.

(** ** Pagination parameters *)

(** A store with 101 products of Nike, all of them favourites of user 1. *)
Definition numbered_product (n : nat) : Product.t :=
  {| Product.id := Z.of_nat n; Product.name := "item"; Product.description := None;
     Product.category := None; Product.price := 1.0%float;
     Product.available_quantity := 1; Product.tenant_id := 1 |}.

Definition big_shop : DB :=
  {| tenants := tenants shop;
     users := users shop;
     products := list_to_map ((λ n, (Z.of_nat n, numbered_product n)) <$> seq 1 101);
     orders := ∅;
     order_items := [];
     user_favourites := (λ n, (1, Z.of_nat n)) <$> seq 1 101 |}.

(** ** Store invariants and further vocabulary *)

(** No two tenants have the same name, letter case aside. *)
Definition tenant_names_unique (d : DB) : Prop :=
  map_Forall
    (λ k1 t1, map_Forall
                (λ k2 t2, str_lower (Tenant.name t1) = str_lower (Tenant.name t2) →
                          k1 = k2)
                (tenants d))
    (tenants d).

(** No two users have the same username. *)
Definition usernames_unique (d : DB) : Prop :=
  map_Forall
    (λ k1 u1, map_Forall
                (λ k2 u2, User.username u1 = User.username u2 → k1 = k2)
                (users d))
    (users d).

(** Each user row sits under its own [id]. *)
Definition user_keys_ok (d : DB) : Prop :=
  map_Forall (λ k u, User.id u = k) (users d).

(** White space only, at the start, at the end. *)
Fixpoint all_space (s : string) : bool :=
  match s with
  | EmptyString => true
  | String c s' => is_space c && all_space s'
  end.

Definition starts_with_space (s : string) : bool :=
  match s with
  | EmptyString => false
  | String c _ => is_space c
  end.

Fixpoint ends_with_space (s : string) : bool :=
  match s with
  | EmptyString => false
  | String c EmptyString => is_space c
  | String _ s' => ends_with_space s'
  end.

(** A token followed by a no-break space, code point 160. *)
Definition with_nbsp (s : string) : string := String.append s (String "160"%char "").

(** Each product row sits under its own [id]. *)
Definition product_keys_ok (d : DB) : Prop :=
  map_Forall (λ k p, Product.id p = k) (products d).

(** Products in the order of their ids. *)
Definition by_id (p q : Product.t) : Prop := Product.id p ≤ Product.id q.

(** A store where user 1 marked the products 2 and 1, in that order. *)
Definition shop_with_favourites : DB := set_user_favourites [(1, 2); (1, 1)] shop.

(** Every order item and every favourite points at a product of the store. *)
Definition references_ok (d : DB) : Prop :=
  Forall (λ oi, is_Some (products d !! OrderItem.product_id oi)) (order_items d)
  ∧ Forall (λ uf : Z * Z, is_Some (products d !! uf.2)) (user_favourites d).

(** The lookup by name finds a tenant under [name]: one whose name, folded
    by the database, is [name] folded by Python. *)
Definition tenant_named (name : string) (d : DB) : Prop :=
  map_Exists (λ _ t, func_lower (Tenant.name t) = str_lower name) (tenants d).

(** The names of the tenants are all folded alike by Python and the
    database. *)
Definition tenant_names_plain (d : DB) : Prop :=
  map_Forall (λ _ t, folds_agree (Tenant.name t)) (tenants d).

(** A user of the store has username [username]. *)
Definition username_taken (username : string) (d : DB) : Prop :=
  map_Exists (λ _ u, User.username u = username) (users d).

(** Product [pid] of the store belongs to tenant [tenant_id]. *)
Definition owned_by (tenant_id : Z) (d : DB) (pid : Z) : bool :=
  match products d !! pid with
  | Some p => bool_decide (Product.tenant_id p = tenant_id)
  | None => false
  end.

(** The session after [create_tenant] has added and committed tenant [t]. *)
Definition tenant_added (t : Tenant.t) (w : World) : World :=
  {| committed := set_tenants (<[Tenant.id t := t]> (tenants (pending w))) (pending w);
     pending := set_tenants (<[Tenant.id t := t]> (tenants (pending w))) (pending w);
     log := log w |}.

(** The exception the item [it] is refused with, after the items [earlier]. *)
Definition refusal (d : DB) (earlier : list schemas.OrderItemCreate)
    (it : schemas.OrderItemCreate) : Exn :=
  if schemas.quantity it <=? 0
  then ValueError (InvalidQuantity (schemas.quantity it))
  else
    match products d !! schemas.product_id it with
    | None => ResourceNotFoundError "Product"
    | Some p =>
        ValueError
          (InsufficientStock (Product.name p)
             (Product.available_quantity p
              - ordered_quantity (schemas.product_id it) earlier)
             (schemas.quantity it))
    end.

(** Within a tenant no two products have the same name, letter case aside. *)
Definition product_names_unique (d : DB) : Prop :=
  map_Forall
    (λ k1 p1, map_Forall
                (λ k2 p2, Product.tenant_id p1 = Product.tenant_id p2 →
                          str_lower (Product.name p1) = str_lower (Product.name p2) →
                          k1 = k2)
                (products d))
    (products d).

(** A second product of Nike in the sample store. *)
Definition jordan : Product.t :=
  {| Product.id := 3; Product.name := "Jordan"; Product.description := None;
     Product.category := Some "shoes"; Product.price := 150.0%float;
     Product.available_quantity := 7; Product.tenant_id := 1 |}.

Definition nike_shop : DB := set_products (<[3 := jordan]> (products shop)) shop.

Definition rename_to (n : string) : schemas.ProductUpdates :=
  schemas.Build_ProductUpdates (Some n) None None None None.

(** * Properties *)

(** ** Basic facts *)

Ltac run :=
  repeat (unfold bind, ret, raise, query, modify, db_commit, logger, call,
            try_except in *; cbn [fst snd] in *).

Lemma elem_of_rows {A} (m : gmap Z A) (x : A) : x ∈ rows m ↔ ∃ k, m !! k = Some x.
Proof.
  unfold rows. rewrite list_elem_of_fmap. split.
  - intros ([k y] & -> & Hin). exists k.
    rewrite merge_sort_Permutation in Hin. by apply elem_of_map_to_list.
  - intros [k Hk]. exists (k, x). split; [done|].
    rewrite merge_sort_Permutation. by apply elem_of_map_to_list.
Qed.

Lemma set_available_quantity_same (p : Product.t) :
  Product.set_available_quantity (Product.available_quantity p) p = p.
Proof. by destruct p. Qed.

Lemma set_available_quantity_twice (a b : Z) (p : Product.t) :
  Product.set_available_quantity a (Product.set_available_quantity b p)
  = Product.set_available_quantity a p.
Proof. done. Qed.

Lemma available_quantity_set (a : Z) (p : Product.t) :
  Product.available_quantity (Product.set_available_quantity a p) = a.
Proof. done. Qed.

(** *** The loop of [create_order] *)

Lemma create_order_items_cons oid it rest tq ta w r w' :
  crud.create_order_items oid (it :: rest) tq ta w = (Ok r, w') →
  ∃ prod,
    0 < schemas.quantity it
    ∧ products (pending w) !! schemas.product_id it = Some prod
    ∧ schemas.quantity it ≤ Product.available_quantity prod
    ∧ crud.create_order_items oid rest (tq + schemas.quantity it)
        (ta + Product.price prod * of_int (schemas.quantity it))%float
        (served oid it prod w) = (Ok r, w').
Proof.
  cbn [crud.create_order_items].
  destruct (schemas.quantity it <=? 0) eqn:Hq; [by run|].
  apply Z.leb_gt in Hq.
  unfold bind at 1. unfold crud.get_product, query at 1.
  destruct (products (pending w) !! schemas.product_id it) as [prod|] eqn:Hp;
    [|by run].
  destruct (Product.available_quantity prod <? schemas.quantity it) eqn:Hs; [by run|].
  apply Z.ltb_ge in Hs.
  intros H. exists prod. repeat split; try done.
Qed.

Lemma create_order_items_raise oid items :
  ∀ tq ta w e w',
    crud.create_order_items oid items tq ta w = (Raise e, w') →
    committed w' = committed w ∧ log w' = log w.
Proof.
  induction items as [|it rest IH]; intros tq ta w e w'.
  - by run.
  - cbn [crud.create_order_items].
    destruct (schemas.quantity it <=? 0); [run; by intros [= _ <-]|].
    unfold bind at 1. unfold crud.get_product, query at 1.
    destruct (products (pending w) !! schemas.product_id it) as [prod|];
      [|run; by intros [= _ <-]].
    destruct (Product.available_quantity prod <? schemas.quantity it);
      [run; by intros [= _ <-]|].
    intros H. apply (IH _ _ (served oid it prod w)) in H. done.
Qed.

Lemma served_price oid it prod w pid :
  products (pending w) !! schemas.product_id it = Some prod →
  Product.price <$> products (pending (served oid it prod w)) !! pid
  = Product.price <$> products (pending w) !! pid.
Proof.
  intros Hp. cbn. destruct (decide (schemas.product_id it = pid)) as [<-|Hne].
  - by rewrite lookup_insert_eq, Hp.
  - by rewrite lookup_insert_ne.
Qed.

Lemma order_amount_ext (m1 m2 : gmap Z Product.t) items :
  (∀ pid, Product.price <$> m1 !! pid = Product.price <$> m2 !! pid) →
  ∀ start, order_amount m1 items start = order_amount m2 items start.
Proof.
  intros Hext. induction items as [|it rest IH]; intros start; [done|].
  cbn. specialize (Hext (schemas.product_id it)).
  destruct (m1 !! schemas.product_id it), (m2 !! schemas.product_id it);
    cbn in Hext; try discriminate; [|apply IH].
  injection Hext as ->. apply IH.
Qed.

Lemma line_of_ext oid (m1 m2 : gmap Z Product.t) it oi :
  (∀ pid, Product.price <$> m1 !! pid = Product.price <$> m2 !! pid) →
  line_of oid m1 it oi → line_of oid m2 it oi.
Proof. intros Hext (?&?&?&?). repeat split; try done. by rewrite <- Hext. Qed.

Lemma create_order_items_frame oid items :
  ∀ tq ta w r w',
    crud.create_order_items oid items tq ta w = (Ok r, w') →
    committed w' = committed w ∧ log w' = log w
    ∧ tenants (pending w') = tenants (pending w)
    ∧ users (pending w') = users (pending w)
    ∧ orders (pending w') = orders (pending w)
    ∧ user_favourites (pending w') = user_favourites (pending w).
Proof.
  induction items as [|it rest IH]; intros tq ta w r w' H.
  - run. by injection H as _ <-.
  - apply create_order_items_cons in H as (prod & _ & _ & _ & H).
    apply IH in H. done.
Qed.

Lemma create_order_items_totals oid items :
  ∀ tq ta w r w',
    crud.create_order_items oid items tq ta w = (Ok r, w') →
    r.1 = tq + sum_quantities items
    ∧ r.2 = order_amount (products (pending w)) items ta.
Proof.
  induction items as [|it rest IH]; intros tq ta w r w' H.
  - run. injection H as <- _. cbn. split; [lia|done].
  - apply create_order_items_cons in H as (prod & _ & Hp & _ & H).
    apply IH in H as [Hq Ha]. split.
    + rewrite Hq. unfold sum_quantities. cbn [foldr]. lia.
    + rewrite Ha. unfold order_amount at 2. cbn [fold_left]. rewrite Hp.
      apply order_amount_ext. intros pid. by apply served_price.
Qed.

Lemma create_order_items_lines oid items :
  ∀ tq ta w r w',
    crud.create_order_items oid items tq ta w = (Ok r, w') →
    ∃ lines,
      order_items (pending w') = (order_items (pending w) ++ lines)%list
      ∧ Forall2 (line_of oid (products (pending w))) items lines.
Proof.
  induction items as [|it rest IH]; intros tq ta w r w' H.
  - run. injection H as _ <-. exists []. by rewrite app_nil_r.
  - apply create_order_items_cons in H as (prod & _ & Hp & _ & H).
    apply IH in H as (lines & Heq & Hl).
    eexists (_ :: lines). split.
    + rewrite Heq. cbn. by rewrite <- app_assoc.
    + constructor.
      * repeat split; cbn; try done. by rewrite Hp.
      * eapply Forall2_impl; [exact Hl|].
        intros it' oi. apply line_of_ext. intros pid. by apply served_price.
Qed.

Lemma ordered_quantity_nonneg pid items :
  Forall (λ it, 0 < schemas.quantity it) items → 0 ≤ ordered_quantity pid items.
Proof.
  induction 1 as [|it rest Hq _ IH]; [done|].
  unfold ordered_quantity in *. cbn [foldr].
  destruct (schemas.product_id it =? pid); lia.
Qed.

Lemma create_order_items_stock oid items :
  ∀ tq ta w r w',
    crud.create_order_items oid items tq ta w = (Ok r, w') →
    Forall (λ it, 0 < schemas.quantity it
                  ∧ is_Some (products (pending w) !! schemas.product_id it)) items
    ∧ ∀ pid,
        products (pending w') !! pid
        = (λ p, Product.set_available_quantity
                  (Product.available_quantity p - ordered_quantity pid items) p)
            <$> products (pending w) !! pid
        ∧ ∀ p, products (pending w) !! pid = Some p →
               ordered_quantity pid items = 0
               ∨ ordered_quantity pid items ≤ Product.available_quantity p.
Proof.
  induction items as [|it rest IH]; intros tq ta w r w' H.
  - run. injection H as _ <-. split; [constructor|]. intros pid. cbn. split.
    + destruct (products (pending w) !! pid) as [p|]; cbn; [|done].
      by rewrite Z.sub_0_r, set_available_quantity_same.
    + by left.
  - apply create_order_items_cons in H as (prod & Hq & Hp & Hs & H).
    apply IH in H as [Hall Hstock]. split.
    + constructor; [by rewrite Hp|].
      eapply Forall_impl; [exact Hall|]. cbn. intros it' [? Hsome]. split; [done|].
      destruct (decide (schemas.product_id it = schemas.product_id it')) as [Heq|Hne].
      * rewrite <- Heq, Hp. eauto.
      * by rewrite lookup_insert_ne in Hsome.
    + intros pid. destruct (Hstock pid) as [Hlook Hle]. clear Hstock.
      assert (0 ≤ ordered_quantity pid rest) as Hnn.
      { apply ordered_quantity_nonneg. eapply Forall_impl; [exact Hall|]. by intros ? [? _]. }
      cbn in Hlook, Hle. cbn [ordered_quantity foldr].
      fold (ordered_quantity pid rest).
      destruct (decide (schemas.product_id it = pid)) as [<-|Hne].
      * rewrite lookup_insert_eq in Hlook, Hle. rewrite Z.eqb_refl, Hlook, Hp. cbn.
        split.
        -- rewrite set_available_quantity_twice. f_equal. f_equal. lia.
        -- intros p [= <-]. right.
           destruct (Hle _ eq_refl) as [H0|Hle'];
             rewrite ?available_quantity_set in *; lia.
      * rewrite lookup_insert_ne in Hlook, Hle by done.
        apply Z.eqb_neq in Hne. rewrite Hne, Z.add_0_l. done.
Qed.

Lemma ordered_quantity_app pid l1 l2 :
  ordered_quantity pid (l1 ++ l2)
  = ordered_quantity pid l1 + ordered_quantity pid l2.
Proof.
  unfold ordered_quantity. induction l1 as [|it l1 IH]; cbn [foldr app]; [done|].
  rewrite IH. lia.
Qed.

Lemma create_order_ok user items w o w' :
  crud.create_order user items w = (Ok o, w') →
  ∃ r w1,
    crud.create_order_items (fresh_id (orders (pending w))) items 0 0%float
      (order_opened user w) = (Ok r, w1)
    ∧ o = {| Order.id := fresh_id (orders (pending w));
             Order.user_id := User.id user;
             Order.total_quantity := r.1; Order.total_amount := r.2 |}
    ∧ pending w' = set_orders (<[Order.id o := o]> (orders (pending w1))) (pending w1)
    ∧ committed w' = pending w'
    ∧ log w' = log w1.
Proof.
  unfold crud.create_order. destruct items as [|it rest]; [by run|].
  unfold bind at 1. unfold query at 1. cbn [fst snd].
  unfold bind at 1. unfold modify at 1.
  fold (order_opened user w).
  unfold bind at 1.
  destruct (crud.create_order_items _ _ _ _ _) as [[r|e] w1] eqn:Hloop; [|done].
  run. intros [= <- <-]. exists r, w1. done.
Qed.

Lemma create_order_raise user items w e w' :
  crud.create_order user items w = (Raise e, w') →
  committed w' = committed w ∧ log w' = log w.
Proof.
  unfold crud.create_order. destruct items as [|it rest].
  - run. by intros [= _ <-].
  - unfold bind at 1. unfold query at 1. cbn [fst snd].
    unfold bind at 1. unfold modify at 1.
    fold (order_opened user w).
    unfold bind at 1.
    destruct (crud.create_order_items _ _ _ _ _) as [[r|e'] w1] eqn:Hloop.
    + by run.
    + intros [= <- <-]. by apply create_order_items_raise in Hloop.
Qed.

(** An order that goes through had no unservable item. *)
Lemma create_order_ok_servable user pre it post w o w' :
  crud.create_order user (pre ++ it :: post) w = (Ok o, w') →
  ¬ unservable (pending w) pre it.
Proof.
  intros H. apply create_order_ok in H as (r & w1 & Hloop & _).
  apply create_order_items_stock in Hloop as [Hall Hstock].
  cbn in Hall, Hstock.
  assert (Forall (λ it, 0 < schemas.quantity it) (pre ++ it :: post)) as Hpos.
  { eapply Forall_impl; [exact Hall|]. by intros ? [? _]. }
  apply Forall_app in Hall as [_ Hall]. apply Forall_cons in Hall as [[Hq Hsome] _].
  intros [Hbad|[Hbad|(p & Hp & Hbad)]].
  - lia.
  - rewrite Hbad in Hsome. by destruct Hsome.
  - destruct (Hstock (schemas.product_id it)) as [_ Hle].
    specialize (Hle _ Hp).
    rewrite ordered_quantity_app in Hle.
    apply Forall_app in Hpos as [Hpre Hpost]. apply Forall_cons in Hpost as [_ Hpost].
    pose proof (ordered_quantity_nonneg (schemas.product_id it) _ Hpre).
    pose proof (ordered_quantity_nonneg (schemas.product_id it) _ Hpost).
    unfold ordered_quantity in Hle at 2 4. cbn [foldr] in Hle.
    fold (ordered_quantity (schemas.product_id it) post) in Hle.
    rewrite Z.eqb_refl in Hle. lia.
Qed.

(** ** Order placement *)

(** Items that can all be served are served. *)
Lemma create_order_items_succeeds oid items :
  ∀ tq ta w,
    (∀ pre it post, items = (pre ++ it :: post)%list →
                    ¬ unservable (pending w) pre it) →
    ∃ r w', crud.create_order_items oid items tq ta w = (Ok r, w').
Proof.
  induction items as [|it0 rest IH]; intros tq ta w Hok.
  - eexists _, _. reflexivity.
  - pose proof (Hok [] it0 rest eq_refl) as H0. unfold unservable in H0.
    destruct (decide (schemas.quantity it0 ≤ 0)) as [Hq|Hq]; [by destruct H0; left|].
    destruct (products (pending w) !! schemas.product_id it0) as [prod|] eqn:Hp;
      [|destruct H0; by right; left].
    destruct (decide (Product.available_quantity prod < schemas.quantity it0))
      as [Hs|Hs].
    { destruct H0. right; right. exists prod. split; [done|].
      unfold ordered_quantity. cbn [foldr]. lia. }
    cbn [crud.create_order_items].
    destruct (schemas.quantity it0 <=? 0) eqn:Hqb; [apply Z.leb_le in Hqb; lia|].
    unfold bind at 1. unfold crud.get_product, query at 1. rewrite Hp.
    destruct (Product.available_quantity prod <? schemas.quantity it0) eqn:Hsb;
      [apply Z.ltb_lt in Hsb; lia|].
    apply (IH _ _ (served oid it0 prod w)).
    intros pre it post Heq Hbad.
    apply (Hok (it0 :: pre) it post); [by rewrite Heq|].
    destruct Hbad as [Hbad|[Hbad|(p & Hlook & Hbad)]]; [by left| |].
    + right; left. cbn in Hbad.
      destruct (decide (schemas.product_id it0 = schemas.product_id it)) as [Heq'|Hne].
      * rewrite <- Heq', lookup_insert_eq in Hbad. done.
      * by rewrite lookup_insert_ne in Hbad.
    + right; right. cbn in Hlook.
      unfold ordered_quantity. cbn [foldr]. fold (ordered_quantity (schemas.product_id it) pre).
      destruct (decide (schemas.product_id it0 = schemas.product_id it)) as [Heq'|Hne].
      * rewrite <- Heq', lookup_insert_eq in Hlook. injection Hlook as <-.
        exists prod. split; [by rewrite <- Heq'|].
        apply Z.eqb_eq in Heq'. rewrite Heq'.
        rewrite available_quantity_set in Hbad. lia.
      * rewrite lookup_insert_ne in Hlook by done. exists p. split; [done|].
        apply Z.eqb_neq in Hne. rewrite Hne. lia.
Qed.

Lemma create_order_succeeds (user : User.t) (items : list schemas.OrderItemCreate)
    (w : World) :
  items ≠ [] →
  (∀ pre it post, items = (pre ++ it :: post)%list → ¬ unservable (pending w) pre it) →
  ∃ o w', crud.create_order user items w = (Ok o, w').
Proof.
  intros Hne Hok. unfold crud.create_order. destruct items as [|it rest]; [done|].
  unfold bind at 1. unfold query at 1. cbn [fst snd].
  unfold bind at 1. unfold modify at 1.
  fold (order_opened user w).
  unfold bind at 1.
  destruct (create_order_items_succeeds (fresh_id (orders (pending w))) (it :: rest)
              0 0%float (order_opened user w)) as (r & w1 & ->); [exact Hok|].
  run. by eexists _, _.
Qed.

(** In the session of a failed order the earlier items have been served: the
    stock of product 1 is down by 2 there, and only there. *)
Example failed_order_session :
  ∃ e w',
    crud.create_order john_doe [item 1 2; item 2 6] (open_session shop) = (Raise e, w')
    ∧ Product.available_quantity <$> products (pending w') !! 1 = Some 48
    ∧ Product.available_quantity <$> products (committed w') !! 1 = Some 50
    ∧ Product.available_quantity <$> products (pending (db_close w')) !! 1 = Some 50.
Proof. eexists _, _. split; [vm_compute; reflexivity|]. by vm_compute. Qed.

(** C1. [create_order] is all or nothing.  Whenever an item of the order
    cannot be served when its turn comes (its quantity is not positive, its
    product is missing, or the stock left by the items before it is short),
    the call raises and publishes nothing of its work: the committed store
    is the one it started from, so no stock decrement, order item or order
    row of the call is visible, for the failing product and for the products
    served before it alike; the endpoint answers with the error and, once the
    request's session is closed, the session holds the initial store too. *)
Theorem create_order_atomic (user : User.t) (pre post : list schemas.OrderItemCreate)
    (it : schemas.OrderItemCreate) (d : DB) :
  unservable d pre it →
  ∃ e w',
    crud.create_order user (pre ++ it :: post) (open_session d) = (Raise e, w')
    ∧ committed w' = d
    ∧ (∀ pid, products (committed w') !! pid = products d !! pid)
    ∧ order_items (committed w') = order_items d
    ∧ orders (committed w') = orders d
    ∧ ∃ e', run_request (orders.create_order (pre ++ it :: post) user) d
            = (Raise e', db_close w')
            ∧ pending (db_close w') = d.
Proof.
  intros Hbad.
  destruct (crud.create_order user (pre ++ it :: post) (open_session d))
    as [[o|e] w'] eqn:Hrun.
  - by apply create_order_ok_servable in Hrun.
  - pose proof (create_order_raise _ _ _ _ _ Hrun) as [Hc _]. cbn in Hc.
    exists e, w'. rewrite Hc. repeat split; try done.
    unfold run_request, orders.create_order, try_except. rewrite Hrun.
    destruct e; run; eexists; by rewrite <- Hc.
Qed.

Lemma create_order_atomic_witness :
  ∃ e w',
    crud.create_order john_doe ([item 1 2] ++ item 2 6 :: [item 1 1])
      (open_session shop) = (Raise e, w')
    ∧ committed w' = shop
    ∧ (∀ pid, products (committed w') !! pid = products shop !! pid)
    ∧ order_items (committed w') = order_items shop
    ∧ orders (committed w') = orders shop
    ∧ ∃ e', run_request
              (orders.create_order ([item 1 2] ++ item 2 6 :: [item 1 1]) john_doe)
              shop
            = (Raise e', db_close w')
            ∧ pending (db_close w') = shop.
Proof.
  apply (create_order_atomic john_doe [item 1 2] [item 1 1] (item 2 6) shop).
  right; right. exists superstar. split; [reflexivity|]. vm_compute. reflexivity.
Defined.

Example nike_scenario :
  crud.create_order john_doe [item 1 2] (open_session shop)
  = (Ok nike_order,
     {| committed := shop_after_nike_order; pending := shop_after_nike_order;
        log := [] |}).
Proof. vm_compute. reflexivity. Qed.

(** C2. A [create_order] that succeeds publishes its work, and in the store it
    publishes: the order's [total_quantity] is the sum of the requested
    quantities; its [total_amount] is the float sum, in item order, of the
    price each product had when the order was placed times the quantity; the
    order items added are one per request item, in order, each with that
    price as its [unit_price]; every product is still there and its
    [available_quantity] is its former one minus all that the order asked of
    it, while its id, name, description, category, price and tenant are as
    before, and no product appears; a product the order touched ends with a
    stock that is not negative, and no stock that was not negative has become
    so. *)
Theorem create_order_totals (user : User.t) (items : list schemas.OrderItemCreate)
    (d : DB) (o : Order.t) (w' : World) :
  crud.create_order user items (open_session d) = (Ok o, w') →
  pending w' = committed w'
  ∧ orders (committed w') !! Order.id o = Some o
  ∧ Order.total_quantity o = sum_quantities items
  ∧ Order.total_amount o = order_amount (products d) items 0%float
  ∧ (∃ lines,
       order_items (committed w') = (order_items d ++ lines)%list
       ∧ Forall2 (line_of (Order.id o) (products d)) items lines)
  ∧ (∀ pid p, products d !! pid = Some p →
       ∃ p', products (committed w') !! pid = Some p'
             ∧ Product.available_quantity p'
               = Product.available_quantity p - ordered_quantity pid items
             ∧ Product.id p' = Product.id p
             ∧ Product.name p' = Product.name p
             ∧ Product.description p' = Product.description p
             ∧ Product.category p' = Product.category p
             ∧ Product.price p' = Product.price p
             ∧ Product.tenant_id p' = Product.tenant_id p)
  ∧ (∀ pid, products d !! pid = None → products (committed w') !! pid = None)
  ∧ (∀ pid p', products (committed w') !! pid = Some p' →
               ordered_quantity pid items ≠ 0 → 0 ≤ Product.available_quantity p')
  ∧ (∀ pid p p', products d !! pid = Some p →
                 products (committed w') !! pid = Some p' →
                 0 ≤ Product.available_quantity p →
                 0 ≤ Product.available_quantity p').
Proof.
  intros H. apply create_order_ok in H as (r & w1 & Hloop & Ho & Hpend & Hcomm & _).
  pose proof (create_order_items_totals _ _ _ _ _ _ _ Hloop) as [Hq Ha].
  pose proof (create_order_items_lines _ _ _ _ _ _ _ Hloop) as (lines & Hlines & Hl).
  pose proof (create_order_items_stock _ _ _ _ _ _ _ Hloop) as [Hall Hstock].
  cbn in Hq, Ha, Hlines, Hl, Hstock.
  assert (products (committed w') = products (pending w1)) as Hprod
    by (by rewrite Hcomm, Hpend).
  assert (∀ pid, 0 ≤ ordered_quantity pid items) as Hnn.
  { intros pid. apply ordered_quantity_nonneg.
    eapply Forall_impl; [exact Hall|]. by intros ? [? _]. }
  split; [by rewrite Hcomm|]. split.
  { rewrite Hcomm, Hpend. cbn. by rewrite lookup_insert_eq. }
  split; [rewrite Ho; cbn; rewrite Hq; apply Z.add_0_l|].
  split; [by rewrite Ho|]. split.
  { exists lines. rewrite Hcomm, Hpend. cbn. split; [done|]. by rewrite Ho. }
  split.
  { intros pid p Hp. rewrite Hprod. destruct (Hstock pid) as [-> _].
    rewrite Hp. cbn. eexists. split; [done|]. done. }
  split.
  { intros pid Hp. rewrite Hprod. destruct (Hstock pid) as [-> _]. by rewrite Hp. }
  split.
  - intros pid p'. rewrite Hprod. destruct (Hstock pid) as [-> Hle].
    destruct (products d !! pid) as [p|]; [|done]. cbn. intros [= <-] Hne.
    rewrite available_quantity_set. destruct (Hle _ eq_refl); lia.
  - intros pid p p' Hp. rewrite Hprod. destruct (Hstock pid) as [-> Hle].
    rewrite Hp. cbn. intros [= <-] Hpos. rewrite available_quantity_set.
    specialize (Hnn pid). destruct (Hle _ Hp); lia.
Qed.

Lemma create_order_totals_witness :
  let w' := {| committed := shop_after_nike_order; pending := shop_after_nike_order;
               log := [] |} in
  pending w' = committed w'
  ∧ orders (committed w') !! Order.id nike_order = Some nike_order
  ∧ Order.total_quantity nike_order = sum_quantities [item 1 2]
  ∧ Order.total_amount nike_order = order_amount (products shop) [item 1 2] 0%float
  ∧ (∃ lines,
       order_items (committed w') = (order_items shop ++ lines)%list
       ∧ Forall2 (line_of (Order.id nike_order) (products shop)) [item 1 2] lines)
  ∧ (∀ pid p, products shop !! pid = Some p →
       ∃ p', products (committed w') !! pid = Some p'
             ∧ Product.available_quantity p'
               = Product.available_quantity p - ordered_quantity pid [item 1 2]
             ∧ Product.id p' = Product.id p
             ∧ Product.name p' = Product.name p
             ∧ Product.description p' = Product.description p
             ∧ Product.category p' = Product.category p
             ∧ Product.price p' = Product.price p
             ∧ Product.tenant_id p' = Product.tenant_id p)
  ∧ (∀ pid, products shop !! pid = None → products (committed w') !! pid = None)
  ∧ (∀ pid p', products (committed w') !! pid = Some p' →
               ordered_quantity pid [item 1 2] ≠ 0 →
               0 ≤ Product.available_quantity p')
  ∧ (∀ pid p p', products shop !! pid = Some p →
                 products (committed w') !! pid = Some p' →
                 0 ≤ Product.available_quantity p →
                 0 ≤ Product.available_quantity p').
Proof.
  apply (create_order_totals john_doe [item 1 2] shop nike_order
           {| committed := shop_after_nike_order; pending := shop_after_nike_order;
              log := [] |}).
  vm_compute. reflexivity.
Defined.

(** The stock of the scenario: 50 before, 48 after. *)
Example nike_scenario_stock :
  Product.available_quantity <$> products shop !! 1 = Some 50
  ∧ Product.available_quantity <$> products shop_after_nike_order !! 1 = Some 48.
Proof. split; by vm_compute. Qed.

(** ** Product mutation *)

Lemma may_mutate_spec (user : User.t) (p : Product.t) :
  crud.may_mutate user p = true ↔ mutation_allowed user (Product.tenant_id p).
Proof.
  unfold crud.may_mutate, mutation_allowed.
  destruct (String.eqb (User.role user) "platform_admin") eqn:Hpa; cbn.
  - apply String.eqb_eq in Hpa. by split; [left|].
  - apply String.eqb_neq in Hpa.
    destruct (String.eqb (User.role user) "tenant_admin") eqn:Hta; cbn.
    + apply String.eqb_eq in Hta. case_bool_decide; cbn.
      * split; [by right|done].
      * split; [done|]. intros [?|[_ ?]]; done.
    + apply String.eqb_neq in Hta. split; [done|]. intros [?|[? _]]; done.
Qed.

Lemma require_tenant_admin_spec (tenant : Tenant.t) (user : User.t) (w : World) :
  (guard_allowed user tenant (pending w)
   ∧ dependencies.require_tenant_admin tenant user w = (Ok user, w))
  ∨ (¬ guard_allowed user tenant (pending w)
     ∧ dependencies.require_tenant_admin tenant user w = (Raise PermissionDeniedError, w)).
Proof.
  unfold dependencies.require_tenant_admin, guard_allowed.
  destruct (String.eqb (User.role user) "platform_admin") eqn:Hpa.
  { apply String.eqb_eq in Hpa. left. split; [by left|done]. }
  apply String.eqb_neq in Hpa.
  destruct (String.eqb (User.role user) "tenant_admin") eqn:Hta; cbn.
  2:{ apply String.eqb_neq in Hta. right. split; [|done]. intros [?|[? _]]; done. }
  apply String.eqb_eq in Hta. run.
  destruct (dependencies.user_tenant user (pending w)) as [st|]; cbn.
  2:{ right. split; [|done]. intros [?|[_ ?]]; done. }
  destruct (Tenant.id st =? Tenant.id tenant) eqn:Hid; cbn.
  - apply Z.eqb_eq in Hid. left. split; [right; by rewrite Hid|done].
  - apply Z.eqb_neq in Hid. right. split; [|done].
    intros [?|[_ [= ?]]]; done.
Qed.

Lemma save_product_run (pid : Z) (p : Product.t) (w : World) :
  crud.save_product pid p w
  = match crud.flush_product pid p (pending w) with
    | Some e => (Raise e, rolled_back w)
    | None => (Ok (as_stored p), product_saved pid p w)
    end.
Proof.
  unfold crud.save_product. run.
  by destruct (crud.flush_product pid p (pending w)).
Qed.

Lemma flush_product_refusal (pid : Z) (p : Product.t) (d : DB) (e : Exn) :
  crud.flush_product pid p d = Some e → e = OverflowError ∨ e = IntegrityError.
Proof.
  unfold crud.flush_product.
  destruct (negb (fits_int64 (Product.available_quantity p))); [intros [= <-]; by left|].
  destruct (_ || _); [intros [= <-]; by right|done].
Qed.

Lemma update_product_run (pid : Z) (updates : schemas.ProductUpdates) (user : User.t)
    (p : Product.t) (w : World) :
  products (pending w) !! pid = Some p →
  crud.update_product pid updates user w
  = if crud.may_mutate user p
    then crud.save_product pid (crud.apply_updates updates p) w
    else (Raise PermissionDeniedError, w).
Proof.
  intros Hp. unfold crud.update_product, crud.get_product.
  unfold bind at 1. unfold query at 1. rewrite Hp.
  by destruct (crud.may_mutate user p).
Qed.

(** C3. On an existing product, [update_product] and [delete_product] are
    refused with [PermissionDeniedError] (status 403), and the store is left
    as it was, for every principal that is neither a platform admin nor a
    tenant admin whose tenant is the product's owner; so an update or a
    deletion that goes through was asked by a principal the rule allows.  A
    principal the rule allows is never refused for permission: its deletion
    goes through, and its update goes through whenever the database takes the
    new row; when the database does not (a name that another product of the
    tenant has, a quantity beyond 64 bits, a NaN price) the request ends in an
    internal error, status 500, not in a refusal.  Creation is guarded by
    [require_tenant_admin] with the tenant the product is created in: it lets
    the same principals through and refuses the others with
    [PermissionDeniedError]; a caller the guard refuses gets that error from
    the three endpoints before any handler runs. *)
Theorem product_mutation_rule (user : User.t) (pid : Z) (p : Product.t)
    (updates : schemas.ProductUpdates) (tenant : Tenant.t) (w : World) :
  products (pending w) !! pid = Some p →
  (mutation_allowed user (Product.tenant_id p) →
     (crud.flush_product pid (crud.apply_updates updates p) (pending w) = None →
        ∃ p' w', crud.update_product pid updates user w = (Ok p', w'))
     ∧ (∀ e, crud.flush_product pid (crud.apply_updates updates p) (pending w) = Some e →
             crud.update_product pid updates user w = (Raise e, rolled_back w)
             ∧ response_status e = 500)
     ∧ (∃ w', crud.delete_product pid user w = (Ok tt, w')))
  ∧ (¬ mutation_allowed user (Product.tenant_id p) →
     crud.update_product pid updates user w = (Raise PermissionDeniedError, w)
     ∧ crud.delete_product pid user w = (Raise PermissionDeniedError, w)
     ∧ response_status PermissionDeniedError = 403)
  ∧ (∀ p' w', crud.update_product pid updates user w = (Ok p', w') →
              mutation_allowed user (Product.tenant_id p))
  ∧ (∀ w', crud.delete_product pid user w = (Ok tt, w') →
           mutation_allowed user (Product.tenant_id p))
  ∧ (guard_allowed user tenant (pending w) →
     dependencies.require_tenant_admin tenant user w = (Ok user, w))
  ∧ (¬ guard_allowed user tenant (pending w) →
     dependencies.require_tenant_admin tenant user w
     = (Raise PermissionDeniedError, w))
  ∧ (∀ tenant_name credentials caller w1 data,
       crud.get_tenant_by_name tenant_name w = (Ok (Some tenant), w) →
       dependencies.get_current_user credentials w = (Ok caller, w1) →
       ¬ guard_allowed caller tenant (pending w1) →
       endpoint.put_product tenant_name pid credentials updates w
       = (Raise PermissionDeniedError, w1)
       ∧ endpoint.delete_product tenant_name pid credentials w
         = (Raise PermissionDeniedError, w1)
       ∧ endpoint.post_product tenant_name credentials data w
         = (Raise PermissionDeniedError, w1)).
Proof.
  intros Hp.
  pose proof (may_mutate_spec user p) as Hrule.
  pose proof (update_product_run pid updates user p w Hp) as Hupd.
  assert (crud.delete_product pid user w
          = if crud.may_mutate user p
            then (Ok tt,
                  {| committed := set_products (delete pid (products (pending w)))
                                    (crud.drop_products (Z.eqb pid) (pending w));
                     pending := set_products (delete pid (products (pending w)))
                                  (crud.drop_products (Z.eqb pid) (pending w));
                     log := log w |})
            else (Raise PermissionDeniedError, w)) as Hdel.
  { unfold crud.delete_product, crud.get_product. run. rewrite Hp.
    by destruct (crud.may_mutate user p). }
  rewrite Hupd, Hdel, save_product_run.
  split; [|split; [|split; [|split; [|split; [|split]]]]].
  - intros Hyes. apply Hrule in Hyes. rewrite Hyes.
    split; [by intros ->; eexists _, _|]. split; [|by eexists].
    intros e He. rewrite He. split; [done|].
    by destruct (flush_product_refusal _ _ _ _ He) as [-> | ->].
  - intros Hno. destruct (crud.may_mutate user p); [|done].
    exfalso. by apply Hno, Hrule.
  - intros p' w'. destruct (crud.may_mutate user p); [intros _; by apply Hrule|done].
  - intros w'. destruct (crud.may_mutate user p); [intros _; by apply Hrule|done].
  - intros Hyes. by destruct (require_tenant_admin_spec tenant user w) as [[? ?]|[? ?]].
  - intros Hno. by destruct (require_tenant_admin_spec tenant user w) as [[? ?]|[? ?]].
  - intros tenant_name credentials caller w1 data Hpath Hcaller Hno.
    unfold endpoint.put_product, endpoint.delete_product, endpoint.post_product,
      endpoint.tenant_admin_scoped, dependencies.get_tenant_by_path.
    destruct (require_tenant_admin_spec tenant caller w1) as [[? ?]|[_ Hguard]];
      [done|].
    repeat split.
    all: unfold bind at 1; unfold bind at 1; rewrite Hpath; unfold ret at 1.
    all: unfold bind at 1; rewrite Hcaller.
    all: unfold bind at 1; by rewrite Hguard.
Qed.

(** A tenant admin of Adidas on a Nike product, and on one of its own. *)
Lemma product_mutation_rule_witness :
  let updates := schemas.Build_ProductUpdates None None None (Some 50.0%float) None in
  (mutation_allowed adidas_admin (Product.tenant_id air_max) →
     (crud.flush_product 1 (crud.apply_updates updates air_max)
        (pending (open_session shop)) = None →
        ∃ p' w', crud.update_product 1 updates adidas_admin (open_session shop)
                 = (Ok p', w'))
     ∧ (∀ e, crud.flush_product 1 (crud.apply_updates updates air_max)
               (pending (open_session shop)) = Some e →
             crud.update_product 1 updates adidas_admin (open_session shop)
             = (Raise e, rolled_back (open_session shop))
             ∧ response_status e = 500)
     ∧ (∃ w', crud.delete_product 1 adidas_admin (open_session shop) = (Ok tt, w')))
  ∧ (¬ mutation_allowed adidas_admin (Product.tenant_id air_max) →
     crud.update_product 1 updates adidas_admin (open_session shop)
     = (Raise PermissionDeniedError, open_session shop)
     ∧ crud.delete_product 1 adidas_admin (open_session shop)
       = (Raise PermissionDeniedError, open_session shop)
     ∧ response_status PermissionDeniedError = 403)
  ∧ (∀ p' w', crud.update_product 1 updates adidas_admin (open_session shop)
              = (Ok p', w') →
              mutation_allowed adidas_admin (Product.tenant_id air_max))
  ∧ (∀ w', crud.delete_product 1 adidas_admin (open_session shop) = (Ok tt, w') →
           mutation_allowed adidas_admin (Product.tenant_id air_max))
  ∧ (guard_allowed adidas_admin nike (pending (open_session shop)) →
     dependencies.require_tenant_admin nike adidas_admin (open_session shop)
     = (Ok adidas_admin, open_session shop))
  ∧ (¬ guard_allowed adidas_admin nike (pending (open_session shop)) →
     dependencies.require_tenant_admin nike adidas_admin (open_session shop)
     = (Raise PermissionDeniedError, open_session shop))
  ∧ (∀ tenant_name credentials caller w1 data,
       crud.get_tenant_by_name tenant_name (open_session shop)
       = (Ok (Some nike), open_session shop) →
       dependencies.get_current_user credentials (open_session shop) = (Ok caller, w1) →
       ¬ guard_allowed caller nike (pending w1) →
       endpoint.put_product tenant_name 1 credentials updates (open_session shop)
       = (Raise PermissionDeniedError, w1)
       ∧ endpoint.delete_product tenant_name 1 credentials (open_session shop)
         = (Raise PermissionDeniedError, w1)
       ∧ endpoint.post_product tenant_name credentials data (open_session shop)
         = (Raise PermissionDeniedError, w1)).
Proof.
  apply (product_mutation_rule adidas_admin 1 air_max
           (schemas.Build_ProductUpdates None None None (Some 50.0%float) None)
           nike (open_session shop)).
  reflexivity.
Defined.

(** The Adidas admin and the Nike admin at the endpoints of Nike's product 1:
    the first is refused, the second renames the product. *)
Example put_product_by_two_admins :
  endpoint.put_product "nike" 1
    (auth.Verified
       {| auth.preferred_username := Some "adidas_admin"; auth.sub := None;
          auth.realm_access := Some (auth.RolesDict (Some ["tenant_admin"]));
          auth.role := None; auth.tenant := None; auth.tenant_name := None |})
    (schemas.Build_ProductUpdates (Some "Air Max 90") None None None None)
    (open_session shop)
  = (Raise PermissionDeniedError, open_session shop)
  ∧ ∃ p' w',
      endpoint.put_product "nike" 1
        (auth.Verified nike_admin_token)
        (schemas.Build_ProductUpdates (Some "Air Max 90") None None None None)
        (open_session shop)
      = (Ok p', w')
      ∧ Product.name p' = "Air Max 90"
      ∧ products (committed w') !! 1 = Some p'.
Proof. split; [by vm_compute|]. eexists _, _. split; [by vm_compute|]. by vm_compute. Qed.

Example tenant_admin_across_tenants :
  crud.delete_product 1 adidas_admin (open_session shop)
  = (Raise PermissionDeniedError, open_session shop)
  ∧ (∃ w', crud.delete_product 2 adidas_admin (open_session shop) = (Ok tt, w'))
  ∧ dependencies.require_tenant_admin nike adidas_admin (open_session shop)
    = (Raise PermissionDeniedError, open_session shop)
  ∧ dependencies.require_tenant_admin adidas adidas_admin (open_session shop)
    = (Ok adidas_admin, open_session shop).
Proof.
  split; [by vm_compute|]. split; [eexists; by vm_compute|].
  split; by vm_compute.
Qed.

(** ** Identity resolution *)

Lemma token_tenant_run (claims : auth.Claims) (w : World) :
  dependencies.token_tenant claims w = (Ok (resolved_tenant claims (pending w)), w).
Proof.
  unfold dependencies.token_tenant, resolved_tenant.
  by destruct (truthy (py_or (auth.tenant claims) (auth.tenant_name claims))).
Qed.

Lemma token_username_Some (claims : auth.Claims) (name : string) :
  token_username claims = Some name →
  truthy (py_or (auth.preferred_username claims) (auth.sub claims)) = true
  ∧ default "" (py_or (auth.preferred_username claims) (auth.sub claims)) = name.
Proof.
  unfold token_username.
  destruct (truthy (py_or (auth.preferred_username claims) (auth.sub claims)));
    [|done].
  by intros ->.
Qed.

Lemma create_user_run (username role : string) (tenant : option Tenant.t) (w : World) :
  (∃ e, crud.create_user username role tenant w = (Raise e, w))
  ∨ ∃ id,
      crud.create_user username role tenant w
      = (Ok {| User.id := id; User.username := username; User.role := role;
               User.tenant_id := Tenant.id <$> tenant |},
         {| committed :=
              set_users
                (<[id := {| User.id := id; User.username := username;
                            User.role := role;
                            User.tenant_id := Tenant.id <$> tenant |}]>
                   (users (pending w))) (pending w);
            pending :=
              set_users
                (<[id := {| User.id := id; User.username := username;
                            User.role := role;
                            User.tenant_id := Tenant.id <$> tenant |}]>
                   (users (pending w))) (pending w);
            log := log w |}).
Proof.
  unfold crud.create_user, crud.get_user_by_username. run.
  destruct (first_where _ _); [left|right]; eauto.
Qed.

Lemma first_where_Some {A} (P : A → bool) (m : gmap Z A) (x : A) :
  first_where P m = Some x → P x = true ∧ ∃ k, m !! k = Some x.
Proof.
  intros H. apply head_Some_elem_of in H.
  apply list_elem_of_filter in H as [HP Hin].
  by apply elem_of_rows in Hin.
Qed.

Lemma first_where_None {A} (P : A → bool) (m : gmap Z A) :
  first_where P m = None → ∀ k x, m !! k = Some x → P x = false.
Proof.
  intros H k x Hk. apply head_None in H.
  destruct (P x) eqn:HP; [|done]. exfalso.
  assert (x ∈ filter (λ x, P x = true) (rows m)) as Hin.
  { apply list_elem_of_filter. split; [done|]. apply elem_of_rows. by exists k. }
  rewrite H in Hin. by apply not_elem_of_nil in Hin.
Qed.

Lemma get_current_user_known_eq (claims : auth.Claims) (name : string)
    (user : User.t) (w : World) :
  token_username claims = Some name →
  first_where (λ u, String.eqb (User.username u) name) (users (pending w)) = Some user →
  dependencies.get_current_user (auth.Verified claims) w
  = if negb (String.eqb (User.role user) (dependencies.token_role claims))
       || tenant_differs_b claims user (pending w)
    then (Ok (reconciled claims user (pending w)),
          user_saved (reconciled claims user (pending w)) w)
    else (Ok (reconciled claims user (pending w)), w).
Proof.
  intros Hname Hfound. apply token_username_Some in Hname as [Htruthy Hdef].
  unfold dependencies.get_current_user. rewrite Htruthy, Hdef. cbn [negb].
  unfold bind at 1. rewrite token_tenant_run.
  unfold bind at 1. unfold crud.get_user_by_username, query at 1. rewrite Hfound.
  unfold bind at 1. unfold query at 1.
  unfold reconciled, tenant_differs_b.
  destruct (negb (String.eqb (User.role user) (dependencies.token_role claims)));
    destruct (resolved_tenant claims (pending w)) as [t|];
    try destruct (dependencies.user_tenant user (pending w)) as [st|];
    try destruct (negb (Tenant.id st =? Tenant.id t)); by run.
Qed.

Lemma tenant_differs_b_spec (claims : auth.Claims) (user : User.t) (d : DB) :
  tenant_differs_b claims user d = true ↔ tenant_differs claims user d.
Proof.
  unfold tenant_differs_b, tenant_differs.
  destruct (resolved_tenant claims d) as [t|].
  2:{ split; [done|]. by intros (? & ? & _). }
  destruct (dependencies.user_tenant user d) as [st|]; cbn.
  - destruct (Tenant.id st =? Tenant.id t) eqn:Hid; cbn.
    + apply Z.eqb_eq in Hid. split; [done|].
      intros (t' & [= <-] & Hne). by rewrite Hid in Hne.
    + apply Z.eqb_neq in Hid. split; [|done]. intros _. exists t. split; [done|].
      intros [= ?]. done.
  - split; [|done]. intros _. by exists t.
Qed.

Lemma get_current_user_known (claims : auth.Claims) (name : string) (user : User.t)
    (w : World) :
  token_username claims = Some name →
  first_where (λ u, String.eqb (User.username u) name) (users (pending w)) = Some user →
  (¬ role_differs claims user ∧ ¬ tenant_differs claims user (pending w)
   ∧ reconciled claims user (pending w) = user
   ∧ dependencies.get_current_user (auth.Verified claims) w = (Ok user, w))
  ∨ ((role_differs claims user ∨ tenant_differs claims user (pending w))
     ∧ dependencies.get_current_user (auth.Verified claims) w
       = (Ok (reconciled claims user (pending w)),
          user_saved (reconciled claims user (pending w)) w)).
Proof.
  intros Hname Hfound.
  rewrite (get_current_user_known_eq _ _ _ _ Hname Hfound).
  pose proof (tenant_differs_b_spec claims user (pending w)) as Ht.
  unfold reconciled, role_differs.
  destruct (String.eqb (User.role user) (dependencies.token_role claims)) eqn:Hrole;
    [apply String.eqb_eq in Hrole|apply String.eqb_neq in Hrole]; cbn [negb orb].
  - destruct (tenant_differs_b claims user (pending w)).
    + right. split; [right; by apply Ht|done].
    + left. split; [by intros ?|]. split; [|done]. intros H. by apply Ht in H.
  - right. split; [by left|done].
Qed.

Lemma truthy_username (claims : auth.Claims) :
  truthy (py_or (auth.preferred_username claims) (auth.sub claims)) = true →
  token_username claims
  = Some (default "" (py_or (auth.preferred_username claims) (auth.sub claims))).
Proof.
  unfold token_username. intros Ht. rewrite Ht.
  by destruct (py_or (auth.preferred_username claims) (auth.sub claims)).
Qed.

Lemma reconciled_role (claims : auth.Claims) (user : User.t) (d : DB) :
  User.role (reconciled claims user d) = dependencies.token_role claims.
Proof.
  unfold reconciled.
  destruct (String.eqb (User.role user) (dependencies.token_role claims)) eqn:Hrole;
    [apply String.eqb_eq in Hrole|]; cbn [negb];
    by destruct (tenant_differs_b claims user d).
Qed.

Lemma get_current_user_role (claims : auth.Claims) (w w' : World) (u : User.t) :
  dependencies.get_current_user (auth.Verified claims) w = (Ok u, w') →
  User.role u = dependencies.token_role claims.
Proof.
  destruct (truthy (py_or (auth.preferred_username claims) (auth.sub claims)))
    eqn:Ht.
  2:{ unfold dependencies.get_current_user. rewrite Ht. by run. }
  pose proof (truthy_username _ Ht) as Hname.
  destruct (first_where
              (λ u, String.eqb (User.username u)
                      (default "" (py_or (auth.preferred_username claims)
                                         (auth.sub claims))))
              (users (pending w))) as [user|] eqn:Hfound.
  - rewrite (get_current_user_known_eq _ _ _ _ Hname Hfound).
    destruct (_ || _); intros [= <- _]; apply reconciled_role.
  - unfold dependencies.get_current_user. rewrite Ht. cbn [negb].
    unfold bind at 1. rewrite token_tenant_run.
    unfold bind at 1. unfold crud.get_user_by_username, query at 1. rewrite Hfound.
    destruct (create_user_run
                (default "" (py_or (auth.preferred_username claims) (auth.sub claims)))
                (dependencies.token_role claims)
                (resolved_tenant claims (pending w)) w) as [[e ->]|[id ->]]; [done|].
    by intros [= <- _].
Qed.

(** C4. The role of a verified token: an explicit ['role'] claim, when there
    is one, is the role; otherwise the roles list decides, ['platform_admin']
    before ['tenant_admin'] before the default ['user'], whatever the order
    of the list; and the user [get_current_user] returns carries that role.
    In particular the roles [platform_admin, tenant_admin] make a platform
    admin. *)
Theorem role_precedence (claims : auth.Claims) :
  (∀ r, auth.role claims = Some r → dependencies.token_role claims = r)
  ∧ (auth.role claims = None → "platform_admin" ∈ token_roles claims →
     dependencies.token_role claims = "platform_admin")
  ∧ (auth.role claims = None → "platform_admin" ∉ token_roles claims →
     "tenant_admin" ∈ token_roles claims →
     dependencies.token_role claims = "tenant_admin")
  ∧ (auth.role claims = None → "platform_admin" ∉ token_roles claims →
     "tenant_admin" ∉ token_roles claims →
     dependencies.token_role claims = "user")
  ∧ (auth.role claims = None →
     token_roles claims = ["platform_admin"; "tenant_admin"] →
     dependencies.token_role claims = "platform_admin")
  ∧ (∀ w u w', dependencies.get_current_user (auth.Verified claims) w = (Ok u, w') →
               User.role u = dependencies.token_role claims).
Proof.
  assert (auth.role claims = None →
          dependencies.token_role claims
          = if bool_decide ("platform_admin" ∈ token_roles claims)
            then "platform_admin"
            else if bool_decide ("tenant_admin" ∈ token_roles claims)
                 then "tenant_admin" else "user") as Hderived.
  { unfold dependencies.token_role, token_roles. intros ->.
    destruct (auth.realm_access claims) as [[[roles|]|]|]; try done. }
  split; [unfold dependencies.token_role; by intros r ->|].
  split; [intros Hr Hin; rewrite Hderived by done; by rewrite bool_decide_true|].
  split.
  { intros Hr Hnp Hin. rewrite Hderived by done.
    by rewrite bool_decide_false, bool_decide_true. }
  split.
  { intros Hr Hnp Hnt. rewrite Hderived by done. by rewrite !bool_decide_false. }
  split; [|intros w u w'; apply get_current_user_role].
  intros Hr Heq. rewrite Hderived by done. rewrite Heq. done.
Qed.

Example role_precedence_both_roles :
  dependencies.token_role
    {| auth.preferred_username := Some "root"; auth.sub := None;
       auth.realm_access :=
         Some (auth.RolesDict (Some ["tenant_admin"; "platform_admin"]));
       auth.role := None; auth.tenant := None; auth.tenant_name := None |}
  = "platform_admin"
  ∧ dependencies.token_role
      {| auth.preferred_username := Some "root"; auth.sub := None;
         auth.realm_access :=
           Some (auth.RolesDict (Some ["platform_admin"; "tenant_admin"]));
         auth.role := Some "user"; auth.tenant := None; auth.tenant_name := None |}
    = "user".
Proof. split; reflexivity. Qed.

Lemma resolved_tenant_lookup (claims : auth.Claims) (d : DB) (t : Tenant.t) :
  tenant_keys_ok d → resolved_tenant claims d = Some t →
  tenants d !! Tenant.id t = Some t.
Proof.
  unfold resolved_tenant. intros Hkeys.
  destruct (truthy _); [|done].
  intros (_ & k & Hk)%first_where_Some.
  by rewrite (Hkeys _ _ Hk).
Qed.

Lemma tenant_differs_stored (claims : auth.Claims) (user : User.t) (d : DB) (t : Tenant.t) :
  tenant_keys_ok d → resolved_tenant claims d = Some t →
  Tenant.id <$> dependencies.user_tenant user d ≠ Some (Tenant.id t) →
  User.tenant_id user ≠ Some (Tenant.id t).
Proof.
  intros Hkeys Ht Hne Heq. apply Hne.
  unfold dependencies.user_tenant. rewrite Heq. cbn.
  by rewrite (resolved_tenant_lookup _ _ _ Hkeys Ht).
Qed.

(** C6. For a user the store already knows, identity resolution succeeds and:
    when the token resolves to no tenant (it names none, or names one the
    store does not have) the stored tenant link is returned as it was; a
    stored link is never cleared; the link changes only to the tenant the
    token resolves to, and only when that tenant is not the stored one; and
    either nothing at all is written (the session is as before) or the role
    or the tenant did change and exactly the reconciled user row is saved and
    committed. *)
Theorem tenant_link_kept (claims : auth.Claims) (name : string) (user : User.t)
    (w : World) :
  token_username claims = Some name →
  first_where (λ u, String.eqb (User.username u) name) (users (pending w)) = Some user →
  tenant_keys_ok (pending w) →
  ∃ u' w',
    dependencies.get_current_user (auth.Verified claims) w = (Ok u', w')
    ∧ (resolved_tenant claims (pending w) = None →
       User.tenant_id u' = User.tenant_id user)
    ∧ (is_Some (User.tenant_id user) → is_Some (User.tenant_id u'))
    ∧ (User.tenant_id u' ≠ User.tenant_id user →
       ∃ t, resolved_tenant claims (pending w) = Some t
            ∧ User.tenant_id u' = Some (Tenant.id t)
            ∧ User.tenant_id user ≠ Some (Tenant.id t))
    ∧ ((w' = w ∧ u' = user)
       ∨ ((User.role u' ≠ User.role user ∨ User.tenant_id u' ≠ User.tenant_id user)
          ∧ w' = user_saved u' w)).
Proof.
  intros Hname Hfound Hkeys.
  assert (∀ u1, User.tenant_id
                  (if negb (String.eqb (User.role user) (dependencies.token_role claims))
                   then User.set_role (dependencies.token_role claims) user else u1)
                = User.tenant_id (if negb (String.eqb (User.role user)
                                             (dependencies.token_role claims))
                                  then user else u1)) as Hsr
    by (intros; by destruct (negb _)).
  pose proof (tenant_differs_b_spec claims user (pending w)) as Hspec.
  assert (User.tenant_id (reconciled claims user (pending w))
          = if tenant_differs_b claims user (pending w)
            then Tenant.id <$> resolved_tenant claims (pending w)
            else User.tenant_id user) as Htid.
  { unfold reconciled. destruct (tenant_differs_b claims user (pending w)); [done|].
    by destruct (negb _). }
  assert (tenant_differs_b claims user (pending w) = true →
          ∃ t, resolved_tenant claims (pending w) = Some t
               ∧ User.tenant_id (reconciled claims user (pending w)) = Some (Tenant.id t)
               ∧ User.tenant_id user ≠ Some (Tenant.id t)) as Hchanged.
  { intros Hb. rewrite Htid, Hb. apply Hspec in Hb as (t & Ht & Hne).
    exists t. rewrite Ht. split; [done|]. split; [done|].
    by eapply tenant_differs_stored. }
  destruct (get_current_user_known _ _ _ _ Hname Hfound)
    as [(Hr & Ht & Hsame & Hrun)|[Hdiff Hrun]].
  - exists user, w. split; [done|]. repeat split; try done. by left.
  - eexists _, _. split; [exact Hrun|].
    split.
    { intros Hnone. rewrite Htid. unfold tenant_differs_b. by rewrite Hnone. }
    split.
    { rewrite Htid. destruct (tenant_differs_b claims user (pending w)) eqn:Hb; [|done].
      intros _. destruct (Hchanged eq_refl) as (t & -> & _). by eexists. }
    split.
    { intros Hne. destruct (tenant_differs_b claims user (pending w)) eqn:Hb.
      - by apply Hchanged.
      - by rewrite Htid in Hne. }
    right. split; [|done].
    destruct Hdiff as [Hrole|Hten].
    + left. rewrite reconciled_role. intros Heq. by apply Hrole.
    + right. apply Hspec in Hten. destruct (Hchanged Hten) as (t & _ & -> & Hne).
      intros Heq. by apply Hne.
Qed.

Lemma tenant_link_kept_witness :
  ∃ u' w',
    dependencies.get_current_user (auth.Verified nike_admin_token) (open_session shop)
    = (Ok u', w')
    ∧ (resolved_tenant nike_admin_token (pending (open_session shop)) = None →
       User.tenant_id u' = User.tenant_id nike_admin)
    ∧ (is_Some (User.tenant_id nike_admin) → is_Some (User.tenant_id u'))
    ∧ (User.tenant_id u' ≠ User.tenant_id nike_admin →
       ∃ t, resolved_tenant nike_admin_token (pending (open_session shop)) = Some t
            ∧ User.tenant_id u' = Some (Tenant.id t)
            ∧ User.tenant_id nike_admin ≠ Some (Tenant.id t))
    ∧ ((w' = open_session shop ∧ u' = nike_admin)
       ∨ ((User.role u' ≠ User.role nike_admin
           ∨ User.tenant_id u' ≠ User.tenant_id nike_admin)
          ∧ w' = user_saved u' (open_session shop))).
Proof.
  apply (tenant_link_kept nike_admin_token "nike_admin" nike_admin (open_session shop)).
  - reflexivity.
  - vm_compute. reflexivity.
  - unfold tenant_keys_ok. apply (bool_decide_unpack _). vm_compute. exact I.
Defined.

(** The token of the Nike admin without a tenant claim leaves the stored link
    to Nike in place and writes nothing; with the claim [tenant: Adidas] the
    link moves to Adidas and is committed. *)
Example tenant_claim_absent_and_present :
  dependencies.get_current_user (auth.Verified nike_admin_token) (open_session shop)
  = (Ok nike_admin, open_session shop)
  ∧ ∃ w',
      dependencies.get_current_user
        (auth.Verified
           {| auth.preferred_username := Some "nike_admin"; auth.sub := None;
              auth.realm_access := Some (auth.RolesDict (Some ["tenant_admin"]));
              auth.role := None; auth.tenant := Some "adidas";
              auth.tenant_name := None |})
        (open_session shop)
      = (Ok (User.set_tenant_id (Some 2) nike_admin), w')
      ∧ users (committed w') !! 2 = Some (User.set_tenant_id (Some 2) nike_admin).
Proof. split; [by vm_compute|]. eexists. split; by vm_compute. Qed.

(** ** Tenant-user administration *)

Lemma mirror_role_run (kc : keycloak.Admin) (user : User.t) (new_role : string)
    (w : World) :
  admin.mirror_role kc user new_role w
  = if mirror_fails kc user new_role
    then (Raise (HTTPException 500),
          with_log (log w ++ [(ERROR, "Failed to update role in Keycloak")]) w)
    else (Ok tt,
          with_log (log w ++ if mirror_done kc user new_role
                             then [(INFO, "Updated role in Keycloak")] else []) w).
Proof.
  unfold admin.mirror_role, mirror_fails, mirror_done, with_log.
  destruct (String.eqb (User.role user) new_role); cbn [negb andb].
  { run. rewrite app_nil_r. by destruct w. }
  run.
  destruct (keycloak._get_user_id kc (User.username user)) as [kid|e]; [|done].
  destruct (truthy kid); cbn [andb].
  - by destruct (keycloak.update_user_role kc (default "" kid) (User.role user) new_role).
  - rewrite app_nil_r. by destruct w.
Qed.

Lemma update_tenant_user_run (kc : keycloak.Admin) (uid : Z)
    (data : schemas.UserCreate) (tenant : Tenant.t) (user : User.t) (w : World) :
  users (pending w) !! uid = Some user →
  User.tenant_id user = Some (Tenant.id tenant) →
  let u' := User.set_tenant_id (updated_tenant_id (schemas.role data) tenant user)
              (User.set_role (schemas.role data) user) in
  if mirror_fails kc user (schemas.role data) then
    admin.update_tenant_user kc uid data tenant w
    = (Raise (HTTPException 500),
       with_log (log w ++ [(ERROR, "Failed to update role in Keycloak")]) w)
  else
    ∃ l, admin.update_tenant_user kc uid data tenant w
         = (Ok u',
            {| committed := set_users (<[uid := u']> (users (pending w))) (pending w);
               pending := set_users (<[uid := u']> (users (pending w))) (pending w);
               log := l |}).
Proof.
  intros Hfound Hten. cbn zeta.
  destruct (mirror_fails kc user (schemas.role data)) eqn:Hm.
  all: unfold admin.update_tenant_user.
  all: unfold bind at 1; unfold query at 1; rewrite Hfound.
  all: rewrite bool_decide_true by done.
  all: unfold bind at 1; rewrite mirror_role_run, Hm.
  { done. }
  unfold updated_tenant_id.
  case_bool_decide.
  - run. eexists. reflexivity.
  - destruct (String.eqb (schemas.role data) "tenant_admin").
    + run. eexists. reflexivity.
    + run. eexists. reflexivity.
Qed.

Lemma assign_user_to_tenant_run (kc : keycloak.Admin) (data : schemas.UserCreate)
    (tenant : Tenant.t) (user : User.t) (w : World) :
  first_where (λ u, String.eqb (User.username u) (schemas.username data))
    (users (pending w)) = Some user →
  let u' := User.set_tenant_id (assigned_tenant_id (schemas.role data) tenant)
              (User.set_role (schemas.role data) user) in
  if mirror_fails kc user (schemas.role data) then
    admin.assign_user_to_tenant kc data tenant w
    = (Raise (HTTPException 500),
       with_log (log w ++ [(ERROR, "Failed to update role in Keycloak")]) w)
  else
    ∃ l, admin.assign_user_to_tenant kc data tenant w
         = (Ok u',
            {| committed := set_users (<[User.id user := u']> (users (pending w)))
                              (pending w);
               pending := set_users (<[User.id user := u']> (users (pending w)))
                            (pending w);
               log := l |}).
Proof.
  intros Hfound. cbn zeta.
  destruct (mirror_fails kc user (schemas.role data)) eqn:Hm.
  all: unfold admin.assign_user_to_tenant.
  all: unfold bind at 1; unfold crud.get_user_by_username, query at 1; rewrite Hfound.
  all: unfold bind at 1; rewrite mirror_role_run, Hm.
  { done. }
  unfold assigned_tenant_id, crud.save_user.
  destruct (String.eqb (schemas.role data) "tenant_admin"); run; eexists; reflexivity.
Qed.


Example mirror_failure_on_sample :
  admin.update_tenant_user kc_down 2 demote_nike_admin nike (open_session shop)
  = (Raise (HTTPException 500),
     {| committed := shop; pending := shop;
        log := [(ERROR, "Failed to update role in Keycloak")] |})
  ∧ users shop !! 2 = Some nike_admin
  ∧ ∃ u w',
      admin.update_tenant_user kc_up 2 demote_nike_admin nike (open_session shop)
      = (Ok u, w')
      ∧ users (committed w') !! 2 = Some u
      ∧ User.role u = "user" ∧ User.tenant_id u = None.
Proof.
  split; [by vm_compute|]. split; [by vm_compute|].
  eexists _, _. split; [by vm_compute|]. by vm_compute.
Qed.



(** The assignment of John Doe as admin of Nike: refused with the provider
    down, the store untouched; committed with the provider up. *)
Example assignment_on_sample :
  admin.assign_user_to_tenant kc_down promote_john_doe nike (open_session shop)
  = (Raise (HTTPException 500),
     {| committed := shop; pending := shop;
        log := [(ERROR, "Failed to update role in Keycloak")] |})
  ∧ ∃ u w',
      admin.assign_user_to_tenant kc_up promote_john_doe nike (open_session shop)
      = (Ok u, w')
      ∧ users (committed w') !! 1 = Some u
      ∧ User.role u = "tenant_admin" ∧ User.tenant_id u = Some 1.
Proof.
  split; [by vm_compute|].
  eexists _, _. split; [by vm_compute|]. by vm_compute.
Qed.

(** ** The role-tenant invariant *)

(** C5, counterexample.  In the sample store every user satisfies the
    role-tenant invariant.  It is lost by each of: creating a tenant user with role [user] (the row gets the
    path tenant); deleting a tenant (its admin keeps the role and loses the
    tenant); resolving the identity of a known tenant admin whose token now
    says [user] (the role changes, the stored tenant stays). *)
Lemma role_tenant_invariant_broken :
  map_Forall (λ _ u, role_tenant_ok u) (users shop)
  ∧ (∃ u w',
       admin.create_tenant_user kc_up new_customer nike (open_session shop) = (Ok u, w')
       ∧ users (committed w') !! User.id u = Some u
       ∧ ¬ role_tenant_ok u)
  ∧ (∃ u w',
       crud.delete_tenant nike (open_session shop) = (Ok tt, w')
       ∧ users (committed w') !! 2 = Some u
       ∧ ¬ role_tenant_ok u)
  ∧ (∃ u w',
       dependencies.get_current_user (auth.Verified demoted_token) (open_session shop)
       = (Ok u, w')
       ∧ users (committed w') !! 2 = Some u
       ∧ ¬ role_tenant_ok u).
Proof.
  split; [apply (bool_decide_unpack _); by vm_compute|].
  split; [|split].
  - eexists _, _. split; [by vm_compute|]. split; [by vm_compute|].
    intros [_ H]. by specialize (H (or_introl eq_refl)).
  - eexists _, _. split; [by vm_compute|]. split; [by vm_compute|].
    intros [H _]. destruct (H eq_refl) as [? [=]].
  - eexists _, _. split; [by vm_compute|]. split; [by vm_compute|].
    intros [_ H]. by specialize (H (or_introl eq_refl)).
Qed.

Lemma updated_role_tenant_ok (role : string) (tenant : Tenant.t) (user : User.t) :
  role_tenant_ok
    (User.set_tenant_id (updated_tenant_id role tenant user) (User.set_role role user)).
Proof.
  unfold role_tenant_ok, updated_tenant_id. cbn.
  case_bool_decide as Hin.
  - split; [|done]. intros ->.
    apply elem_of_cons in Hin as [[=]|Hin].
    apply elem_of_cons in Hin as [[=]|Hin].
    by apply not_elem_of_nil in Hin.
  - destruct (String.eqb role "tenant_admin") eqn:Hta.
    + apply String.eqb_eq in Hta as ->. split; [by eexists|]. intros [[=]|[=]].
    + apply String.eqb_neq in Hta. split; [done|].
      intros [->| ->]; exfalso; apply Hin; repeat constructor.
Qed.

Lemma assigned_role_tenant_ok (role : string) (tenant : Tenant.t) (user : User.t) :
  role_tenant_ok
    (User.set_tenant_id (assigned_tenant_id role tenant) (User.set_role role user)).
Proof.
  unfold role_tenant_ok, assigned_tenant_id. cbn.
  destruct (String.eqb role "tenant_admin") eqn:Hta.
  - apply String.eqb_eq in Hta as ->. split; [by eexists|]. intros [[=]|[=]].
  - apply String.eqb_neq in Hta. done.
Qed.

(** C5 (as the code has it).  The role-tenant invariant is what the update and
    the assignment of a tenant user establish: the user they return and
    commit has a tenant exactly as its new role asks (the path tenant for
    [tenant_admin], none for [user] and [platform_admin]); and public signup
    creates a [user] without tenant.  The other operations that write users
    do something else: creating a tenant user stores the requested role
    together with the path tenant, whatever the role; deleting a tenant
    clears the tenant link of its users and leaves every other column, the
    role included, as it was. *)
Theorem role_tenant_established :
  (∀ kc uid data tenant w u w',
     admin.update_tenant_user kc uid data tenant w = (Ok u, w') →
     role_tenant_ok u ∧ users (committed w') !! uid = Some u
     ∧ (User.role u = "tenant_admin" → User.tenant_id u = Some (Tenant.id tenant)))
  ∧ (∀ kc data tenant w u w',
       admin.assign_user_to_tenant kc data tenant w = (Ok u, w') →
       role_tenant_ok u ∧ users (committed w') !! User.id u = Some u
       ∧ (User.role u = "tenant_admin" → User.tenant_id u = Some (Tenant.id tenant)))
  ∧ (∀ kc data w u w',
       users.signup kc data w = (Ok u, w') →
       role_tenant_ok u ∧ User.role u = "user" ∧ User.tenant_id u = None
       ∧ users (committed w') !! User.id u = Some u)
  ∧ (∀ kc data tenant w u w',
       admin.create_tenant_user kc data tenant w = (Ok u, w') →
       User.role u = schemas.role data
       ∧ User.tenant_id u = Some (Tenant.id tenant)
       ∧ users (committed w') !! User.id u = Some u)
  ∧ (∀ tenant w,
       ∃ w', crud.delete_tenant tenant w = (Ok tt, w')
             ∧ ∀ k, users (committed w') !! k
                    = (λ u, if bool_decide (User.tenant_id u = Some (Tenant.id tenant))
                            then User.set_tenant_id None u else u)
                        <$> users (pending w) !! k).
Proof.
  split; [|split; [|split; [|split]]].
  - intros kc uid data tenant w u w' Hrun.
    destruct (users (pending w) !! uid) as [user|] eqn:Hid.
    2:{ unfold admin.update_tenant_user in Hrun. unfold bind at 1 in Hrun.
        unfold query at 1 in Hrun. rewrite Hid in Hrun. by run. }
    destruct (decide (User.tenant_id user = Some (Tenant.id tenant))) as [Hten|Hten].
    2:{ unfold admin.update_tenant_user in Hrun. unfold bind at 1 in Hrun.
        unfold query at 1 in Hrun. rewrite Hid in Hrun.
        rewrite bool_decide_false in Hrun by done. by run. }
    pose proof (update_tenant_user_run kc uid data tenant user w Hid Hten) as Hupd.
    cbn zeta in Hupd. rewrite Hrun in Hupd.
    destruct (mirror_fails kc user (schemas.role data)); [done|].
    destruct Hupd as [l [= -> ->]]. split; [apply updated_role_tenant_ok|].
    split; [cbn; by rewrite lookup_insert_eq|].
    cbn. intros ->. reflexivity.
  - intros kc data tenant w u w' Hrun.
    destruct (first_where (λ u, String.eqb (User.username u) (schemas.username data))
                (users (pending w))) as [user|] eqn:Hname.
    2:{ unfold admin.assign_user_to_tenant in Hrun. unfold bind at 1 in Hrun.
        unfold crud.get_user_by_username, query at 1 in Hrun.
        rewrite Hname in Hrun. by run. }
    pose proof (assign_user_to_tenant_run kc data tenant user w Hname) as Hasg.
    cbn zeta in Hasg. rewrite Hrun in Hasg.
    destruct (mirror_fails kc user (schemas.role data)); [done|].
    destruct Hasg as [l [= -> ->]]. split; [apply assigned_role_tenant_ok|].
    split; [cbn; by rewrite lookup_insert_eq|].
    cbn. intros ->. reflexivity.
  - intros kc data w u w'. unfold users.signup.
    unfold bind at 1. unfold crud.get_user_by_username at 1, query at 1.
    destruct (first_where _ _); [by run|].
    unfold bind at 1. unfold try_except, call, bind at 1.
    destruct (keycloak.create_user kc _ _ _); [|by run].
    cbn [fst snd ret].
    destruct (create_user_run (schemas.signup_username data) "user" None w)
      as [[e ->]|[id ->]]; [done|].
    intros [= <- <-]. cbn. rewrite lookup_insert_eq.
    repeat split; done.
  - intros kc data tenant w u w'. unfold admin.create_tenant_user.
    unfold bind at 1. unfold crud.get_user_by_username at 1, query at 1.
    destruct (first_where _ _); [by run|].
    destruct (negb (truthy (schemas.password data))); [by run|].
    unfold bind at 1. unfold try_except, call, bind at 1.
    destruct (keycloak.create_user kc _ _ _) as [[|]|e]; [| |by run].
    + cbn [fst snd ret].
      destruct (create_user_run (schemas.username data) (schemas.role data)
                  (Some tenant) w) as [[e ->]|[id ->]]; [done|].
      intros [= <- <-]. cbn. by rewrite lookup_insert_eq.
    + unfold logger. cbn [fst snd].
      match goal with |- crud.create_user _ _ _ ?w1 = _ → _ =>
        destruct (create_user_run (schemas.username data) (schemas.role data)
                    (Some tenant) w1) as [[e ->]|[id ->]]; [done|] end.
      intros [= <- <-]. cbn. by rewrite lookup_insert_eq.
  - intros tenant w. unfold crud.delete_tenant. run. eexists. split; [done|].
    intros k. cbn. by rewrite lookup_fmap.
Qed.

(** ** Product creation *)

Lemma max_key_ge {A} (m : gmap Z A) (k : Z) (x : A) :
  m !! k = Some x → k ≤ max_key m.
Proof.
  unfold max_key. revert k x.
  apply (map_fold_weak_ind
           (λ acc (m : gmap Z A), ∀ k x, m !! k = Some x → k ≤ acc)).
  - intros k x. by rewrite lookup_empty.
  - intros i y m' r _ IH k x Hk.
    destruct (decide (i = k)) as [->|Hne].
    + lia.
    + rewrite lookup_insert_ne in Hk by done. specialize (IH _ _ Hk). lia.
Qed.

Lemma fresh_id_free {A} (m : gmap Z A) : m !! fresh_id m = None.
Proof.
  destruct (m !! fresh_id m) as [x|] eqn:Hk; [|done].
  apply max_key_ge in Hk. unfold fresh_id in Hk. lia.
Qed.

Lemma name_taken_spec (tenant_id : Z) (name : string) (d : DB) :
  crud.name_taken tenant_id name d = true ↔ check_finds tenant_id name d.
Proof.
  unfold crud.name_taken, check_finds, map_Exists.
  rewrite bool_decide_eq_true. done.
Qed.

(** *** The two case folds *)

Lemma str_lower_char_func_lower_char (c : ascii) :
  str_lower_char (func_lower_char c) = str_lower_char c.
Proof. by destruct c as [[] [] [] [] [] [] [] []]. Qed.

Lemma str_lower_func_lower (s : string) : str_lower (func_lower s) = str_lower s.
Proof.
  induction s as [|c s IH]; [done|].
  cbn [func_lower str_lower]. by rewrite str_lower_char_func_lower_char, IH.
Qed.

Lemma str_lower_char_idemp (c : ascii) :
  str_lower_char (str_lower_char c) = str_lower_char c.
Proof. by destruct c as [[] [] [] [] [] [] [] []]. Qed.

Lemma str_lower_idemp (s : string) : str_lower (str_lower s) = str_lower s.
Proof.
  induction s as [|c s IH]; [done|].
  cbn [str_lower]. by rewrite str_lower_char_idemp, IH.
Qed.

Lemma folds_agree_ascii (s : string) : is_ascii s = true → folds_agree s.
Proof.
  unfold folds_agree. induction s as [|c s IH]; [done|].
  cbn [is_ascii func_lower str_lower]. intros [Hc Hs]%andb_true_iff.
  rewrite IH by done. f_equal.
  by destruct c as [[] [] [] [] [] [] [] []].
Qed.

(** A name the database-side fold matches is the same name, letter case
    aside; the converse needs the stored name to be folded alike by both. *)
Lemma folds_match (stored name : string) :
  func_lower stored = str_lower name → str_lower stored = str_lower name.
Proof.
  intros H. by rewrite <- (str_lower_func_lower stored), H, str_lower_idemp.
Qed.

Lemma folds_match_plain (stored name : string) :
  folds_agree stored → str_lower stored = str_lower name →
  func_lower stored = str_lower name.
Proof. unfold folds_agree. by intros -> ->. Qed.

Lemma create_product_run (tenant : Tenant.t) (data : schemas.ProductCreate) (w : World) :
  crud.create_product tenant data w
  = if crud.name_taken (Tenant.id tenant) (schemas.name data) (pending w)
    then (Raise (ResourceAlreadyExistsError "Product"), w)
    else crud.save_product (fresh_id (products (pending w)))
           (new_product tenant data (pending w)) w.
Proof.
  unfold crud.create_product.
  unfold bind at 1. unfold query at 1.
  by destruct (crud.name_taken (Tenant.id tenant) (schemas.name data) (pending w)).
Qed.

(** C8.  What [create_product] does about names.  It raises
    [ResourceAlreadyExistsError], and leaves the session as it was, exactly
    when its duplicate check finds a product of the tenant; otherwise the
    product is written: committed under a key that was free, with the fields
    of the request and the tenant as owner, unless the database refuses the
    row.  The check compares the stored name folded by the database with the
    requested name folded by Python.  What it finds is always a product of
    the same name, letter case aside; and where the stored names have no
    capital letter outside ASCII it finds every such product, so that there
    the specification holds: the same name in any casing is refused within
    the tenant and accepted in another tenant.  On a store where Nike owns a
    product whose name has such a capital it does not: the same name in
    another casing is accepted, and the very same name is not answered with
    [ResourceAlreadyExistsError] but stopped by the unique constraint, an
    internal error of status 500. *)
Theorem create_product_duplicate_check :
  (∀ tenant data w,
     (check_finds (Tenant.id tenant) (schemas.name data) (pending w) →
        crud.create_product tenant data w
        = (Raise (ResourceAlreadyExistsError "Product"), w))
     ∧ (¬ check_finds (Tenant.id tenant) (schemas.name data) (pending w) →
        (crud.flush_product (fresh_id (products (pending w)))
           (new_product tenant data (pending w)) (pending w) = None →
           ∃ p w',
             crud.create_product tenant data w = (Ok p, w')
             ∧ Product.name p = schemas.name data
             ∧ Product.description p = schemas.description data
             ∧ Product.category p = schemas.category data
             ∧ Product.price p = sqlite_real (schemas.price data)
             ∧ Product.available_quantity p = schemas.available_quantity data
             ∧ Product.tenant_id p = Tenant.id tenant
             ∧ products (pending w) !! Product.id p = None
             ∧ products (committed w') = <[Product.id p := p]> (products (pending w))
             ∧ pending w' = committed w')
        ∧ (∀ e, crud.flush_product (fresh_id (products (pending w)))
                  (new_product tenant data (pending w)) (pending w) = Some e →
                crud.create_product tenant data w = (Raise e, rolled_back w)
                ∧ response_status e = 500))
     ∧ (∀ w', crud.create_product tenant data w
              = (Raise (ResourceAlreadyExistsError "Product"), w') →
              w' = w
              ∧ response_status (ResourceAlreadyExistsError "Product") = 400
              ∧ check_finds (Tenant.id tenant) (schemas.name data) (pending w)))
  ∧ (∀ tenant_id name d,
       check_finds tenant_id name d → owns_named tenant_id name d)
  ∧ (∀ tenant_id name d,
       product_names_plain d →
       owns_named tenant_id name d → check_finds tenant_id name d)
  ∧ (∀ tenant_id name d,
       (∀ k p, products d !! k = Some p → Product.tenant_id p ≠ tenant_id) →
       ¬ check_finds tenant_id name d)
  ∧ (owns_named 1 (accented "a") accent_shop
     ∧ ∃ p w',
         crud.create_product nike (product_named (accented "a"))
           (open_session accent_shop) = (Ok p, w')
         ∧ products (committed w') !! 4 = Some p
         ∧ Product.name p = accented "a"
         ∧ Product.name <$> products (committed w') !! 3 = Some (accented "A")
         ∧ str_lower (accented "a") = str_lower (accented "A"))
  ∧ (owns_named 1 (accented "A") accent_shop
     ∧ crud.create_product nike (product_named (accented "A"))
         (open_session accent_shop)
       = (Raise IntegrityError, open_session accent_shop)
     ∧ response_status IntegrityError = 500).
Proof.
  split; [|split; [|split; [|split; [|split]]]].
  - intros tenant data w.
    pose proof (name_taken_spec (Tenant.id tenant) (schemas.name data) (pending w))
      as Hspec.
    rewrite create_product_run, save_product_run.
    destruct (crud.name_taken (Tenant.id tenant) (schemas.name data) (pending w)).
    + split; [done|]. split; [intros Hno; exfalso; by apply Hno, Hspec|].
      intros w' [= <-]. split; [done|]. split; [done|]. by apply Hspec.
    + assert (¬ check_finds (Tenant.id tenant) (schemas.name data) (pending w))
        as Hno by (intros H; by apply Hspec in H).
      split; [done|]. split.
      * intros _. split.
        -- intros ->. eexists _, _. split; [done|]. cbn.
           repeat split; try done. apply fresh_id_free.
        -- intros e He. rewrite He. split; [done|].
           by destruct (flush_product_refusal _ _ _ _ He) as [-> | ->].
      * intros w'.
        destruct (crud.flush_product _ _ _) as [e|] eqn:He; [|done].
        destruct (flush_product_refusal _ _ _ _ He) as [-> | ->]; done.
  - intros tenant_id name d (k & p & Hk & Ht & Hn).
    exists k, p. split; [done|]. split; [done|]. by apply folds_match.
  - intros tenant_id name d Hplain (k & p & Hk & Ht & Hn).
    exists k, p. split; [done|]. split; [done|].
    apply folds_match_plain; [|done]. exact (Hplain k p Hk).
  - intros tenant_id name d Hother (k & p & Hk & Ht & _). by apply (Hother k p Hk).
  - split.
    + exists 3. eexists. split; [by vm_compute|]. split; by vm_compute.
    + eexists _, _. split; [by vm_compute|]. by vm_compute.
  - split.
    + exists 3. eexists. split; [by vm_compute|]. split; by vm_compute.
    + split; by vm_compute.
Qed.

(** ["AIR MAX"] collides with Nike's ["Air Max"] and not with anything of
    Adidas. *)
Example same_name_two_tenants :
  crud.create_product nike air_max_again (open_session shop)
  = (Raise (ResourceAlreadyExistsError "Product"), open_session shop)
  ∧ ∃ p w',
      crud.create_product adidas air_max_again (open_session shop) = (Ok p, w')
      ∧ Product.id p = 3
      ∧ products (committed w') !! 3 = Some p
      ∧ products (committed w') !! 1 = Some air_max.
Proof.
  split; [by vm_compute|]. eexists _, _. split; [by vm_compute|]. by vm_compute.
Qed.

(** The store with the accented name is one the application reaches: it is
    what creating that product for Nike commits on the sample store. *)
Example accented_product_created :
  ∃ p w',
    crud.create_product nike
      {| schemas.name := accented "A"; schemas.description := None;
         schemas.category := None; schemas.price := 10.0%float;
         schemas.available_quantity := 1 |}
      (open_session shop) = (Ok p, w')
    ∧ committed w' = accent_shop
    ∧ pending w' = accent_shop.
Proof. eexists _, _. split; [by vm_compute|]. split; by vm_compute. Qed.

(** A quantity that no [Integer] column can hold passes the schema, which
    only asks for [ge=0], and ends the request in an internal error. *)
Example quantity_beyond_64_bits :
  crud.create_product adidas
    {| schemas.name := "Gazelle"; schemas.description := None;
       schemas.category := None; schemas.price := 99.0%float;
       schemas.available_quantity := 2 ^ 63 |}
    (open_session shop)
  = (Raise OverflowError, open_session shop).
Proof. by vm_compute. Qed.

(** ** Tenant-scoped product paths *)

Lemma get_current_user_products (credentials : auth.Credentials) (w w' : World)
    (r : Result User.t) :
  dependencies.get_current_user credentials w = (r, w') →
  products (pending w') = products (pending w).
Proof.
  destruct credentials as [| |claims]; try (run; by intros [= _ <-]).
  destruct (truthy (py_or (auth.preferred_username claims) (auth.sub claims)))
    eqn:Ht.
  2:{ unfold dependencies.get_current_user. rewrite Ht. run. by intros [= _ <-]. }
  pose proof (truthy_username _ Ht) as Hname.
  destruct (first_where
              (λ u, String.eqb (User.username u)
                      (default "" (py_or (auth.preferred_username claims)
                                         (auth.sub claims))))
              (users (pending w))) as [user|] eqn:Hfound.
  - rewrite (get_current_user_known_eq _ _ _ _ Hname Hfound).
    destruct (_ || _); by intros [= _ <-].
  - unfold dependencies.get_current_user. rewrite Ht. cbn [negb].
    unfold bind at 1. rewrite token_tenant_run.
    unfold bind at 1. unfold crud.get_user_by_username, query at 1. rewrite Hfound.
    destruct (create_user_run
                (default "" (py_or (auth.preferred_username claims) (auth.sub claims)))
                (dependencies.token_role claims)
                (resolved_tenant claims (pending w)) w) as [[e ->]|[id ->]];
      by intros [= _ <-].
Qed.

Lemma require_tenant_admin_world (tenant : Tenant.t) (user : User.t) (w w' : World)
    (r : Result User.t) :
  dependencies.require_tenant_admin tenant user w = (r, w') → w' = w.
Proof.
  destruct (require_tenant_admin_spec tenant user w) as [[_ ->]|[_ ->]];
    by intros [= _ <-].
Qed.

(** C10. A product that exists but belongs to another tenant than the one in
    the path is answered like a product that does not exist: the handlers of
    [GET /{tenant}/products/{id}] and [DELETE /{tenant}/products/{id}] raise
    [ResourceNotFoundError] (status 404) and change nothing, which is what
    they do for an id without product.  Through the whole endpoint, [GET]
    gives that 404 to anyone; [DELETE] never succeeds for any caller and
    leaves the product in place. *)
Theorem foreign_product_hidden (tenant : Tenant.t) (pid : Z) (p : Product.t)
    (user : User.t) (w : World) :
  products (pending w) !! pid = Some p →
  Product.tenant_id p ≠ Tenant.id tenant →
  products.get_product pid tenant w = (Raise (ResourceNotFoundError "Product"), w)
  ∧ products.delete_product pid user tenant w
    = (Raise (ResourceNotFoundError "Product"), w)
  ∧ response_status (ResourceNotFoundError "Product") = 404
  ∧ (∀ w0, products (pending w0) !! pid = None →
           products.get_product pid tenant w0
           = (Raise (ResourceNotFoundError "Product"), w0)
           ∧ products.delete_product pid user tenant w0
             = (Raise (ResourceNotFoundError "Product"), w0))
  ∧ (∀ tenant_name,
       crud.get_tenant_by_name tenant_name w = (Ok (Some tenant), w) →
       endpoint.get_product tenant_name pid w
       = (Raise (ResourceNotFoundError "Product"), w)
       ∧ ∀ credentials r w',
           endpoint.delete_product tenant_name pid credentials w = (r, w') →
           (∃ e, r = Raise e) ∧ products (pending w') !! pid = Some p).
Proof.
  intros Hp Hforeign.
  assert (∀ w1, products (pending w1) !! pid = Some p →
                ∀ u, products.delete_product pid u tenant w1
                     = (Raise (ResourceNotFoundError "Product"), w1)) as Hdel.
  { intros w1 Hp1 u. unfold products.delete_product, crud.get_product. run.
    rewrite Hp1. unfold products.in_tenant.
    apply Z.eqb_neq in Hforeign. by rewrite Hforeign. }
  assert (products.get_product pid tenant w
          = (Raise (ResourceNotFoundError "Product"), w)) as Hget.
  { unfold products.get_product, crud.get_product. run.
    rewrite Hp. unfold products.in_tenant.
    apply Z.eqb_neq in Hforeign. by rewrite Hforeign. }
  split; [done|]. split; [by apply Hdel|]. split; [done|]. split.
  { intros w0 Hnone. unfold products.get_product, products.delete_product,
      crud.get_product. run. by rewrite Hnone. }
  intros tenant_name Hpath. split.
  { unfold endpoint.get_product, dependencies.get_tenant_by_path.
    unfold bind at 1. unfold bind at 1. rewrite Hpath. exact Hget. }
  intros credentials r w'.
  unfold endpoint.delete_product, endpoint.tenant_admin_scoped,
    dependencies.get_tenant_by_path.
  unfold bind at 1. unfold bind at 1. rewrite Hpath. unfold ret at 1.
  unfold bind at 1.
  destruct (dependencies.get_current_user credentials w) as [[u|e] w1] eqn:Hu.
  2:{ intros [= <- <-]. split; [by eexists|].
      by rewrite (get_current_user_products _ _ _ _ Hu). }
  apply get_current_user_products in Hu.
  unfold bind at 1.
  destruct (dependencies.require_tenant_admin tenant u w1) as [[u'|e] w2] eqn:Hg;
    pose proof (require_tenant_admin_world _ _ _ _ _ Hg) as ->.
  2:{ intros [= <- <-]. split; [by eexists|]. by rewrite Hu. }
  rewrite Hdel by (by rewrite Hu).
  intros [= <- <-]. split; [by eexists|]. by rewrite Hu.
Qed.

Lemma foreign_product_hidden_witness :
  products.get_product 2 nike (open_session shop)
  = (Raise (ResourceNotFoundError "Product"), open_session shop)
  ∧ products.delete_product 2 platform_admin nike (open_session shop)
    = (Raise (ResourceNotFoundError "Product"), open_session shop)
  ∧ response_status (ResourceNotFoundError "Product") = 404
  ∧ (∀ w0, products (pending w0) !! 2 = None →
           products.get_product 2 nike w0
           = (Raise (ResourceNotFoundError "Product"), w0)
           ∧ products.delete_product 2 platform_admin nike w0
             = (Raise (ResourceNotFoundError "Product"), w0))
  ∧ (∀ tenant_name,
       crud.get_tenant_by_name tenant_name (open_session shop)
       = (Ok (Some nike), open_session shop) →
       endpoint.get_product tenant_name 2 (open_session shop)
       = (Raise (ResourceNotFoundError "Product"), open_session shop)
       ∧ ∀ credentials r w',
           endpoint.delete_product tenant_name 2 credentials (open_session shop)
           = (r, w') →
           (∃ e, r = Raise e) ∧ products (pending w') !! 2 = Some superstar).
Proof.
  apply (foreign_product_hidden nike 2 superstar platform_admin (open_session shop)).
  - reflexivity.
  - vm_compute. discriminate.
Defined.

(** The platform admin deleting an Adidas product through Nike's path gets
    the 404 of the handler; an ordinary user is stopped by the guard. *)
Example delete_through_wrong_path :
  endpoint.delete_product "nike" 2
    (auth.Verified
       {| auth.preferred_username := Some "platform_admin"; auth.sub := None;
          auth.realm_access := Some (auth.RolesDict (Some ["platform_admin"]));
          auth.role := None; auth.tenant := None; auth.tenant_name := None |})
    (open_session shop)
  = (Raise (ResourceNotFoundError "Product"), open_session shop)
  ∧ endpoint.delete_product "nike" 2
      (auth.Verified
         {| auth.preferred_username := Some "john_doe"; auth.sub := None;
            auth.realm_access := Some (auth.RolesDict (Some ["user"]));
            auth.role := None; auth.tenant := None; auth.tenant_name := None |})
      (open_session shop)
    = (Raise PermissionDeniedError, open_session shop).
Proof. split; by vm_compute. Qed.

(** ** Pagination parameters *)



(** C9 at [limit=1000] and [skip=-1].  The product listings and the favourites
    listing take any [skip] and [limit]: the parameters are accepted as they
    come and handed to the query, so that [limit=1000] returns 101 rows of a
    store that has them, more than the maximum of 100; the tenants listing
    reads neither parameter.  The orders listing, given the same values,
    refuses the request. *)
Theorem pagination_unbounded :
  (∀ raw_skip raw_limit category search w,
     dependencies.product_filter_params raw_skip raw_limit category search w
     = (Ok {| dependencies.skip := default 0 raw_skip;
              dependencies.limit := default 10 raw_limit;
              dependencies.category := category;
              dependencies.search := search |}, w))
  ∧ (∀ raw_skip raw_limit user w,
       users.list_favourites raw_skip raw_limit user w
       = crud.list_favourites user (default 0 raw_skip) (default 10 raw_limit) w)
  ∧ (∀ raw_skip raw_limit w,
       tenant.list_tenants_endpoint raw_skip raw_limit w
       = crud.list_tenants 0 10 w)
  ∧ (∃ l, users.list_favourites (Some 0) (Some 1000) john_doe (open_session big_shop)
          = (Ok l, open_session big_shop)
          ∧ length l = 101%nat)
  ∧ (∃ filters l,
       dependencies.product_filter_params (Some (-1)) (Some 1000) None None
         (open_session big_shop) = (Ok filters, open_session big_shop)
       ∧ products.list_all_products filters (open_session big_shop)
         = (Ok l, open_session big_shop)
       ∧ length l = 101%nat)
  ∧ orders.list_orders (Some (-1)) (Some 1000) john_doe (open_session big_shop)
    = (Raise RequestValidationError, open_session big_shop).
Proof.
  split; [|split; [|split; [|split; [|split]]]].
  - intros [s|] [l|] category search w; by run.
  - intros [s|] [l|] user w; by run.
  - done.
  - eexists. split; by vm_compute.
  - eexists _, _. split; [by vm_compute|]. split; by vm_compute.
  - by vm_compute.
Qed.

(** * Further properties of the code *)

(** ** Tenants *)

Lemma first_where_is_Some {A} (P : A → bool) (m : gmap Z A) (k : Z) (x : A) :
  m !! k = Some x → P x = true → is_Some (first_where P m).
Proof.
  intros Hk HP. destruct (first_where P m) as [y|] eqn:Hf; [by eexists|].
  pose proof (first_where_None _ _ Hf _ _ Hk). congruence.
Qed.

Lemma get_tenant_by_name_spec (name : string) (d : DB) :
  match first_where (λ t, String.eqb (func_lower (Tenant.name t)) (str_lower name))
          (tenants d) with
  | Some t => (∃ k, tenants d !! k = Some t) ∧ func_lower (Tenant.name t) = str_lower name
  | None => ¬ tenant_named name d
  end.
Proof.
  destruct (first_where _ _) as [t|] eqn:Hf.
  - apply first_where_Some in Hf as [Hm Hk]. split; [done|]. by apply String.eqb_eq.
  - intros (k & t & Hk & Hn).
    pose proof (first_where_None _ _ Hf _ _ Hk) as Hno. cbn in Hno.
    apply String.eqb_neq in Hno. done.
Qed.

Lemma create_tenant_taken (name : string) (w : World) :
  tenant_named name (pending w) →
  crud.create_tenant name w = (Raise (ResourceAlreadyExistsError "Tenant"), w)
  ∧ tenant.create_tenant_endpoint name w
    = (Raise (ResourceAlreadyExistsError "Tenant"), w).
Proof.
  intros Htaken.
  pose proof (get_tenant_by_name_spec name (pending w)) as Hspec.
  unfold tenant.create_tenant_endpoint, crud.create_tenant, crud.get_tenant_by_name.
  run. by destruct (first_where _ _).
Qed.

Lemma create_tenant_free (name : string) (w : World) :
  ¬ tenant_named name (pending w) →
  crud.create_tenant name w
  = (if crud.tenant_name_stored name (pending w)
     then (Raise IntegrityError, rolled_back w)
     else (Ok {| Tenant.id := fresh_id (tenants (pending w)); Tenant.name := name |},
           tenant_added
             {| Tenant.id := fresh_id (tenants (pending w)); Tenant.name := name |} w))
  ∧ tenant.create_tenant_endpoint name w = crud.create_tenant name w.
Proof.
  intros Hfree.
  pose proof (get_tenant_by_name_spec name (pending w)) as Hspec.
  unfold tenant.create_tenant_endpoint, crud.create_tenant, crud.get_tenant_by_name.
  run. destruct (first_where _ _) as [t0|] eqn:Hf.
  - destruct Hspec as [[k Hk] Hn]. exfalso. apply Hfree. by exists k, t0.
  - rewrite Hf. by destruct (crud.tenant_name_stored name (pending w)).
Qed.

Lemma tenant_named_fold (name name' : string) (d : DB) :
  str_lower name' = str_lower name → tenant_named name' d ↔ tenant_named name d.
Proof. unfold tenant_named, map_Exists. by intros ->. Qed.

(** X1. [create_tenant] raises [ResourceAlreadyExistsError] exactly when its
    lookup finds a tenant, one whose name folded by the database is the new
    name folded by Python, and then changes nothing.  What the lookup finds
    is a tenant of the same name, letter case aside; where the stored names
    have no capital letter outside ASCII it finds every such tenant.  A name
    it does not find and that is already stored, letter for letter, which
    takes a name with such a capital, is stopped by the unique index:
    [IntegrityError] and the session rolled back.  Any other name is
    committed under a key that was free, which keeps tenant rows under their
    own id and, for names without such capitals, keeps tenant names unique,
    letter case aside.  The endpoint's own check before the call changes
    nothing of this. *)
Theorem create_tenant_unique (name : string) (w : World) :
  (tenant_named name (pending w) →
     crud.create_tenant name w = (Raise (ResourceAlreadyExistsError "Tenant"), w))
  ∧ (∀ k t, tenants (pending w) !! k = Some t →
            func_lower (Tenant.name t) = str_lower name →
            str_lower (Tenant.name t) = str_lower name)
  ∧ (tenant_names_plain (pending w) →
     (∃ k t, tenants (pending w) !! k = Some t
             ∧ str_lower (Tenant.name t) = str_lower name) →
     tenant_named name (pending w))
  ∧ (¬ tenant_named name (pending w) →
     crud.tenant_name_stored name (pending w) = true →
     crud.create_tenant name w = (Raise IntegrityError, rolled_back w)
     ∧ ¬ folds_agree name)
  ∧ (¬ tenant_named name (pending w) →
     crud.tenant_name_stored name (pending w) = false →
     ∃ t w',
       crud.create_tenant name w = (Ok t, w')
       ∧ Tenant.name t = name
       ∧ tenants (pending w) !! Tenant.id t = None
       ∧ tenants (committed w') = <[Tenant.id t := t]> (tenants (pending w))
       ∧ pending w' = committed w'
       ∧ (tenant_keys_ok (pending w) → tenant_keys_ok (pending w'))
       ∧ (folds_agree name → tenant_names_plain (pending w) →
          tenant_names_unique (pending w) →
          tenant_names_plain (pending w') ∧ tenant_names_unique (pending w')))
  ∧ tenant.create_tenant_endpoint name w = crud.create_tenant name w.
Proof.
  assert (∀ k t, tenants (pending w) !! k = Some t → Tenant.name t = name →
                 ¬ tenant_named name (pending w) → ¬ folds_agree name) as Hclash.
  { intros k t Hk Hn Hfree Hagree. apply Hfree. exists k, t. split; [done|].
    by rewrite Hn. }
  split; [by intros [? _]%create_tenant_taken|].
  split; [intros k t _; apply folds_match|].
  split.
  { intros Hplain (k & t & Hk & Hn). exists k, t. split; [done|].
    apply folds_match_plain; [|done]. exact (Hplain k t Hk). }
  split.
  { intros Hfree Hstored. destruct (create_tenant_free name w Hfree) as [-> _].
    rewrite Hstored. split; [done|].
    apply bool_decide_eq_true in Hstored as (k & t & Hk & Hn). by eapply Hclash. }
  split.
  - intros Hfree Hstored. destruct (create_tenant_free name w Hfree) as [Hrun _].
    rewrite Hstored in Hrun.
    eexists _, _. split; [exact Hrun|]. cbn.
    pose proof (fresh_id_free (tenants (pending w))) as Hnone.
    repeat split; try done.
    + intros Hkeys. unfold tenant_keys_ok. cbn. by apply map_Forall_insert_2.
    + unfold tenant_names_plain. cbn. by apply map_Forall_insert_2.
    + intros k1 t1 Hk1 k2 t2 Hk2 Heq. cbn in Hk1, Hk2.
      apply lookup_insert_Some in Hk1 as [[<- <-]|[Hne1 Hk1]];
        apply lookup_insert_Some in Hk2 as [[<- <-]|[Hne2 Hk2]]; try done.
      * exfalso. apply Hfree. exists k2, t2. split; [done|]. cbn in Heq.
        apply folds_match_plain; [|done]. by apply (H0 k2 t2).
      * exfalso. apply Hfree. exists k1, t1. split; [done|]. cbn in Heq.
        apply folds_match_plain; [|done]. by apply (H0 k1 t1).
      * by apply (H1 k1 t1 Hk1 k2 t2 Hk2).
  - destruct (decide (tenant_named name (pending w))) as [Ht|Hf].
    + destruct (create_tenant_taken name w Ht) as [-> ->]. done.
    + by destruct (create_tenant_free name w Hf) as [_ ->].
Qed.

(** X2. A tenant that has just been created is looked up under its name in
    another letter case.  When the name has no capital letter outside ASCII,
    [get_tenant_by_path] returns that very tenant.  When it has one, the
    tenant is not found, under its own name either: status 404.  Before the
    creation the name is answered with status 404. *)
Theorem tenant_found_after_create (name name' : string) (w : World) :
  ¬ tenant_named name (pending w) →
  crud.tenant_name_stored name (pending w) = false →
  str_lower name' = str_lower name →
  (∃ t w', crud.create_tenant name w = (Ok t, w')
           ∧ (folds_agree name →
              dependencies.get_tenant_by_path name' w' = (Ok t, w'))
           ∧ (¬ folds_agree name →
              dependencies.get_tenant_by_path name' w'
              = (Raise (HTTPException 404), w')
              ∧ dependencies.get_tenant_by_path name w'
                = (Raise (HTTPException 404), w')))
  ∧ dependencies.get_tenant_by_path name' w = (Raise (HTTPException 404), w).
Proof.
  intros Hfree Hstored Hcase.
  destruct (create_tenant_free name w Hfree) as [Hrun _]. rewrite Hstored in Hrun.
  assert (∀ n w0, ¬ tenant_named n (pending w0) →
                  dependencies.get_tenant_by_path n w0
                  = (Raise (HTTPException 404), w0)) as Hmiss.
  { intros n w0 Hno.
    unfold dependencies.get_tenant_by_path, crud.get_tenant_by_name. run.
    pose proof (get_tenant_by_name_spec n (pending w0)) as Hspec.
    destruct (first_where _ _) as [x|]; [|done].
    destruct Hspec as [[k Hk] Hn]. exfalso. apply Hno. by exists k, x. }
  set (t := {| Tenant.id := fresh_id (tenants (pending w)); Tenant.name := name |})
    in *.
  assert (∀ n, str_lower n = str_lower name → ¬ folds_agree name →
               ¬ tenant_named n (pending (tenant_added t w))) as Hhidden.
  { intros n Hn Hno (k & x & Hk & Hx). cbn in Hk.
    apply lookup_insert_Some in Hk as [[_ <-]|[_ Hk]].
    - apply Hno. unfold folds_agree. cbn in Hx. by rewrite Hx.
    - apply Hfree. exists k, x. split; [done|]. by rewrite Hx. }
  split.
  - exists t, (tenant_added t w). split; [exact Hrun|]. split.
    + intros Hagree.
      unfold dependencies.get_tenant_by_path, crud.get_tenant_by_name. run.
      pose proof (get_tenant_by_name_spec name' (pending (tenant_added t w)))
        as Hspec.
      unfold tenant_named, map_Exists in Hspec. cbn in Hspec |- *.
      destruct (first_where _ _) as [x|] eqn:Hf.
      * destruct Hspec as [[k Hk] Hn].
        apply lookup_insert_Some in Hk as [[_ ->]|[_ Hk]]; [done|].
        exfalso. apply Hfree. exists k, x. split; [done|]. by rewrite Hn.
      * exfalso. apply Hspec. exists (fresh_id (tenants (pending w))), t.
        rewrite lookup_insert_eq. split; [done|]. cbn. by rewrite Hagree.
    + intros Hno. split; apply Hmiss; by apply Hhidden.
  - apply Hmiss. by rewrite (tenant_named_fold name name').
Qed.

Lemma tenant_found_after_create_witness :
  (∃ t w', crud.create_tenant "Puma" (open_session shop) = (Ok t, w')
           ∧ (folds_agree "Puma" →
              dependencies.get_tenant_by_path "PUMA" w' = (Ok t, w'))
           ∧ (¬ folds_agree "Puma" →
              dependencies.get_tenant_by_path "PUMA" w'
              = (Raise (HTTPException 404), w')
              ∧ dependencies.get_tenant_by_path "Puma" w'
                = (Raise (HTTPException 404), w')))
  ∧ dependencies.get_tenant_by_path "PUMA" (open_session shop)
    = (Raise (HTTPException 404), open_session shop).
Proof.
  apply (tenant_found_after_create "Puma" "PUMA" (open_session shop)).
  - unfold tenant_named. apply (bool_decide_unpack _). vm_compute. exact I.
  - vm_compute. reflexivity.
  - reflexivity.
Defined.

(** A tenant whose name begins with a capital E with acute accent: once
    created it is not found under its name, and creating it again is stopped
    by the unique index instead of being answered with
    [ResourceAlreadyExistsError]. *)
Example accented_tenant_lost :
  ∃ t w',
    crud.create_tenant (accented "tam") (open_session shop) = (Ok t, w')
    ∧ tenants (committed w') !! 3 = Some t
    ∧ dependencies.get_tenant_by_path (accented "tam") w'
      = (Raise (HTTPException 404), w')
    ∧ crud.create_tenant (accented "tam") w' = (Raise IntegrityError, w').
Proof. eexists _, _. split; [by vm_compute|]. split; [|split]; by vm_compute. Qed.

Lemma drop_products_references (gone : Z → bool) (d : DB) :
  references_ok d → references_ok (crud.drop_products gone d).
Proof.
  intros [Hitems Hfavs]. split; cbn.
  - apply Forall_forall. intros oi [Hkeep Hin]%list_elem_of_filter.
    rewrite Forall_forall in Hitems. destruct (Hitems _ Hin) as [p Hp].
    exists p. by apply map_lookup_filter_Some_2.
  - apply Forall_forall. intros uf [Hkeep Hin]%list_elem_of_filter.
    rewrite Forall_forall in Hfavs. destruct (Hfavs _ Hin) as [p Hp].
    exists p. by apply map_lookup_filter_Some_2.
Qed.

(** X3. [delete_tenant] always goes through and commits: the tenant row is
    gone; so is every product it owned, with the order items and favourites
    that pointed at one of them; products of other tenants, the other order
    items and favourites, and all orders stay.  Every user row stays, with its
    id, username and role: the users of the tenant lose their tenant link,
    the others keep theirs; no user row appears.  No order item or favourite
    is left pointing at a product that is gone. *)
Theorem delete_tenant_cascade (tenant : Tenant.t) (w : World) :
  ∃ w',
    crud.delete_tenant tenant w = (Ok tt, w')
    ∧ pending w' = committed w'
    ∧ tenants (committed w') = delete (Tenant.id tenant) (tenants (pending w))
    ∧ (∀ pid, products (committed w') !! pid
              = if owned_by (Tenant.id tenant) (pending w) pid then None
                else products (pending w) !! pid)
    ∧ order_items (committed w')
      = filter (λ oi, owned_by (Tenant.id tenant) (pending w)
                        (OrderItem.product_id oi) = false)
               (order_items (pending w))
    ∧ user_favourites (committed w')
      = filter (λ uf, owned_by (Tenant.id tenant) (pending w) uf.2 = false)
               (user_favourites (pending w))
    ∧ orders (committed w') = orders (pending w)
    ∧ (∀ k u, users (pending w) !! k = Some u →
              ∃ u', users (committed w') !! k = Some u'
                    ∧ User.id u' = User.id u
                    ∧ User.username u' = User.username u
                    ∧ User.role u' = User.role u
                    ∧ User.tenant_id u'
                      = if bool_decide (User.tenant_id u = Some (Tenant.id tenant))
                        then None else User.tenant_id u)
    ∧ (∀ k, users (pending w) !! k = None → users (committed w') !! k = None)
    ∧ (references_ok (pending w) → references_ok (committed w')).
Proof.
  unfold crud.delete_tenant. run. eexists. split; [done|]. cbn.
  split; [done|]. split; [done|]. split.
  { intros pid. unfold owned_by.
    destruct (products (pending w) !! pid) as [p|] eqn:Hp.
    - case_bool_decide as Hown.
      + apply map_lookup_filter_None_2. right. intros p' Hp'. cbn.
        rewrite Hp. rewrite bool_decide_true by done. done.
      + apply map_lookup_filter_Some_2; [done|]. cbn. rewrite Hp.
        by rewrite bool_decide_false.
    - apply map_lookup_filter_None_2. by left. }
  split; [done|]. split; [done|]. split; [done|].
  split.
  { intros k u Hk. rewrite lookup_fmap, Hk. cbn. eexists. split; [done|].
    by case_bool_decide. }
  split; [intros k Hk; by rewrite lookup_fmap, Hk|].
  intros Href.
  apply (drop_products_references
           (λ pid, match products (pending w) !! pid with
                   | Some p => bool_decide (Product.tenant_id p = Tenant.id tenant)
                   | None => false
                   end)
           (set_users
              ((λ u, if bool_decide (User.tenant_id u = Some (Tenant.id tenant))
                     then User.set_tenant_id None u else u) <$> users (pending w))
              (pending w))).
  exact Href.
Qed.

(** X4. [delete_product] on a product the caller may mutate commits the
    removal of the product together with its order items and the favourites
    that point at it, and of nothing else: other products, the other order
    items and favourites, orders, users and tenants stay, and no order item
    or favourite is left pointing at a product that is gone.  On a missing id
    it raises [ResourceNotFoundError] and changes nothing. *)
Theorem delete_product_cascade (pid : Z) (user : User.t) (p : Product.t) (w : World) :
  products (pending w) !! pid = Some p →
  crud.may_mutate user p = true →
  (∃ w',
     crud.delete_product pid user w = (Ok tt, w')
     ∧ pending w' = committed w'
     ∧ products (committed w') = delete pid (products (pending w))
     ∧ order_items (committed w')
       = filter (λ oi, OrderItem.product_id oi ≠ pid) (order_items (pending w))
     ∧ user_favourites (committed w')
       = filter (λ uf, uf.2 ≠ pid) (user_favourites (pending w))
     ∧ orders (committed w') = orders (pending w)
     ∧ users (committed w') = users (pending w)
     ∧ tenants (committed w') = tenants (pending w)
     ∧ crud.get_product pid w' = (Ok None, w')
     ∧ (references_ok (pending w) → references_ok (committed w')))
  ∧ (∀ w0, products (pending w0) !! pid = None →
           crud.delete_product pid user w0
           = (Raise (ResourceNotFoundError "Product"), w0)).
Proof.
  intros Hp Hmay. split.
  2:{ intros w0 Hnone. unfold crud.delete_product, crud.get_product. run.
      by rewrite Hnone. }
  unfold crud.delete_product, crud.get_product. run. rewrite Hp, Hmay.
  eexists. split; [done|]. cbn.
  assert (∀ {A} (f : A → Z) (l : list A),
            filter (λ x, (pid =? f x) = false) l = filter (λ x, f x ≠ pid) l) as Hfilter.
  { intros A f l. apply list_filter_iff. intros x. rewrite Z.eqb_neq. naive_solver. }
  split; [done|]. split; [done|].
  split; [apply (Hfilter _ OrderItem.product_id)|].
  split; [apply (Hfilter _ snd)|].
  split; [done|]. split; [done|]. split; [done|].
  split; [by rewrite lookup_delete_eq|].
  intros Href. apply (drop_products_references (Z.eqb pid)) in Href.
  destruct Href as [Hitems Hfavs]. cbn in Hitems, Hfavs. split; cbn.
  - apply Forall_forall. intros oi Hin.
    pose proof Hin as [Hkeep _]%list_elem_of_filter.
    rewrite Forall_forall in Hitems. destruct (Hitems _ Hin) as [q Hq].
    apply map_lookup_filter_Some_1_1 in Hq.
    exists q. rewrite lookup_delete_ne; [done|]. apply Z.eqb_neq in Hkeep. done.
  - apply Forall_forall. intros uf Hin.
    pose proof Hin as [Hkeep _]%list_elem_of_filter.
    rewrite Forall_forall in Hfavs. destruct (Hfavs _ Hin) as [q Hq].
    apply map_lookup_filter_Some_1_1 in Hq.
    exists q. rewrite lookup_delete_ne; [done|]. apply Z.eqb_neq in Hkeep. done.
Qed.

Lemma delete_product_cascade_witness :
  (∃ w',
     crud.delete_product 1 nike_admin (open_session shop) = (Ok tt, w')
     ∧ pending w' = committed w'
     ∧ products (committed w') = delete 1 (products (pending (open_session shop)))
     ∧ order_items (committed w')
       = filter (λ oi, OrderItem.product_id oi ≠ 1)
                (order_items (pending (open_session shop)))
     ∧ user_favourites (committed w')
       = filter (λ uf, uf.2 ≠ 1) (user_favourites (pending (open_session shop)))
     ∧ orders (committed w') = orders (pending (open_session shop))
     ∧ users (committed w') = users (pending (open_session shop))
     ∧ tenants (committed w') = tenants (pending (open_session shop))
     ∧ crud.get_product 1 w' = (Ok None, w')
     ∧ (references_ok (pending (open_session shop)) → references_ok (committed w')))
  ∧ (∀ w0, products (pending w0) !! 1 = None →
           crud.delete_product 1 nike_admin w0
           = (Raise (ResourceNotFoundError "Product"), w0)).
Proof.
  apply (delete_product_cascade 1 nike_admin air_max (open_session shop)).
  - reflexivity.
  - reflexivity.
Defined.

(** ** Products *)

(** X5. The handler of [PUT /{tenant}/products/{id}], for a product of the
    path tenant and a caller who may mutate it.  When the database takes the
    new row, the committed row has, field by field, the value the body sets
    and the former value where the body sets none (the price as the database
    stores it); its id and owning tenant are those of the product, the body
    having neither field, so that no product moves to another tenant this
    way.  The row read back under the id is that row; every other product,
    and every order item (with its price snapshot), favourite and order, is
    as before.  When the database refuses the row (see [flush_product]) the
    session is rolled back and nothing is committed.  Through the path of a
    tenant that does not own the product, the handler answers 404 and nothing
    changes, whoever calls. *)
Theorem update_product_effect (pid : Z) (updates : schemas.ProductUpdates)
    (user : User.t) (tenant : Tenant.t) (p : Product.t) (w : World) :
  products (pending w) !! pid = Some p →
  Product.tenant_id p = Tenant.id tenant →
  crud.may_mutate user p = true →
  (crud.flush_product pid (crud.apply_updates updates p) (pending w) = None →
   ∃ p' w',
     products.update_product pid updates user tenant w = (Ok p', w')
     ∧ Product.id p' = Product.id p
     ∧ Product.tenant_id p' = Product.tenant_id p
     ∧ Product.name p' = default (Product.name p) (schemas.upd_name updates)
     ∧ Product.description p'
       = default (Product.description p) (schemas.upd_description updates)
     ∧ Product.category p'
       = default (Product.category p) (schemas.upd_category updates)
     ∧ Product.price p'
       = sqlite_real (default (Product.price p) (schemas.upd_price updates))
     ∧ Product.available_quantity p'
       = default (Product.available_quantity p)
                 (schemas.upd_available_quantity updates)
     ∧ pending w' = committed w'
     ∧ crud.get_product pid w' = (Ok (Some p'), w')
     ∧ (∀ k, k ≠ pid → products (committed w') !! k = products (pending w) !! k)
     ∧ order_items (committed w') = order_items (pending w)
     ∧ user_favourites (committed w') = user_favourites (pending w)
     ∧ orders (committed w') = orders (pending w))
  ∧ (∀ e, crud.flush_product pid (crud.apply_updates updates p) (pending w) = Some e →
          products.update_product pid updates user tenant w
          = (Raise e, rolled_back w)
          ∧ committed (rolled_back w) = committed w
          ∧ response_status e = 500)
  ∧ (∀ other caller, Product.tenant_id p ≠ Tenant.id other →
       products.update_product pid updates caller other w
       = (Raise (ResourceNotFoundError "Product"), w)).
Proof.
  intros Hp Hten Hmay.
  assert (products.update_product pid updates user tenant w
          = crud.save_product pid (crud.apply_updates updates p) w) as Hrun.
  { unfold products.update_product.
    unfold bind at 1. unfold crud.get_product at 1, query at 1. rewrite Hp.
    unfold products.in_tenant. rewrite Hten, Z.eqb_refl. cbn [negb].
    by rewrite (update_product_run _ _ _ _ _ Hp), Hmay. }
  rewrite Hrun, save_product_run. split; [|split].
  - intros ->. eexists _, _. split; [done|]. cbn.
    unfold crud.get_product, query. cbn.
    repeat (split; [done|]).
    split; [by rewrite lookup_insert_eq|].
    split; [intros k Hne; by rewrite lookup_insert_ne|]. done.
  - intros e He. rewrite He. split; [done|]. split; [done|].
    by destruct (flush_product_refusal _ _ _ _ He) as [-> | ->].
  - intros other caller Hforeign.
    unfold products.update_product, crud.get_product. run. rewrite Hp.
    unfold products.in_tenant. apply Z.eqb_neq in Hforeign. by rewrite Hforeign.
Qed.

Lemma update_product_effect_witness :
  let updates :=
    schemas.Build_ProductUpdates (Some "Air Max 90") None (Some None)
      (Some 99.5%float) (Some 40) in
  (crud.flush_product 1 (crud.apply_updates updates air_max)
     (pending (open_session shop)) = None →
   ∃ p' w',
     products.update_product 1 updates nike_admin nike (open_session shop)
     = (Ok p', w')
     ∧ Product.id p' = Product.id air_max
     ∧ Product.tenant_id p' = Product.tenant_id air_max
     ∧ Product.name p' = default (Product.name air_max) (schemas.upd_name updates)
     ∧ Product.description p'
       = default (Product.description air_max) (schemas.upd_description updates)
     ∧ Product.category p'
       = default (Product.category air_max) (schemas.upd_category updates)
     ∧ Product.price p'
       = sqlite_real (default (Product.price air_max) (schemas.upd_price updates))
     ∧ Product.available_quantity p'
       = default (Product.available_quantity air_max)
                 (schemas.upd_available_quantity updates)
     ∧ pending w' = committed w'
     ∧ crud.get_product 1 w' = (Ok (Some p'), w')
     ∧ (∀ k, k ≠ 1 → products (committed w') !! k
                     = products (pending (open_session shop)) !! k)
     ∧ order_items (committed w') = order_items (pending (open_session shop))
     ∧ user_favourites (committed w') = user_favourites (pending (open_session shop))
     ∧ orders (committed w') = orders (pending (open_session shop)))
  ∧ (∀ e, crud.flush_product 1 (crud.apply_updates updates air_max)
            (pending (open_session shop)) = Some e →
          products.update_product 1 updates nike_admin nike (open_session shop)
          = (Raise e, rolled_back (open_session shop))
          ∧ committed (rolled_back (open_session shop)) = committed (open_session shop)
          ∧ response_status e = 500)
  ∧ (∀ other caller, Product.tenant_id air_max ≠ Tenant.id other →
       products.update_product 1 updates caller other (open_session shop)
       = (Raise (ResourceNotFoundError "Product"), open_session shop)).
Proof.
  apply (update_product_effect 1
           (schemas.Build_ProductUpdates (Some "Air Max 90") None (Some None)
              (Some 99.5%float) (Some 40))
           nike_admin nike air_max (open_session shop)).
  - reflexivity.
  - reflexivity.
  - reflexivity.
Defined.

(** The update of the witness, and a renaming of Nike's second product to the
    name of the first, which the unique constraint stops. *)
Example update_product_on_sample :
  (∃ w',
     products.update_product 1
       (schemas.Build_ProductUpdates (Some "Air Max 90") None (Some None)
          (Some 99.5%float) (Some 40))
       nike_admin nike (open_session shop)
     = (Ok {| Product.id := 1; Product.name := "Air Max 90";
              Product.description := None; Product.category := None;
              Product.price := 99.5%float; Product.available_quantity := 40;
              Product.tenant_id := 1 |}, w'))
  ∧ products.update_product 3 (rename_to "Air Max") nike_admin nike
      (open_session nike_shop)
    = (Raise IntegrityError, open_session nike_shop).
Proof. split; [eexists; by vm_compute|by vm_compute]. Qed.

(** ** Favourites *)

Lemma filter_all {A} (P : A → Prop) `{∀ x, Decision (P x)} (l : list A) :
  Forall P l → filter P l = l.
Proof.
  induction 1 as [|x l Hx _ IH]; [done|].
  rewrite filter_cons_True by done. by rewrite IH.
Qed.

(** X6. A favourite is a pair of a user and a product that is there at most
    once.  Adding a pair that is there raises [ResourceAlreadyExistsError] and
    removing one that is not raises [ResourceNotFoundError], both without
    change.  Adding a new pair appends it and commits, after which adding it
    again is refused; removing a pair takes it out and leaves every other
    pair; removing right after adding gives back the favourites as they
    were. *)
Theorem favourites_add_remove (user : User.t) (product : Product.t) (w : World) :
  let pair := (User.id user, Product.id product) in
  (pair ∈ user_favourites (pending w) →
     crud.add_favourite user product w
     = (Raise (ResourceAlreadyExistsError "Favourite"), w)
     ∧ ∃ w',
         crud.remove_favourite user product w = (Ok user, w')
         ∧ pending w' = committed w'
         ∧ (pair ∉ user_favourites (committed w'))
         ∧ ∀ q, q ≠ pair →
                (q ∈ user_favourites (committed w') ↔ q ∈ user_favourites (pending w)))
  ∧ (pair ∉ user_favourites (pending w) →
     crud.remove_favourite user product w
     = (Raise (ResourceNotFoundError "Favourite"), w)
     ∧ ∃ w1,
         crud.add_favourite user product w = (Ok user, w1)
         ∧ pending w1 = committed w1
         ∧ user_favourites (committed w1) = (user_favourites (pending w) ++ [pair])%list
         ∧ crud.add_favourite user product w1
           = (Raise (ResourceAlreadyExistsError "Favourite"), w1)
         ∧ ∃ w2,
             crud.remove_favourite user product w1 = (Ok user, w2)
             ∧ user_favourites (committed w2) = user_favourites (pending w)).
Proof.
  cbn zeta. split.
  - intros Hin. unfold crud.add_favourite, crud.remove_favourite, crud.is_favourite.
    run. rewrite bool_decide_true by done. split; [done|].
    eexists. split; [done|]. cbn. split; [done|]. split.
    + intros [Hne _]%list_elem_of_filter. done.
    + intros q Hq. rewrite list_elem_of_filter. split; [by intros [_ ?]|by split].
  - intros Hnot. unfold crud.add_favourite, crud.remove_favourite, crud.is_favourite.
    run. rewrite bool_decide_false by done. split; [done|].
    eexists. split; [done|]. cbn. split; [done|]. split; [done|].
    rewrite bool_decide_true by (apply elem_of_app; right; by constructor).
    split; [done|]. eexists. split; [done|]. cbn.
    rewrite filter_app, filter_cons_False, filter_nil, app_nil_r by naive_solver.
    apply filter_all. apply Forall_forall. intros q Hq ->. done.
Qed.

(** The endpoints look the product up first: an id without product is
    answered with status 404 before anything is asked of the favourites. *)
Lemma favourite_of_missing_product (product_id : Z) (user : User.t) (w : World) :
  products (pending w) !! product_id = None →
  users.mark_favourite product_id user w = (Raise (ResourceNotFoundError "Product"), w)
  ∧ users.unmark_favourite product_id user w
    = (Raise (ResourceNotFoundError "Product"), w).
Proof.
  intros Hnone. unfold users.mark_favourite, users.unmark_favourite, crud.get_product.
  run. by rewrite Hnone.
Qed.

Lemma py_slice_page {A} (l : list A) (skip limit : Z) :
  0 ≤ skip → 0 ≤ limit →
  py_slice l skip (skip + limit) = take (Z.to_nat limit) (drop (Z.to_nat skip) l).
Proof.
  intros Hs Hl. unfold py_slice, py_index.
  destruct (skip <? 0) eqn:H1; [apply Z.ltb_lt in H1; lia|].
  destruct (skip + limit <? 0) eqn:H2; [apply Z.ltb_lt in H2; lia|].
  destruct (decide (Z.of_nat (length l) ≤ skip)) as [Hge|Hlt].
  - rewrite !Z.min_r by lia. rewrite Z.sub_diag.
    rewrite (drop_ge l (Z.to_nat skip)) by lia.
    change (Z.to_nat 0) with 0%nat. rewrite take_0. by destruct (Z.to_nat limit).
  - rewrite (Z.min_l skip) by lia.
    destruct (decide (skip + limit ≤ Z.of_nat (length l))) as [Hin|Hout].
    + rewrite Z.min_l by lia. f_equal. lia.
    + rewrite Z.min_r by lia.
      rewrite !take_ge; [done| |]; rewrite length_drop; lia.
Qed.

Lemma elem_of_favourite_ids (user : User.t) (d : DB) (pid : Z) :
  pid ∈ merge_sort Z.le (crud.favourite_ids user d)
  ↔ (User.id user, pid) ∈ user_favourites d.
Proof.
  rewrite merge_sort_Permutation. unfold crud.favourite_ids.
  rewrite list_elem_of_omap. split.
  - intros ([uid pid'] & Hin & Hf). cbn in Hf.
    destruct (uid =? User.id user) eqn:Hu; [|done].
    apply Z.eqb_eq in Hu as ->. by injection Hf as ->.
  - intros Hin. exists (User.id user, pid). split; [done|]. cbn.
    by rewrite Z.eqb_refl.
Qed.

Lemma elem_of_favourites_of (user : User.t) (d : DB) (p : Product.t) :
  p ∈ crud.favourites_of user d
  ↔ ∃ pid, (User.id user, pid) ∈ user_favourites d ∧ products d !! pid = Some p.
Proof.
  unfold crud.favourites_of. rewrite list_elem_of_omap.
  split; intros (pid & Hin & Hp); exists pid; split; try done;
    by apply elem_of_favourite_ids.
Qed.

Lemma favourites_of_sorted (user : User.t) (d : DB) :
  product_keys_ok d → StronglySorted by_id (crud.favourites_of user d).
Proof.
  intros Hkeys. unfold crud.favourites_of.
  pose proof (StronglySorted_merge_sort Z.le (crud.favourite_ids user d)) as Hs.
  induction Hs as [|x l _ IH Hall]; [constructor|].
  cbn. destruct (products d !! x) as [p|] eqn:Hp; [|exact IH].
  constructor; [exact IH|].
  apply Forall_forall. intros q (y & Hy & Hq)%list_elem_of_omap.
  rewrite Forall_forall in Hall. unfold by_id.
  rewrite (Hkeys _ _ Hp), (Hkeys _ _ Hq). by apply Hall.
Qed.

(** X7. The favourites listing gives the favourites by product id, whatever
    the order they were marked in.  For [skip >= 0] and [limit >= 0] it is
    the page of at most [limit] favourites that follows the first [skip] in
    that order; it holds only products of the store that this user has
    marked, and with [skip = 0] and a large enough [limit] all of them;
    consecutive pages fit together: the page at [skip] of size [limit]
    followed by the page at [skip + limit] is the page at [skip] of the two
    sizes together. *)
Theorem list_favourites_pages (user : User.t) (skip limit : Z) (w : World) :
  0 ≤ skip → 0 ≤ limit → product_keys_ok (pending w) →
  ∃ page,
    crud.list_favourites user skip limit w = (Ok page, w)
    ∧ page = take (Z.to_nat limit)
               (drop (Z.to_nat skip) (crud.favourites_of user (pending w)))
    ∧ (length page ≤ Z.to_nat limit)%nat
    ∧ StronglySorted by_id page
    ∧ StronglySorted by_id (crud.favourites_of user (pending w))
    ∧ (∀ p, p ∈ crud.favourites_of user (pending w)
            ↔ (User.id user, Product.id p) ∈ user_favourites (pending w)
              ∧ products (pending w) !! Product.id p = Some p)
    ∧ (∀ p, p ∈ page → p ∈ crud.favourites_of user (pending w))
    ∧ (skip = 0 →
       Z.of_nat (length (crud.favourites_of user (pending w))) ≤ limit →
       page = crud.favourites_of user (pending w))
    ∧ ∀ limit2, 0 ≤ limit2 →
        ∃ page2,
          crud.list_favourites user (skip + limit) limit2 w = (Ok page2, w)
          ∧ crud.list_favourites user skip (limit + limit2) w
            = (Ok (page ++ page2)%list, w).
Proof.
  intros Hs Hl Hkeys. unfold crud.list_favourites, query.
  pose proof (favourites_of_sorted user (pending w) Hkeys) as Hsorted.
  eexists. split; [done|]. rewrite py_slice_page by done.
  split; [done|]. split; [rewrite length_take; lia|]. split.
  { rewrite <- (take_drop (Z.to_nat skip) (crud.favourites_of user (pending w)))
      in Hsorted.
    apply StronglySorted_app_1_r in Hsorted.
    rewrite <- (take_drop (Z.to_nat limit)
                  (drop (Z.to_nat skip) (crud.favourites_of user (pending w))))
      in Hsorted.
    by apply StronglySorted_app_1_l in Hsorted. }
  split; [done|]. split.
  { intros p. rewrite elem_of_favourites_of. split.
    - intros (pid & Hin & Hp). by rewrite (Hkeys _ _ Hp).
    - intros [Hin Hp]. by exists (Product.id p). }
  split; [intros p Hin; by apply subseteq_take, subseteq_drop in Hin|].
  split.
  { intros -> Hall. change (Z.to_nat 0) with 0%nat. rewrite drop_0.
    apply take_ge. lia. }
  intros limit2 Hl2. eexists. split; [done|].
  rewrite !py_slice_page by lia.
  rewrite !Z2Nat.inj_add by lia.
  rewrite <- take_take_drop, drop_drop. done.
Qed.

Lemma list_favourites_pages_witness :
  ∃ page,
    crud.list_favourites john_doe 5 5 (open_session big_shop)
    = (Ok page, open_session big_shop)
    ∧ page = take (Z.to_nat 5)
               (drop (Z.to_nat 5)
                  (crud.favourites_of john_doe (pending (open_session big_shop))))
    ∧ (length page ≤ Z.to_nat 5)%nat
    ∧ StronglySorted by_id page
    ∧ StronglySorted by_id
        (crud.favourites_of john_doe (pending (open_session big_shop)))
    ∧ (∀ p, p ∈ crud.favourites_of john_doe (pending (open_session big_shop))
            ↔ (User.id john_doe, Product.id p)
                ∈ user_favourites (pending (open_session big_shop))
              ∧ products (pending (open_session big_shop)) !! Product.id p = Some p)
    ∧ (∀ p, p ∈ page →
            p ∈ crud.favourites_of john_doe (pending (open_session big_shop)))
    ∧ (5 = 0 →
       Z.of_nat (length (crud.favourites_of john_doe
                           (pending (open_session big_shop)))) ≤ 5 →
       page = crud.favourites_of john_doe (pending (open_session big_shop)))
    ∧ ∀ limit2, 0 ≤ limit2 →
        ∃ page2,
          crud.list_favourites john_doe (5 + 5) limit2 (open_session big_shop)
          = (Ok page2, open_session big_shop)
          ∧ crud.list_favourites john_doe 5 (5 + limit2) (open_session big_shop)
            = (Ok (page ++ page2)%list, open_session big_shop).
Proof.
  apply (list_favourites_pages john_doe 5 5 (open_session big_shop)).
  - lia.
  - lia.
  - unfold product_keys_ok. apply (bool_decide_unpack _). vm_compute. exact I.
Defined.

(** Marked in the order 2, 1, listed in the order 1, 2. *)
Example favourites_listed_by_id :
  crud.list_favourites john_doe 0 10 (open_session shop_with_favourites)
  = (Ok [air_max; superstar], open_session shop_with_favourites).
Proof. by vm_compute. Qed.

(** ** Guards *)

Lemma require_tenant_user_spec (tenant : Tenant.t) (user : User.t) (w : World) :
  let member :=
    User.role user = "platform_admin"
    ∨ ((User.role user = "tenant_admin" ∨ User.role user = "user")
       ∧ Tenant.id <$> dependencies.user_tenant user (pending w)
         = Some (Tenant.id tenant)) in
  (member ∧ dependencies.require_tenant_user tenant user w = (Ok user, w))
  ∨ (¬ member
     ∧ dependencies.require_tenant_user tenant user w
       = (Raise PermissionDeniedError, w)).
Proof.
  cbn zeta. unfold dependencies.require_tenant_user.
  destruct (String.eqb (User.role user) "platform_admin") eqn:Hpa.
  { apply String.eqb_eq in Hpa. left. split; [by left|done]. }
  apply String.eqb_neq in Hpa. run.
  destruct (dependencies.user_tenant user (pending w)) as [st|]; cbn.
  2:{ right. split; [|done]. intros [?|[_ ?]]; done. }
  destruct (Tenant.id st =? Tenant.id tenant) eqn:Hid; cbn.
  2:{ apply Z.eqb_neq in Hid. right. split; [|done]. intros [?|[_ [= ?]]]; done. }
  apply Z.eqb_eq in Hid.
  destruct (String.eqb (User.role user) "tenant_admin") eqn:Hta; cbn.
  { apply String.eqb_eq in Hta. left. split; [|done]. right. by rewrite Hid; split; [left|]. }
  destruct (String.eqb (User.role user) "user") eqn:Hu; cbn.
  { apply String.eqb_eq in Hu. left. split; [|done]. right. by rewrite Hid; split; [right|]. }
  apply String.eqb_neq in Hta, Hu. right. split; [|done].
  intros [?|[[?|?] _]]; done.
Qed.

(** X8. The three guards are ordered.  Each either returns the user it was
    given or raises [PermissionDeniedError], and reads the store without
    changing it.  Whoever passes [require_platform_admin] passes
    [require_tenant_admin] for every tenant, and whoever passes
    [require_tenant_admin] for a tenant passes [require_tenant_user] for it.
    [require_tenant_user] lets through exactly the platform admins and the
    tenant's own users with role [tenant_admin] or [user]. *)
Theorem guards_ordered (tenant : Tenant.t) (user : User.t) (w : World) :
  (dependencies.require_platform_admin user w = (Ok user, w)
   ∨ dependencies.require_platform_admin user w = (Raise PermissionDeniedError, w))
  ∧ (dependencies.require_tenant_admin tenant user w = (Ok user, w)
     ∨ dependencies.require_tenant_admin tenant user w
       = (Raise PermissionDeniedError, w))
  ∧ (dependencies.require_tenant_user tenant user w = (Ok user, w)
     ∨ dependencies.require_tenant_user tenant user w
       = (Raise PermissionDeniedError, w))
  ∧ (dependencies.require_platform_admin user w = (Ok user, w)
     ↔ User.role user = "platform_admin")
  ∧ (dependencies.require_platform_admin user w = (Ok user, w) →
     dependencies.require_tenant_admin tenant user w = (Ok user, w))
  ∧ (dependencies.require_tenant_admin tenant user w = (Ok user, w) →
     dependencies.require_tenant_user tenant user w = (Ok user, w))
  ∧ (dependencies.require_tenant_user tenant user w = (Ok user, w)
     ↔ User.role user = "platform_admin"
       ∨ ((User.role user = "tenant_admin" ∨ User.role user = "user")
          ∧ Tenant.id <$> dependencies.user_tenant user (pending w)
            = Some (Tenant.id tenant))).
Proof.
  assert (dependencies.require_platform_admin user w
          = if String.eqb (User.role user) "platform_admin"
            then (Ok user, w) else (Raise PermissionDeniedError, w)) as Hpa.
  { unfold dependencies.require_platform_admin.
    by destruct (String.eqb (User.role user) "platform_admin"). }
  pose proof (require_tenant_admin_spec tenant user w) as Hta.
  pose proof (require_tenant_user_spec tenant user w) as Htu. cbn zeta in Htu.
  unfold guard_allowed in Hta.
  rewrite Hpa.
  destruct (String.eqb (User.role user) "platform_admin") eqn:Hrole;
    [apply String.eqb_eq in Hrole|apply String.eqb_neq in Hrole].
  - destruct Hta as [[_ ->]|[Hno _]]; [|destruct Hno; by left].
    destruct Htu as [[_ ->]|[Hno _]]; [|destruct Hno; by left].
    repeat split; eauto.
  - split; [by right|].
    destruct Hta as [[Ha ->]|[Ha ->]], Htu as [[Hu ->]|[Hu ->]];
      repeat split; eauto; try done.
    exfalso. apply Hu. destruct Ha as [?|[? ?]]; [done|]. right. split; [by left|done].
Qed.

(** ** Identity resolution, continued *)

Lemma get_user_by_username_spec (name : string) (d : DB) :
  match first_where (λ u, String.eqb (User.username u) name) (users d) with
  | Some u => (∃ k, users d !! k = Some u) ∧ User.username u = name
  | None => ¬ username_taken name d
  end.
Proof.
  destruct (first_where _ _) as [u|] eqn:Hf.
  - apply first_where_Some in Hf as [Hm Hk]. split; [done|]. by apply String.eqb_eq.
  - intros (k & u & Hk & Hn).
    pose proof (first_where_None _ _ Hf _ _ Hk) as Hno. cbn in Hno.
    apply String.eqb_neq in Hno. done.
Qed.

Lemma create_user_new (username role : string) (tenant : option Tenant.t) (w : World) :
  ¬ username_taken username (pending w) →
  let u := {| User.id := fresh_id (users (pending w)); User.username := username;
              User.role := role; User.tenant_id := Tenant.id <$> tenant |} in
  crud.create_user username role tenant w = (Ok u, user_saved u w).
Proof.
  intros Hfree. pose proof (get_user_by_username_spec username (pending w)) as Hspec.
  unfold crud.create_user, crud.get_user_by_username. run.
  destruct (first_where _ _) as [u0|]; [|done].
  destruct Hspec as [[k Hk] Hn]. exfalso. apply Hfree. by exists k, u0.
Qed.

Lemma create_user_taken (username role : string) (tenant : option Tenant.t) (w : World) :
  username_taken username (pending w) →
  crud.create_user username role tenant w = (Raise (ResourceAlreadyExistsError "User"), w).
Proof.
  intros Htaken. pose proof (get_user_by_username_spec username (pending w)) as Hspec.
  unfold crud.create_user, crud.get_user_by_username. run.
  by destruct (first_where _ _).
Qed.

Lemma get_current_user_new (claims : auth.Claims) (name : string) (w : World) :
  token_username claims = Some name →
  ¬ username_taken name (pending w) →
  let u := {| User.id := fresh_id (users (pending w)); User.username := name;
              User.role := dependencies.token_role claims;
              User.tenant_id := Tenant.id <$> resolved_tenant claims (pending w) |} in
  dependencies.get_current_user (auth.Verified claims) w = (Ok u, user_saved u w).
Proof.
  intros Hname Hfree. apply token_username_Some in Hname as [Htruthy Hdef].
  pose proof (get_user_by_username_spec name (pending w)) as Hspec.
  unfold dependencies.get_current_user. rewrite Htruthy, Hdef. cbn [negb].
  unfold bind at 1. rewrite token_tenant_run.
  unfold bind at 1. unfold crud.get_user_by_username, query at 1.
  destruct (first_where _ _) as [u0|].
  - destruct Hspec as [[k Hk] Hn]. exfalso. apply Hfree. by exists k, u0.
  - by apply create_user_new.
Qed.

Lemma user_saved_new_invariants (u : User.t) (w : World) :
  User.id u = fresh_id (users (pending w)) →
  ¬ username_taken (User.username u) (pending w) →
  users (pending w) !! User.id u = None
  ∧ (user_keys_ok (pending w) → user_keys_ok (pending (user_saved u w)))
  ∧ (usernames_unique (pending w) → usernames_unique (pending (user_saved u w))).
Proof.
  intros Hid Hfree.
  assert (users (pending w) !! User.id u = None) as Hnone
    by (rewrite Hid; apply fresh_id_free).
  split; [done|]. split.
  - intros Hkeys. unfold user_keys_ok. cbn. by apply map_Forall_insert_2.
  - intros Huniq k1 u1 Hk1 k2 u2 Hk2 Heq. cbn in Hk1, Hk2.
    apply lookup_insert_Some in Hk1 as [[<- <-]|[Hne1 Hk1]];
      apply lookup_insert_Some in Hk2 as [[<- <-]|[Hne2 Hk2]]; try done.
    + exfalso. apply Hfree. exists k2, u2. by rewrite <- Heq.
    + exfalso. apply Hfree. exists k1, u1. by rewrite Heq.
    + by apply (Huniq k1 u1 Hk1 k2 u2 Hk2).
Qed.

(** X9. Identity resolution fails in three ways only, each without touching
    the store: no bearer token is [UnauthorizedError], a token that does not
    verify and verified claims without a username are [InvalidTokenError]
    (both status 401).  With a username it always succeeds: a username the
    store does not know is provisioned, the new user having the token's
    role and the tenant the token resolves to, committed under a key that was
    free, and both that user rows sit under their own id and that usernames
    are unique are kept. *)
Theorem identity_resolution_outcomes (w : World) :
  dependencies.get_current_user auth.NoToken w = (Raise UnauthorizedError, w)
  ∧ dependencies.get_current_user auth.Rejected w = (Raise InvalidTokenError, w)
  ∧ response_status UnauthorizedError = 401
  ∧ response_status InvalidTokenError = 401
  ∧ (∀ claims, token_username claims = None →
       dependencies.get_current_user (auth.Verified claims) w
       = (Raise InvalidTokenError, w))
  ∧ (∀ claims name, token_username claims = Some name →
       ∃ u w', dependencies.get_current_user (auth.Verified claims) w = (Ok u, w')
               ∧ User.username u = name)
  ∧ (∀ claims name,
       token_username claims = Some name →
       ¬ username_taken name (pending w) →
       ∃ u w',
         dependencies.get_current_user (auth.Verified claims) w = (Ok u, w')
         ∧ User.username u = name
         ∧ User.role u = dependencies.token_role claims
         ∧ User.tenant_id u = Tenant.id <$> resolved_tenant claims (pending w)
         ∧ users (pending w) !! User.id u = None
         ∧ users (committed w') = <[User.id u := u]> (users (pending w))
         ∧ pending w' = committed w'
         ∧ (user_keys_ok (pending w) → user_keys_ok (pending w'))
         ∧ (usernames_unique (pending w) → usernames_unique (pending w'))).
Proof.
  split; [done|]. split; [done|]. split; [done|]. split; [done|]. split.
  { intros claims Hnone. unfold dependencies.get_current_user.
    unfold token_username in Hnone.
    destruct (truthy (py_or (auth.preferred_username claims) (auth.sub claims)))
      eqn:Ht; [|done].
    destruct (py_or (auth.preferred_username claims) (auth.sub claims)); done. }
  assert (∀ claims name,
            token_username claims = Some name →
            ¬ username_taken name (pending w) →
            ∃ u w',
              dependencies.get_current_user (auth.Verified claims) w = (Ok u, w')
              ∧ User.username u = name
              ∧ User.role u = dependencies.token_role claims
              ∧ User.tenant_id u = Tenant.id <$> resolved_tenant claims (pending w)
              ∧ users (pending w) !! User.id u = None
              ∧ users (committed w') = <[User.id u := u]> (users (pending w))
              ∧ pending w' = committed w'
              ∧ (user_keys_ok (pending w) → user_keys_ok (pending w'))
              ∧ (usernames_unique (pending w) → usernames_unique (pending w')))
    as Hnew.
  { intros claims name Hname Hfree.
    pose proof (get_current_user_new claims name w Hname Hfree) as Hrun.
    cbn zeta in Hrun. eexists _, _. split; [exact Hrun|].
    match goal with |- context [user_saved ?u w] =>
      destruct (user_saved_new_invariants u w eq_refl Hfree) as (Hnone & Hk & Hu) end.
    repeat split; done. }
  split; [|exact Hnew].
  intros claims name Hname.
  pose proof (get_user_by_username_spec name (pending w)) as Hspec.
  destruct (first_where (λ u, String.eqb (User.username u) name) (users (pending w)))
    as [user|] eqn:Hfound.
  - destruct Hspec as [_ Hn].
    rewrite (get_current_user_known_eq _ _ _ _ Hname Hfound).
    assert (User.username (reconciled claims user (pending w)) = name) as Hrec.
    { unfold reconciled.
      destruct (negb _), (tenant_differs_b claims user (pending w)); done. }
    destruct (_ || _); eexists _, _; split; done.
  - destruct (Hnew claims name Hname Hspec) as (u & w' & Hrun & Hu & _).
    by exists u, w'.
Qed.

(** X10. A call of [get_current_user] writes at most one user row and nothing
    else: tenants, products, orders, order items, favourites and the log are
    as before, all user rows but one are as before, and the store is either
    not written at all or committed. *)
Theorem identity_resolution_frame (credentials : auth.Credentials) (w : World) :
  let w' := (dependencies.get_current_user credentials w).2 in
  tenants (pending w') = tenants (pending w)
  ∧ products (pending w') = products (pending w)
  ∧ orders (pending w') = orders (pending w)
  ∧ order_items (pending w') = order_items (pending w)
  ∧ user_favourites (pending w') = user_favourites (pending w)
  ∧ log w' = log w
  ∧ (∃ k, ∀ k', k' ≠ k → users (pending w') !! k' = users (pending w) !! k')
  ∧ (w' = w ∨ committed w' = pending w').
Proof.
  destruct (dependencies.get_current_user credentials w) as [r w'] eqn:Hrun.
  cbn [snd].
  assert (w' = w ∨ ∃ u, w' = user_saved u w) as [->|[u ->]].
  { destruct credentials as [| |claims]; try (left; by injection Hrun as _ <-).
    destruct (token_username claims) as [name|] eqn:Hname.
    2:{ left. unfold dependencies.get_current_user in Hrun.
        unfold token_username in Hname.
        destruct (truthy (py_or (auth.preferred_username claims) (auth.sub claims)))
          eqn:Ht; [by rewrite Hname in Ht|].
        by injection Hrun as _ <-. }
    pose proof (get_user_by_username_spec name (pending w)) as Hspec.
    destruct (first_where (λ u, String.eqb (User.username u) name) (users (pending w)))
      as [user|] eqn:Hfound.
    - rewrite (get_current_user_known_eq _ _ _ _ Hname Hfound) in Hrun.
      destruct (_ || _); injection Hrun as _ <-; [right; by eexists|by left].
    - rewrite (get_current_user_new claims name w Hname Hspec) in Hrun.
      injection Hrun as _ <-. right. by eexists. }
  - repeat split; try done; [by exists 0|by left].
  - cbn. repeat split; try done; [|by right].
    exists (User.id u). intros k' Hne. by rewrite lookup_insert_ne.
Qed.

(** ** Signup and login *)

(** X11. Public signup has three outcomes.  A username the store knows is
    refused with [ResourceAlreadyExistsError] and nothing is changed.  For a
    new username, an exception of the identity provider ends the request with
    status 500 and no user is created locally; any answer of the provider,
    the one meaning that it already has the user included, leads to the
    local user: role [user], no tenant, committed under a key that was free,
    with usernames still unique. *)
Theorem signup_outcomes (kc : keycloak.Admin) (data : schemas.UserSignup) (w : World) :
  let idp := keycloak.create_user kc (schemas.signup_username data)
               (schemas.signup_password data) "user" in
  (username_taken (schemas.signup_username data) (pending w) →
     users.signup kc data w = (Raise (ResourceAlreadyExistsError "User"), w))
  ∧ (¬ username_taken (schemas.signup_username data) (pending w) →
     (∀ e, idp = Raise e → users.signup kc data w = (Raise (HTTPException 500), w))
     ∧ (∀ created, idp = Ok created →
          ∃ u w',
            users.signup kc data w = (Ok u, w')
            ∧ User.username u = schemas.signup_username data
            ∧ User.role u = "user"
            ∧ User.tenant_id u = None
            ∧ users (pending w) !! User.id u = None
            ∧ users (committed w') = <[User.id u := u]> (users (pending w))
            ∧ pending w' = committed w'
            ∧ (usernames_unique (pending w) → usernames_unique (pending w')))).
Proof.
  cbn zeta.
  pose proof (get_user_by_username_spec (schemas.signup_username data) (pending w))
    as Hspec.
  split.
  - intros Htaken. unfold users.signup, crud.get_user_by_username. run.
    by destruct (first_where _ _).
  - intros Hfree.
    assert (first_where
              (λ u, String.eqb (User.username u) (schemas.signup_username data))
              (users (pending w)) = None) as Hnone.
    { destruct (first_where _ _) as [u0|]; [|done].
      destruct Hspec as [[k Hk] Hn]. exfalso. apply Hfree. by exists k, u0. }
    split.
    + intros e He. unfold users.signup.
      unfold bind at 1. unfold crud.get_user_by_username at 1, query at 1.
      rewrite Hnone. run. by rewrite He.
    + intros created Hc. unfold users.signup.
      unfold bind at 1. unfold crud.get_user_by_username at 1, query at 1.
      rewrite Hnone.
      unfold bind at 1. unfold try_except, call, bind at 1. rewrite Hc.
      cbn [fst snd ret].
      pose proof (create_user_new (schemas.signup_username data) "user" None w Hfree)
        as Hrun. cbn zeta in Hrun. rewrite Hrun.
      eexists _, _. split; [done|].
      match goal with |- context [user_saved ?u w] =>
        destruct (user_saved_new_invariants u w eq_refl Hfree) as (Hfr & _ & Hu) end.
      repeat split; done.
Qed.

(** X12. The login endpoint never answers with status 401.  When the identity
    provider does not answer 200, the [HTTPException(401)] the handler raises
    is caught by its own [except Exception] and turned into status 500, as
    is every failure of the exchange; the only other outcome is the body of a
    200 answer. *)
Theorem login_never_401 (post : Result users.Response) (w : World) :
  (∀ resp, post = Ok resp → users.status_code resp ≠ 200 →
           users.login post w = (Raise (HTTPException 500), w))
  ∧ (∀ resp body, post = Ok resp → users.status_code resp = 200 →
                  users.json resp = Ok body →
                  users.login post w = (Ok body, w))
  ∧ (∀ e w', users.login post w = (Raise e, w') → e = HTTPException 500 ∧ w' = w)
  ∧ (∀ e w', users.login post w = (Raise e, w') → response_status e ≠ 401).
Proof.
  assert (∀ e w', users.login post w = (Raise e, w') → e = HTTPException 500 ∧ w' = w)
    as Hraise.
  { intros e w'. unfold users.login. run.
    destruct post as [resp|e0]; [|by intros [= <- <-]].
    destruct (negb (users.status_code resp =? 200));
      destruct (users.json resp); by intros [= <- <-]. }
  split; [|split; [|split; [exact Hraise|]]].
  - intros resp -> Hne. unfold users.login. run.
    apply Z.eqb_neq in Hne. rewrite Hne. cbn. by destruct (users.json resp).
  - intros resp body -> Hok Hbody. unfold users.login. run.
    apply Z.eqb_eq in Hok. rewrite Hok. cbn. by rewrite Hbody.
  - intros e w' Hrun. apply Hraise in Hrun as [-> _]. done.
Qed.

(** ** The [Authorization] header *)

Lemma strip_no_space (s : string) : has_space s = false → strip s = s.
Proof.
  intros Hs. unfold strip.
  assert (lstrip s = s) as ->.
  { destruct s as [|c s']; [done|]. cbn [has_space lstrip] in Hs |- *.
    apply orb_false_iff in Hs as [-> _]. done. }
  induction s as [|c s' IH]; [done|].
  cbn [has_space rstrip] in Hs |- *. apply orb_false_iff in Hs as [Hc Hs'].
  rewrite Hc, IH by done. done.
Qed.

Lemma lstrip_spec (s : string) :
  ∃ l, s = String.append l (lstrip s)
       ∧ all_space l = true
       ∧ starts_with_space (lstrip s) = false.
Proof.
  induction s as [|c s' (l & Heq & Hl & Hstart)]; [by exists ""|].
  cbn [lstrip]. destruct (is_space c) eqn:Hc.
  - exists (String c l). split.
    + change (String c s' = String c (String.append l (lstrip s'))). by rewrite <- Heq.
    + cbn [all_space]. by rewrite Hc, Hl.
  - exists "". cbn. by rewrite Hc.
Qed.

Lemma rstrip_spec (s : string) :
  ∃ r, s = String.append (rstrip s) r
       ∧ all_space r = true
       ∧ ends_with_space (rstrip s) = false
       ∧ (starts_with_space s = false → starts_with_space (rstrip s) = false).
Proof.
  induction s as [|c s' (r & Heq & Hr & Hend & _)]; [by exists ""|].
  cbn [rstrip]. destruct (is_space c && String.eqb (rstrip s') "") eqn:Hc.
  - apply andb_true_iff in Hc as [Hc He]. apply String.eqb_eq in He.
    exists (String c s'). rewrite He in Heq.
    change (s' = r) in Heq. subst r.
    split; [done|]. cbn [all_space]. by rewrite Hc, Hr.
  - exists r. split.
    + change (String c s' = String c (String.append (rstrip s') r)).
      by rewrite <- Heq.
    + split; [done|]. split; [|done].
      destruct (rstrip s') as [|c' t] eqn:Hrs.
      * cbn. change (String.eqb "" "") with true in Hc.
        by rewrite andb_true_r in Hc.
      * exact Hend.
Qed.

(** What [str.strip()] gives: the string without a run of white space at its
    start and one at its end, neither starting nor ending with white space. *)
Lemma strip_spec (s : string) :
  ∃ l r, s = String.append l (String.append (strip s) r)
         ∧ all_space l = true ∧ all_space r = true
         ∧ starts_with_space (strip s) = false
         ∧ ends_with_space (strip s) = false.
Proof.
  destruct (lstrip_spec s) as (l & Hl & Hls & Hstart).
  destruct (rstrip_spec (lstrip s)) as (r & Hr & Hrs & Hend & Hkeep).
  exists l, r. unfold strip. rewrite <- Hr, <- Hl.
  split; [done|]. split; [done|]. split; [done|]. split; [by apply Hkeep|done].
Qed.

Lemma str_lower_char_not_space (c : ascii) :
  str_lower_char c ≠ " "%char → Ascii.eqb c " " = false.
Proof.
  intros Hne. apply Ascii.eqb_neq. intros ->. by apply Hne.
Qed.

Lemma parse_bearer (scheme rest : string) :
  str_lower scheme = "bearer" →
  auth.parse_authorization_header (Some (String.append scheme (String " " rest)))
  = Some (strip rest).
Proof.
  intros Hs.
  destruct scheme as [|c1 [|c2 [|c3 [|c4 [|c5 [|c6 [|c7 s]]]]]]]; try discriminate Hs.
  cbn [str_lower] in Hs. injection Hs as H1 H2 H3 H4 H5 H6.
  assert (∀ x, String.prefix "bearer " (String.append "bearer " x) = true) as Hpre
    by (intros x; destruct x; reflexivity).
  unfold auth.parse_authorization_header. cbv [String.append] in Hpre |- *.
  cbn -[strip str_lower_char Ascii.eqb String.prefix].
  rewrite H1, H2, H3, H4, H5, H6.
  change (str_lower_char " ") with " "%char. rewrite Hpre.
  rewrite !str_lower_char_not_space by (by rewrite ?H1, ?H2, ?H3, ?H4, ?H5, ?H6).
  done.
Qed.

(** X13. The bearer token of an [Authorization] header.  No header, an empty
    header and a header that does not start with the scheme [bearer] and a
    space give no token.  A header made of the scheme in any letter case, a
    space and the rest gives the rest stripped: what is left of it when a run
    of white space is taken from its start and one from its end, so that it
    neither starts nor ends with white space, the no-break space included; a
    token that has no white space comes out as it is.  When nothing is left
    of the rest, the request counts as carrying no token at all, whatever the
    verifier would say. *)
Theorem bearer_token_parsed :
  auth.parse_authorization_header None = None
  ∧ auth.parse_authorization_header (Some "") = None
  ∧ (∀ header, String.prefix "bearer " (str_lower header) = false →
       auth.parse_authorization_header (Some header) = None)
  ∧ (∀ scheme rest, str_lower scheme = "bearer" →
       ∃ token l r,
         auth.parse_authorization_header
           (Some (String.append scheme (String " " rest))) = Some token
         ∧ rest = String.append l (String.append token r)
         ∧ all_space l = true ∧ all_space r = true
         ∧ starts_with_space token = false
         ∧ ends_with_space token = false)
  ∧ (∀ scheme token, str_lower scheme = "bearer" → has_space token = false →
       auth.parse_authorization_header (Some (String.append scheme (String " " token)))
       = Some token)
  ∧ (∀ verify scheme rest, str_lower scheme = "bearer" → all_space rest = true →
       dependencies.credentials_of verify
         (Some (String.append scheme (String " " rest))) = auth.NoToken)
  ∧ (∀ verify scheme token, str_lower scheme = "bearer" → has_space token = false →
       token ≠ "" →
       dependencies.credentials_of verify
         (Some (String.append scheme (String " " token)))
       = match verify token with
         | Some claims => auth.Verified claims
         | None => auth.Rejected
         end)
  ∧ auth.parse_authorization_header (Some (with_nbsp "Bearer abc")) = Some "abc".
Proof.
  split; [done|]. split; [done|]. split.
  { intros header Hp. unfold auth.parse_authorization_header.
    destruct (negb (truthy (Some header))); [done|].
    change (default "" (Some header)) with header. by rewrite Hp. }
  split.
  { intros scheme rest Hs. rewrite parse_bearer by done.
    destruct (strip_spec rest) as (l & r & Heq & Hl & Hr & Hstart & Hend).
    by exists (strip rest), l, r. }
  split.
  { intros scheme token Hs Ht. rewrite parse_bearer by done.
    by rewrite strip_no_space. }
  split.
  { intros verify scheme rest Hs He. unfold dependencies.credentials_of.
    rewrite parse_bearer by done.
    assert (strip rest = "") as ->; [|done].
    unfold strip. assert (lstrip rest = "") as ->; [|done].
    induction rest as [|c rest IH]; [done|].
    cbn [all_space lstrip] in He |- *. apply andb_true_iff in He as [-> He].
    by apply IH. }
  split; [|reflexivity].
  intros verify scheme token Hs Ht Hne. unfold dependencies.credentials_of.
  rewrite parse_bearer, strip_no_space by done.
  cbn [truthy default]. apply String.eqb_neq in Hne. rewrite Hne. done.
Qed.

Example bearer_token_examples :
  auth.parse_authorization_header (Some "BeArEr   abc.def.ghi  ") = Some "abc.def.ghi"
  ∧ auth.parse_authorization_header (Some "Basic abc") = None
  ∧ auth.parse_authorization_header (Some "Bearer") = None
  ∧ auth.parse_authorization_header (Some "Bearer ") = Some "".
Proof. repeat split; reflexivity. Qed.

(** ** Orders, continued *)




(** A quantity of zero: the handler would raise its [ValueError], the
    endpoint answers 422 without calling it. *)
Example zero_quantity_refused :
  (∃ w', crud.create_order john_doe [item 1 0] (open_session shop)
         = (Raise (ValueError (InvalidQuantity 0)), w'))
  ∧ endpoint.post_order_as john_doe [item 1 0] (open_session shop)
    = (Raise RequestValidationError, open_session shop).
Proof. split; [eexists; by vm_compute|by vm_compute]. Qed.

(** Five Superstars are in stock: after three, four more are refused, and
    the message says that two are left. *)
Example second_line_short_of_stock :
  refusal shop [item 2 3] (item 2 4) = ValueError (InsufficientStock "Superstar" 2 4).
Proof. reflexivity. Qed.

Lemma sum_quantities_app l1 l2 :
  sum_quantities (l1 ++ l2) = sum_quantities l1 + sum_quantities l2.
Proof.
  unfold sum_quantities. induction l1 as [|it l1 IH]; cbn [foldr app]; [done|].
  rewrite IH. lia.
Qed.

Lemma create_order_stock (user : User.t) (items : list schemas.OrderItemCreate)
    (w w' : World) (o : Order.t) :
  crud.create_order user items w = (Ok o, w') →
  Order.total_quantity o = sum_quantities items
  ∧ ∀ pid,
      products (committed w') !! pid
      = (λ p, Product.set_available_quantity
                (Product.available_quantity p - ordered_quantity pid items) p)
          <$> products (pending w) !! pid.
Proof.
  intros H. apply create_order_ok in H as (r & w1 & Hloop & Ho & Hpend & Hcomm & _).
  pose proof (create_order_items_totals _ _ _ _ _ _ _ Hloop) as [Hq _].
  apply create_order_items_stock in Hloop as [_ Hstock].
  split; [rewrite Ho; cbn; rewrite Hq; apply Z.add_0_l|].
  intros pid. rewrite Hcomm, Hpend. cbn. apply Hstock.
Qed.

(** X15. An order that goes through can be placed in two parts.  If the order
    of [l1] followed by [l2] succeeds on a store, so does the order of [l1]
    on that store and then the order of [l2] on the store the first one
    leaves; the stock of every product ends the same as after the single
    order, and the quantities of the two orders add up to its quantity. *)
Theorem order_in_two_parts (user : User.t) (l1 l2 : list schemas.OrderItemCreate)
    (d : DB) (o : Order.t) :
  l1 ≠ [] → l2 ≠ [] →
  (crud.create_order user (l1 ++ l2) (open_session d)).1 = Ok o →
  ∃ o1 w1 o2 w2,
    crud.create_order user l1 (open_session d) = (Ok o1, w1)
    ∧ crud.create_order user l2 (open_session (committed w1)) = (Ok o2, w2)
    ∧ products (committed w2)
      = products (committed (crud.create_order user (l1 ++ l2) (open_session d)).2)
    ∧ Order.total_quantity o = Order.total_quantity o1 + Order.total_quantity o2.
Proof.
  intros Hne1 Hne2.
  destruct (crud.create_order user (l1 ++ l2) (open_session d)) as [r w'] eqn:Hrun.
  cbn [fst snd]. intros ->.
  assert (∀ pre it post, (l1 ++ l2)%list = (pre ++ it :: post)%list →
                         ¬ unservable d pre it) as Hall.
  { intros pre it post Heq. rewrite Heq in Hrun.
    by apply create_order_ok_servable in Hrun. }
  destruct (create_order_succeeds user l1 (open_session d) Hne1) as (o1 & w1 & Hrun1).
  { intros pre it post Heq. apply (Hall pre it (post ++ l2)%list).
    rewrite Heq, <- app_assoc. done. }
  pose proof (create_order_stock _ _ _ _ _ Hrun) as [Hq Hstock].
  pose proof (create_order_stock _ _ _ _ _ Hrun1) as [Hq1 Hstock1].
  cbn in Hstock, Hstock1.
  destruct (create_order_succeeds user l2 (open_session (committed w1)) Hne2)
    as (o2 & w2 & Hrun2).
  { intros pre it post Heq Hbad.
    apply (Hall (l1 ++ pre)%list it post); [by rewrite Heq, <- app_assoc|].
    unfold unservable in Hbad |- *. cbn in Hbad. rewrite Hstock1 in Hbad.
    destruct Hbad as [Hbad|[Hbad|(p1 & Hp1 & Hshort)]]; [by left| |].
    - right; left. by destruct (products d !! schemas.product_id it).
    - right; right. destruct (products d !! schemas.product_id it) as [p|]; [|done].
      injection Hp1 as <-. exists p. split; [done|].
      rewrite available_quantity_set in Hshort.
      rewrite ordered_quantity_app. lia. }
  pose proof (create_order_stock _ _ _ _ _ Hrun2) as [Hq2 Hstock2].
  cbn in Hstock2.
  exists o1, w1, o2, w2. split; [done|]. split; [done|]. split.
  - apply map_eq. intros pid. rewrite Hstock2, Hstock1, Hstock.
    destruct (products d !! pid) as [p|]; [|done]. cbn.
    rewrite set_available_quantity_twice, ordered_quantity_app.
    f_equal. f_equal. lia.
  - rewrite Hq, Hq1, Hq2. apply sum_quantities_app.
Qed.

Lemma order_in_two_parts_witness :
  ∃ o1 w1 o2 w2,
    crud.create_order john_doe [item 1 2] (open_session shop) = (Ok o1, w1)
    ∧ crud.create_order john_doe [item 2 1] (open_session (committed w1)) = (Ok o2, w2)
    ∧ products (committed w2)
      = products (committed (crud.create_order john_doe ([item 1 2] ++ [item 2 1])
                               (open_session shop)).2)
    ∧ Order.total_quantity
        {| Order.id := 1; Order.user_id := 1; Order.total_quantity := 3;
           Order.total_amount := 320.5%float |}
      = Order.total_quantity o1 + Order.total_quantity o2.
Proof.
  apply (order_in_two_parts john_doe [item 1 2] [item 2 1] shop
           {| Order.id := 1; Order.user_id := 1; Order.total_quantity := 3;
              Order.total_amount := 320.5%float |}).
  - discriminate.
  - discriminate.
  - vm_compute. reflexivity.
Defined.

(** X16. A successful order is a new row: the key of the order was free, the
    order belongs to the caller, the orders that were there are untouched and
    the order read back under its id is the one returned; tenants, users and
    favourites are as before. *)
Theorem order_is_new_row (user : User.t) (items : list schemas.OrderItemCreate)
    (d : DB) (o : Order.t) :
  (crud.create_order user items (open_session d)).1 = Ok o →
  let w' := (crud.create_order user items (open_session d)).2 in
  orders d !! Order.id o = None
  ∧ Order.user_id o = User.id user
  ∧ orders (committed w') = <[Order.id o := o]> (orders d)
  ∧ crud.get_order (Order.id o) w' = (Ok (Some o), w')
  ∧ tenants (committed w') = tenants d
  ∧ users (committed w') = users d
  ∧ user_favourites (committed w') = user_favourites d.
Proof.
  destruct (crud.create_order user items (open_session d)) as [r w'] eqn:Hrun.
  cbn [fst snd]. intros ->.
  apply create_order_ok in Hrun as (r & w1 & Hloop & Ho & Hpend & Hcomm & _).
  apply create_order_items_frame in Hloop as (_ & _ & Ht & Hu & Hor & Hf).
  cbn in Ht, Hu, Hor, Hf.
  unfold crud.get_order, query. rewrite Hcomm, Hpend. cbn. rewrite Hor, Ht, Hu, Hf.
  subst o. cbn [Order.id Order.user_id].
  split; [apply fresh_id_free|]. split; [done|].
  split; [by rewrite insert_insert_eq|].
  split; [by rewrite lookup_insert_eq|]. done.
Qed.

Lemma order_is_new_row_witness :
  let w' := (crud.create_order john_doe [item 1 2] (open_session shop)).2 in
  orders shop !! Order.id nike_order = None
  ∧ Order.user_id nike_order = User.id john_doe
  ∧ orders (committed w') = <[Order.id nike_order := nike_order]> (orders shop)
  ∧ crud.get_order (Order.id nike_order) w' = (Ok (Some nike_order), w')
  ∧ tenants (committed w') = tenants shop
  ∧ users (committed w') = users shop
  ∧ user_favourites (committed w') = user_favourites shop.
Proof.
  apply (order_is_new_row john_doe [item 1 2] shop nike_order).
  vm_compute. reflexivity.
Defined.

(** ** Listings *)





(** ** Tenant users, continued *)

(** X19. Deleting a tenant user is best effort towards the identity provider:
    whatever the provider answers, an exception included, the user row is
    deleted and the deletion committed; an exception is logged as a warning.
    With the user go the user's orders, the items of those orders and the
    user's favourites, and nothing else: tenants, products and the rows of
    other users stay.  A user id that is not a user of the path tenant is
    answered with [ResourceNotFoundError] and nothing is done. *)
Theorem delete_tenant_user_best_effort (kc : keycloak.Admin) (uid : Z)
    (tenant : Tenant.t) (user : User.t) (w : World) :
  users (pending w) !! uid = Some user →
  User.tenant_id user = Some (Tenant.id tenant) →
  (∃ w',
     admin.delete_tenant_user kc uid tenant w = (Ok tt, w')
     ∧ pending w' = committed w'
     ∧ users (committed w') = delete uid (users (pending w))
     ∧ tenants (committed w') = tenants (pending w)
     ∧ products (committed w') = products (pending w)
     ∧ (∀ k o, orders (committed w') !! k = Some o
               ↔ orders (pending w) !! k = Some o ∧ Order.user_id o ≠ uid)
     ∧ (∀ oi, oi ∈ order_items (committed w')
              ↔ oi ∈ order_items (pending w)
                ∧ ∀ o, orders (pending w) !! OrderItem.order_id oi = Some o →
                       Order.user_id o ≠ uid)
     ∧ (∀ uf : Z * Z, uf ∈ user_favourites (committed w')
                      ↔ uf ∈ user_favourites (pending w) ∧ uf.1 ≠ uid)
     ∧ ((∃ e, keycloak.delete_user kc (User.username user) = Raise e) →
        log w' = (log w ++ [(WARNING, "Failed to delete user from Keycloak")])%list))
  ∧ (∀ other : Tenant.t, Tenant.id other ≠ Tenant.id tenant →
       admin.delete_tenant_user kc uid other w
       = (Raise (ResourceNotFoundError "User"), w))
  ∧ (∀ w0, users (pending w0) !! uid = None →
           admin.delete_tenant_user kc uid tenant w0
           = (Raise (ResourceNotFoundError "User"), w0)).
Proof.
  intros Hu Hten. split; [|split].
  - assert (∀ d,
              (∀ k o, orders (admin.drop_user uid d) !! k = Some o
                      ↔ orders d !! k = Some o ∧ Order.user_id o ≠ uid)
              ∧ (∀ oi, oi ∈ order_items (admin.drop_user uid d)
                       ↔ oi ∈ order_items d
                         ∧ ∀ o, orders d !! OrderItem.order_id oi = Some o →
                                Order.user_id o ≠ uid)
              ∧ (∀ uf : Z * Z, uf ∈ user_favourites (admin.drop_user uid d)
                               ↔ uf ∈ user_favourites d ∧ uf.1 ≠ uid)) as Hdrop.
    { intros d. unfold admin.drop_user. cbn. split; [|split].
      - intros k o. rewrite map_lookup_filter_Some. cbn.
        rewrite Z.eqb_neq. done.
      - intros oi. rewrite list_elem_of_filter.
        destruct (orders d !! OrderItem.order_id oi) as [o|].
        + rewrite Z.eqb_neq. split.
          * intros [Hne Hin]. split; [done|]. by intros ? [= <-].
          * intros [Hin Hne]. split; [by apply Hne|done].
        + split; [intros [_ Hin]; by split|intros [Hin _]; by split].
      - intros uf. rewrite list_elem_of_filter, Z.eqb_neq. tauto. }
    unfold admin.delete_tenant_user.
    unfold bind at 1. unfold query at 1. rewrite Hu.
    rewrite bool_decide_true by done. run.
    destruct (Hdrop (pending w)) as (Ho & Hi & Hf).
    destruct (keycloak.delete_user kc (User.username user)) as [b|e].
    + eexists. split; [done|]. cbn [pending committed log].
      repeat (split; [done|]). by intros [e [=]].
    + eexists. split; [done|]. cbn [pending committed log].
      repeat (split; [done|]). done.
  - intros other Hne. unfold admin.delete_tenant_user.
    unfold bind at 1. unfold query at 1. rewrite Hu.
    rewrite bool_decide_false; [done|]. rewrite Hten. by intros [= ?].
  - intros w0 Hnone. unfold admin.delete_tenant_user.
    unfold bind at 1. unfold query at 1. by rewrite Hnone.
Qed.

Lemma delete_tenant_user_best_effort_witness :
  (∃ w',
     admin.delete_tenant_user kc_down 2 nike (open_session shop) = (Ok tt, w')
     ∧ pending w' = committed w'
     ∧ users (committed w') = delete 2 (users (pending (open_session shop)))
     ∧ tenants (committed w') = tenants (pending (open_session shop))
     ∧ products (committed w') = products (pending (open_session shop))
     ∧ (∀ k o, orders (committed w') !! k = Some o
               ↔ orders (pending (open_session shop)) !! k = Some o
                 ∧ Order.user_id o ≠ 2)
     ∧ (∀ oi, oi ∈ order_items (committed w')
              ↔ oi ∈ order_items (pending (open_session shop))
                ∧ ∀ o, orders (pending (open_session shop)) !! OrderItem.order_id oi
                       = Some o → Order.user_id o ≠ 2)
     ∧ (∀ uf : Z * Z, uf ∈ user_favourites (committed w')
                      ↔ uf ∈ user_favourites (pending (open_session shop)) ∧ uf.1 ≠ 2)
     ∧ ((∃ e, keycloak.delete_user kc_down (User.username nike_admin) = Raise e) →
        log w' = (log (open_session shop)
                  ++ [(WARNING, "Failed to delete user from Keycloak")])%list))
  ∧ (∀ other : Tenant.t, Tenant.id other ≠ Tenant.id nike →
       admin.delete_tenant_user kc_down 2 other (open_session shop)
       = (Raise (ResourceNotFoundError "User"), open_session shop))
  ∧ (∀ w0, users (pending w0) !! 2 = None →
           admin.delete_tenant_user kc_down 2 nike w0
           = (Raise (ResourceNotFoundError "User"), w0)).
Proof.
  apply (delete_tenant_user_best_effort kc_down 2 nike nike_admin (open_session shop)).
  - reflexivity.
  - reflexivity.
Defined.

(** X20. [convert_tenant_user_to_normal] does nothing to a user without
    tenant, nor to one whose tenant id is 0.  Any other user comes out as a
    [user] without tenant, which satisfies the role-tenant invariant, saved
    and committed; exactly the user's favourites among the products of the
    former tenant are removed; products are untouched; and converting again
    changes nothing. *)
Theorem convert_to_normal (user : User.t) (w : World) :
  (User.tenant_id user = None ∨ User.tenant_id user = Some 0 →
     crud.convert_tenant_user_to_normal user w = (Ok user, w))
  ∧ (∀ t, User.tenant_id user = Some t → t ≠ 0 →
       ∃ u' w',
         crud.convert_tenant_user_to_normal user w = (Ok u', w')
         ∧ u' = User.set_role "user" (User.set_tenant_id None user)
         ∧ role_tenant_ok u'
         ∧ users (committed w') = <[User.id user := u']> (users (pending w))
         ∧ pending w' = committed w'
         ∧ products (committed w') = products (pending w)
         ∧ (∀ uf, uf ∈ user_favourites (committed w')
                  ↔ uf ∈ user_favourites (pending w)
                    ∧ ¬ (uf.1 = User.id user ∧ owned_by t (pending w) uf.2 = true))
         ∧ crud.convert_tenant_user_to_normal u' w' = (Ok u', w')).
Proof.
  split.
  - unfold crud.convert_tenant_user_to_normal. intros [->| ->]; done.
  - intros t Ht Hne. unfold crud.convert_tenant_user_to_normal at 1. rewrite Ht.
    apply Z.eqb_neq in Hne. rewrite Hne. run.
    eexists _, _. split; [done|]. cbn. split; [done|]. split.
    { split; cbn; [by intros [=]|done]. }
    split; [done|]. split; [done|]. split; [done|]. split; [|done].
    intros [uid pid]. rewrite list_elem_of_filter. cbn. unfold owned_by.
    split.
    + intros [Hkeep Hin]. split; [done|]. intros [-> Hown].
      rewrite Z.eqb_refl in Hkeep. cbn in Hkeep.
      destruct (products (pending w) !! pid) as [p|]; [|done].
      apply bool_decide_eq_true in Hown. apply Z.eqb_neq in Hkeep. done.
    + intros [Hin Hno]. split; [|done].
      destruct (uid =? User.id user) eqn:Hu; [|done]. cbn.
      apply Z.eqb_eq in Hu.
      destruct (products (pending w) !! pid) as [p|]; [|done].
      apply Z.eqb_neq. intros Hown. apply Hno. split; [done|].
      by apply bool_decide_eq_true.
Qed.

(** ** Product names *)

(** X21. Only creation checks product names for letter case.  A product can
    be renamed to a name that another product of the same tenant carries in
    another letter case, a name [create_product] refuses: the unique
    constraint compares letter for letter and takes the row, the update goes
    through, and afterwards two products of the tenant have the same name,
    letter case aside, while [create_product] refuses that name before the
    renaming and after it. *)
Theorem rename_unchecked (pid other : Z) (n : string) (user : User.t)
    (p q : Product.t) (tenant : Tenant.t) (data : schemas.ProductCreate) (w : World) :
  products (pending w) !! pid = Some p →
  products (pending w) !! other = Some q →
  other ≠ pid →
  Product.tenant_id q = Product.tenant_id p →
  func_lower (Product.name q) = str_lower n →
  crud.flush_product pid (crud.apply_updates (rename_to n) p) (pending w) = None →
  crud.may_mutate user p = true →
  Tenant.id tenant = Product.tenant_id p →
  schemas.name data = n →
  crud.create_product tenant data w = (Raise (ResourceAlreadyExistsError "Product"), w)
  ∧ ∃ p' w',
      crud.update_product pid (rename_to n) user w = (Ok p', w')
      ∧ Product.name p' = n
      ∧ Product.name q ≠ n
      ∧ str_lower (Product.name q) = str_lower (Product.name p')
      ∧ products (committed w') !! pid = Some p'
      ∧ products (committed w') !! other = Some q
      ∧ ¬ product_names_unique (committed w')
      ∧ crud.create_product tenant data w'
        = (Raise (ResourceAlreadyExistsError "Product"), w').
Proof.
  intros Hp Hq Hne Hten Hcase Hflush Hmay Htid Hdata.
  assert (∀ w0, products (pending w0) !! other = Some q →
                crud.create_product tenant data w0
                = (Raise (ResourceAlreadyExistsError "Product"), w0)) as Hrefused.
  { intros w0 Hq0. rewrite create_product_run.
    assert (crud.name_taken (Tenant.id tenant) (schemas.name data) (pending w0) = true)
      as ->; [|done].
    apply name_taken_spec. exists other, q. split; [done|].
    split; [by rewrite Htid|by rewrite Hdata]. }
  split; [by apply Hrefused|].
  remember (crud.create_product tenant data) as create eqn:Hcreate.
  rewrite (update_product_run _ _ _ _ _ Hp), Hmay, save_product_run, Hflush.
  eexists _, _. split; [done|]. cbn.
  split; [done|]. split.
  { intros Hexact. unfold crud.flush_product in Hflush.
    destruct (negb (fits_int64 _)); [done|].
    destruct (PrimFloat.is_nan _); [done|]. cbn [orb] in Hflush.
    case_bool_decide as Hclash; [done|].
    apply Hclash. exists other, q. split; [done|]. cbn. by split. }
  split; [by apply folds_match|].
  split; [by rewrite lookup_insert_eq|].
  split; [by rewrite lookup_insert_ne|]. split.
  - intros Huniq. apply Hne.
    assert (products
              (committed (product_saved pid (crud.apply_updates (rename_to n) p) w))
              !! other = Some q) as Hother
      by (cbn; by rewrite lookup_insert_ne).
    apply (Huniq other q Hother pid
             (as_stored (crud.apply_updates (rename_to n) p))).
    + cbn. apply lookup_insert_eq.
    + done.
    + cbn. by apply folds_match.
  - apply (Hrefused (product_saved pid (crud.apply_updates (rename_to n) p) w)).
    cbn. by rewrite lookup_insert_ne.
Qed.

Lemma rename_unchecked_witness :
  crud.create_product nike air_max_again (open_session nike_shop)
  = (Raise (ResourceAlreadyExistsError "Product"), open_session nike_shop)
  ∧ ∃ p' w',
      crud.update_product 3 (rename_to "AIR MAX") nike_admin (open_session nike_shop)
      = (Ok p', w')
      ∧ Product.name p' = "AIR MAX"
      ∧ Product.name air_max ≠ "AIR MAX"
      ∧ str_lower (Product.name air_max) = str_lower (Product.name p')
      ∧ products (committed w') !! 3 = Some p'
      ∧ products (committed w') !! 1 = Some air_max
      ∧ ¬ product_names_unique (committed w')
      ∧ crud.create_product nike air_max_again w'
        = (Raise (ResourceAlreadyExistsError "Product"), w').
Proof.
  apply (rename_unchecked 3 1 "AIR MAX" nike_admin jordan air_max nike air_max_again
           (open_session nike_shop)).
  - reflexivity.
  - reflexivity.
  - lia.
  - reflexivity.
  - reflexivity.
  - vm_compute. reflexivity.
  - reflexivity.
  - reflexivity.
  - reflexivity.
Defined.

(** ** The search text of the listings *)

(** The characters [_] and [%] of a search text are wildcards of [LIKE]:
    ["a_r"] finds ["Air Max"], ["x"] does not; and the listing of a tenant
    without a category comes by name, with one by primary key. *)
Example search_wildcards :
  crud.ilike_contains "a_r" "Air Max" = true
  ∧ crud.ilike_contains "MAX" "Air Max" = true
  ∧ crud.ilike_contains "x%r" "Air Max" = false
  ∧ crud.ilike_contains "r%x" "Air Max" = true
  ∧ crud.ilike_contains "air_max_" "Air Max" = false
  ∧ crud.list_products nike 0 10 None None (open_session nike_shop)
    = (Ok [air_max; jordan], open_session nike_shop)
  ∧ crud.list_products nike 0 10 None (Some "_o") (open_session nike_shop)
    = (Ok [jordan], open_session nike_shop).
Proof. repeat split; by vm_compute. Qed.
